(** * snek_note: the peer synchronisation core of the collaborative editor

    A shallow embedding of [src/text_editor_v2.py]: the change record and its
    JSON codec ([TextChange.to_json] / [TextChange.from_json]), the local
    change detector ([CollaborativeTextEditor.on_text_change]), the remote
    change applier ([CollaborativeTextEditor.apply_remote_change]) and the
    peer network ([P2PNetwork.read_from_stream], [P2PNetwork.broadcast_change],
    [P2PNetwork.get_connected_peers]).

    Python values are modelled as follows.
    - [str]: a list of code points ([N], each at most 0x10FFFF for a real
      Python string); [bytes]: a list of byte values.
    - [float]: an abstract type [pyfloat] with the two conversions the JSON
      library performs on it ([float_repr], [float_of_token]).
    - [dict]: an insertion-ordered association list with unique keys.
    - exceptions: an error monad [result]; [try/except] is a [match] on it.
    - [print], [stream.write] and [asyncio.sleep]: events of an output trace. *)

From Stdlib Require Import Ascii String.
From Stdlib Require Import NArith ZArith List Bool Lia Arith.
From Stdlib Require DecimalFacts DecimalNat DecimalN.
Import ListNotations.

Local Open Scope N_scope.

(* ------------------------------------------------------------------------ *)
(** ** Python strings and bytes *)

Definition codepoint := N.
Definition pystr := list codepoint.
Definition pybytes := list N.

(** A Python string literal with ASCII content. *)
Definition lit (s : string) : pystr :=
  map N_of_ascii (list_ascii_of_string s).
Arguments lit s%_string.

Fixpoint pystr_eqb (a b : pystr) : bool :=
  match a, b with
  | [], [] => true
  | x :: a', y :: b' => (x =? y) && pystr_eqb a' b'
  | _, _ => false
  end.

(** [s[a:b]] for [0 <= a] and [0 <= b]. *)
Definition slice {A} (s : list A) (a b : nat) : list A :=
  firstn (b - a) (skipn a s).

(** Truthiness of a string: [if s:]. *)
Definition truthy (s : pystr) : bool :=
  match s with [] => false | _ :: _ => true end.

(** Named characters. *)
Definition ch_bs : N := 8.
Definition ch_tab : N := 9.
Definition ch_nl : N := 10.
Definition ch_ff : N := 12.
Definition ch_cr : N := 13.
Definition ch_space : N := 32.
Definition ch_quote : N := 34.
Definition ch_plus : N := 43.
Definition ch_comma : N := 44.
Definition ch_minus : N := 45.
Definition ch_dot : N := 46.
Definition ch_slash : N := 47.
Definition ch_colon : N := 58.
Definition ch_lbracket : N := 91.
Definition ch_backslash : N := 92.
Definition ch_rbracket : N := 93.
Definition ch_lbrace : N := 123.
Definition ch_rbrace : N := 125.

(* ------------------------------------------------------------------------ *)
(** ** Exceptions *)

Inductive exc : Type :=
| JSONDecodeError
| KeyError
| TypeError
| UnicodeError
| TclError
| IOError
| RecursionError.

Inductive result (A : Type) : Type :=
| Ok (a : A)
| Raise (e : exc).
Arguments Ok {A} a.
Arguments Raise {A} e.

Definition bind {A B} (m : result A) (k : A -> result B) : result B :=
  match m with
  | Ok a => k a
  | Raise e => Raise e
  end.

Notation "x <- m ;; k" := (bind m (fun x => k))
  (at level 61, m at next level, right associativity).
Notation "' p <- m ;; k" := (bind m (fun x => match x with p => k end))
  (at level 61, p pattern, m at next level, right associativity).

(* ------------------------------------------------------------------------ *)
(** ** Python dictionaries with string keys (insertion ordered) *)

Definition pydict (V : Type) := list (pystr * V).

(** [d[k] = v]: an existing key keeps its place, a new key goes last. *)
Fixpoint dict_set {V} (d : pydict V) (k : pystr) (v : V) : pydict V :=
  match d with
  | [] => [(k, v)]
  | (k', v') :: d' =>
      if pystr_eqb k' k then (k, v) :: d' else (k', v') :: dict_set d' k v
  end.

(** [d[k]]; [KeyError] when absent. *)
Fixpoint dict_get {V} (d : pydict V) (k : pystr) : result V :=
  match d with
  | [] => Raise KeyError
  | (k', v) :: d' => if pystr_eqb k' k then Ok v else dict_get d' k
  end.

(** [k in d]. *)
Definition dict_mem {V} (d : pydict V) (k : pystr) : bool :=
  existsb (fun kv => pystr_eqb (fst kv) k) d.

(** [del d[k]] (used under [if k in d]). *)
Definition dict_del {V} (d : pydict V) (k : pystr) : pydict V :=
  filter (fun kv => negb (pystr_eqb (fst kv) k)) d.

(** [list(d.keys())]. *)
Definition dict_keys {V} (d : pydict V) : list pystr := map fst d.

(** [dict(pairs)]: later pairs override earlier ones. *)
Definition dict_of_pairs {V} (pairs : list (pystr * V)) : pydict V :=
  fold_left (fun d kv => dict_set d (fst kv) (snd kv)) pairs [].

(* ------------------------------------------------------------------------ *)
(** ** The JSON library: string escaping ([json.encoder]) *)

(** One digit of [format(n, '04x')]. *)
Definition hexdigit (d : N) : codepoint :=
  if d <? 10 then 48 + d else 87 + d.

Definition hex4 (n : N) : pystr :=
  [hexdigit (N.shiftr n 12 mod 16); hexdigit (N.shiftr n 8 mod 16);
   hexdigit (N.shiftr n 4 mod 16); hexdigit (n mod 16)].

(** [ESCAPE_DCT]: the two-character escapes. *)
Definition escape_dct (c : codepoint) : option codepoint :=
  if c =? ch_backslash then Some ch_backslash
  else if c =? ch_quote then Some ch_quote
  else if c =? ch_bs then Some 98       (* b *)
  else if c =? ch_ff then Some 102      (* f *)
  else if c =? ch_nl then Some 110      (* n *)
  else if c =? ch_cr then Some 114      (* r *)
  else if c =? ch_tab then Some 116     (* t *)
  else None.

(** [ESCAPE_ASCII]: a backslash, a double quote, or anything outside the
    printable ASCII range from space to tilde gets replaced. *)
Definition needs_escape (c : codepoint) : bool :=
  (c =? ch_backslash) || (c =? ch_quote) || (c <? 32) || (126 <? c).

(** The [replace] callback of [py_encode_basestring_ascii]. *)
Definition replace (c : codepoint) : pystr :=
  match escape_dct c with
  | Some e => [ch_backslash; e]
  | None =>
      if c <? 0x10000 then ch_backslash :: 117 :: hex4 c
      else
        let n := c - 0x10000 in
        let s1 := N.lor 0xd800 (N.land (N.shiftr n 10) 0x3ff) in
        let s2 := N.lor 0xdc00 (N.land n 0x3ff) in
        (ch_backslash :: 117 :: hex4 s1) ++ (ch_backslash :: 117 :: hex4 s2)
  end.

Definition escape_char (c : codepoint) : pystr :=
  if needs_escape c then replace c else [c].

(** [ESCAPE_ASCII.sub(replace, s)]. *)
Definition escape_body (s : pystr) : pystr := flat_map escape_char s.

Definition py_encode_basestring_ascii (s : pystr) : pystr :=
  ch_quote :: escape_body s ++ [ch_quote].

(* ------------------------------------------------------------------------ *)
(** ** The JSON library: string scanning ([json.decoder.py_scanstring]) *)

Definition hexval (c : codepoint) : option N :=
  if (48 <=? c) && (c <=? 57) then Some (c - 48)
  else if (97 <=? c) && (c <=? 102) then Some (c - 87)
  else if (65 <=? c) && (c <=? 70) then Some (c - 55)
  else None.

(** [_decode_uXXXX] on the four characters after [\u]. *)
Definition decode_uXXXX (h1 h2 h3 h4 : codepoint) : result N :=
  match hexval h1, hexval h2, hexval h3, hexval h4 with
  | Some a, Some b, Some c, Some d => Ok (((a * 16 + b) * 16 + c) * 16 + d)
  | _, _, _, _ => Raise JSONDecodeError
  end.

(** [BACKSLASH]: the character an escape letter stands for. *)
Definition backslash_tbl (e : codepoint) : option codepoint :=
  if e =? ch_quote then Some ch_quote
  else if e =? ch_backslash then Some ch_backslash
  else if e =? ch_slash then Some ch_slash
  else if e =? 98 then Some ch_bs
  else if e =? 102 then Some ch_ff
  else if e =? 110 then Some ch_nl
  else if e =? 114 then Some ch_cr
  else if e =? 116 then Some ch_tab
  else None.

Definition is_high_surrogate (u : N) : bool := (0xd800 <=? u) && (u <=? 0xdbff).
Definition is_low_surrogate (u : N) : bool := (0xdc00 <=? u) && (u <=? 0xdfff).

Definition cons_char (c : codepoint) (r : result (pystr * pystr))
  : result (pystr * pystr) :=
  '(t, rest) <- r ;; Ok (c :: t, rest).

(** [py_scanstring(s, end)] with [strict=True]; the argument is the input
    after the opening quote, the result the decoded string and the input
    after the closing quote. *)
Fixpoint py_scanstring (s : pystr) : result (pystr * pystr) :=
  match s with
  | [] => Raise JSONDecodeError
  | c :: r =>
      if c =? ch_quote then Ok ([], r)
      else if c =? ch_backslash then
        match r with
        | [] => Raise JSONDecodeError
        | esc :: r1 =>
            if esc =? 117 then
              match r1 with
              | h1 :: h2 :: h3 :: h4 :: r2 =>
                  match decode_uXXXX h1 h2 h3 h4 with
                  | Raise e => Raise e
                  | Ok uni =>
                      match r2 with
                      | b :: u :: r3 =>
                          if is_high_surrogate uni && (b =? ch_backslash) && (u =? 117)
                          then
                            match r3 with
                            | g1 :: g2 :: g3 :: g4 :: r4 =>
                                match decode_uXXXX g1 g2 g3 g4 with
                                | Raise e => Raise e
                                | Ok uni2 =>
                                    if is_low_surrogate uni2 then
                                      cons_char
                                        (0x10000 +
                                         N.lor (N.shiftl (uni - 0xd800) 10)
                                               (uni2 - 0xdc00))
                                        (py_scanstring r4)
                                    else cons_char uni (py_scanstring r2)
                                end
                            | _ => Raise JSONDecodeError
                            end
                          else cons_char uni (py_scanstring r2)
                      | _ => cons_char uni (py_scanstring r2)
                      end
                  end
              | _ => Raise JSONDecodeError
              end
            else
              match backslash_tbl esc with
              | Some c' => cons_char c' (py_scanstring r1)
              | None => Raise JSONDecodeError
              end
        end
      else if c <? 32 then Raise JSONDecodeError
      else cons_char c (py_scanstring r)
  end.

(** The texts the codec is specified on. A Python string holds code points
    up to 0x10FFFF. Every Unicode text (a sequence of scalar values) is well
    formed in the sense below; among the strings that hold surrogate code
    points only those with a high surrogate directly before a low one are
    left out, because the decoder reads the two escapes of such a pair as
    one character above the BMP. *)
Definition valid_str (s : pystr) : bool := forallb (fun c => c <=? 0x10ffff) s.

Fixpoint no_surrogate_pair (s : pystr) : bool :=
  match s with
  | c :: r =>
      match r with
      | d :: _ => negb (is_high_surrogate c && is_low_surrogate d)
      | [] => true
      end && no_surrogate_pair r
  | [] => true
  end.

Definition well_formed (s : pystr) : bool := valid_str s && no_surrogate_pair s.

(** What may follow the escape of a high surrogate: not the escape of a low
    one. *)
Definition safe_after (T : pystr) : Prop :=
  (forall r3, T <> ch_backslash :: 117 :: r3) \/
  (exists g1 g2 g3 g4 r4 u2,
      T = ch_backslash :: 117 :: g1 :: g2 :: g3 :: g4 :: r4 /\
      decode_uXXXX g1 g2 g3 g4 = Ok u2 /\ is_low_surrogate u2 = false).

(* ------------------------------------------------------------------------ *)
(** ** Decimal numerals ([str(n)] and [int(s)] on naturals) *)

Fixpoint uint_chars (d : Decimal.uint) : pystr :=
  match d with
  | Decimal.Nil => []
  | Decimal.D0 d => 48 :: uint_chars d
  | Decimal.D1 d => 49 :: uint_chars d
  | Decimal.D2 d => 50 :: uint_chars d
  | Decimal.D3 d => 51 :: uint_chars d
  | Decimal.D4 d => 52 :: uint_chars d
  | Decimal.D5 d => 53 :: uint_chars d
  | Decimal.D6 d => 54 :: uint_chars d
  | Decimal.D7 d => 55 :: uint_chars d
  | Decimal.D8 d => 56 :: uint_chars d
  | Decimal.D9 d => 57 :: uint_chars d
  end.

Definition digit_of (c : codepoint) : option (Decimal.uint -> Decimal.uint) :=
  if c =? 48 then Some Decimal.D0 else if c =? 49 then Some Decimal.D1
  else if c =? 50 then Some Decimal.D2 else if c =? 51 then Some Decimal.D3
  else if c =? 52 then Some Decimal.D4 else if c =? 53 then Some Decimal.D5
  else if c =? 54 then Some Decimal.D6 else if c =? 55 then Some Decimal.D7
  else if c =? 56 then Some Decimal.D8 else if c =? 57 then Some Decimal.D9
  else None.

(** The digits of [s], when [s] consists of digits only. *)
Fixpoint digits_uint (s : pystr) : option Decimal.uint :=
  match s with
  | [] => Some Decimal.Nil
  | c :: t =>
      match digit_of c, digits_uint t with
      | Some k, Some d => Some (k d)
      | _, _ => None
      end
  end.

Definition decimal (n : nat) : pystr := uint_chars (Nat.to_uint n).

Definition nat_of_decimal (s : pystr) : option nat :=
  match s with
  | [] => None
  | _ :: _ => option_map Nat.of_uint (digits_uint s)
  end.

(* ------------------------------------------------------------------------ *)
(** ** UTF-8 ([str.encode('utf-8')] and [bytes.decode('utf-8')]) *)

Definition is_surrogate (c : N) : bool := (0xd800 <=? c) && (c <=? 0xdfff).

Definition utf8_char (c : codepoint) : result pybytes :=
  if c <? 0x80 then Ok [c]
  else if c <? 0x800 then
    Ok [N.lor 0xc0 (N.shiftr c 6); N.lor 0x80 (N.land c 0x3f)]
  else if c <? 0x10000 then
    if is_surrogate c then Raise UnicodeError
    else Ok [N.lor 0xe0 (N.shiftr c 12);
             N.lor 0x80 (N.land (N.shiftr c 6) 0x3f);
             N.lor 0x80 (N.land c 0x3f)]
  else if c <=? 0x10ffff then
    Ok [N.lor 0xf0 (N.shiftr c 18);
        N.lor 0x80 (N.land (N.shiftr c 12) 0x3f);
        N.lor 0x80 (N.land (N.shiftr c 6) 0x3f);
        N.lor 0x80 (N.land c 0x3f)]
  else Raise UnicodeError.

Fixpoint utf8_encode (s : pystr) : result pybytes :=
  match s with
  | [] => Ok []
  | c :: r => b <- utf8_char c ;; t <- utf8_encode r ;; Ok (b ++ t)
  end.

Definition is_cont (b : N) : bool := (0x80 <=? b) && (b <=? 0xbf).
Definition cont (b : N) : N := N.land b 0x3f.

Fixpoint utf8_decode (bs : pybytes) : result pystr :=
  match bs with
  | [] => Ok []
  | b0 :: r0 =>
      if b0 <? 0x80 then t <- utf8_decode r0 ;; Ok (b0 :: t)
      else if (0xc2 <=? b0) && (b0 <=? 0xdf) then
        match r0 with
        | b1 :: r1 =>
            if is_cont b1 then
              t <- utf8_decode r1 ;;
              Ok (N.lor (N.shiftl (N.land b0 0x1f) 6) (cont b1) :: t)
            else Raise UnicodeError
        | _ => Raise UnicodeError
        end
      else if (0xe0 <=? b0) && (b0 <=? 0xef) then
        match r0 with
        | b1 :: b2 :: r2 =>
            let c := N.lor (N.shiftl (N.land b0 0x0f) 12)
                           (N.lor (N.shiftl (cont b1) 6) (cont b2)) in
            if is_cont b1 && is_cont b2 && (0x800 <=? c) && negb (is_surrogate c)
            then t <- utf8_decode r2 ;; Ok (c :: t)
            else Raise UnicodeError
        | _ => Raise UnicodeError
        end
      else if (0xf0 <=? b0) && (b0 <=? 0xf4) then
        match r0 with
        | b1 :: b2 :: b3 :: r3 =>
            let c := N.lor (N.shiftl (N.land b0 0x07) 18)
                       (N.lor (N.shiftl (cont b1) 12)
                          (N.lor (N.shiftl (cont b2) 6) (cont b3))) in
            if is_cont b1 && is_cont b2 && is_cont b3
               && (0x10000 <=? c) && (c <=? 0x10ffff)
            then t <- utf8_decode r3 ;; Ok (c :: t)
            else Raise UnicodeError
        | _ => Raise UnicodeError
        end
      else Raise UnicodeError
  end.

(* ------------------------------------------------------------------------ *)
(** ** The document view: a [tkinter] text widget

    The widget is an external collaborator; the model keeps what the editor
    uses. The widget holds [chars] followed by a final newline that it never
    gives up; offsets count characters from the start, the final newline is
    at offset [length chars] and [end] is one past it. An index is a
    [line.column] string (lines from 1, columns from 0), possibly moved
    forward by a number of characters; the other index forms of Tk are not
    modelled and count as a bad index. *)

Record Text : Type := mkText {
  chars : pystr;
  insert_mark : nat
}.

Definition buffer (w : Text) : pystr := chars w ++ [ch_nl].

Definition tk_end (w : Text) : nat := S (length (chars w)).

Inductive tkindex : Type :=
| At (s : pystr)
| Plus (i : tkindex) (n : nat)
| END
| INSERT.

Fixpoint split_dot (s : pystr) : option (pystr * pystr) :=
  match s with
  | [] => None
  | c :: r =>
      if c =? ch_dot then Some ([], r)
      else match split_dot r with
           | Some (a, b) => Some (c :: a, b)
           | None => None
           end
  end.

Definition parse_index (s : pystr) : option (nat * nat) :=
  match split_dot s with
  | Some (l, c) =>
      match nat_of_decimal l, nat_of_decimal c with
      | Some line, Some col => Some (line, col)
      | _, _ => None
      end
  | None => None
  end.

(** Characters before the end of the line that starts [s]. *)
Fixpoint line_length (s : pystr) : nat :=
  match s with
  | [] => O
  | c :: r => if c =? ch_nl then O else S (line_length r)
  end.

(** Offset of column [col] of the line that is [line] lines below the start
    of [s], itself at offset [off]; a column past the end of the line stops
    at its newline, a line past the last one is [end]. *)
Fixpoint locate (s : pystr) (line col off : nat) {struct s} : nat :=
  match line, s with
  | O, _ => (off + Nat.min col (line_length s))%nat
  | S _, [] => S off
  | S line', c :: r =>
      if c =? ch_nl then locate r line' col (S off) else locate r line col (S off)
  end.

Definition offset_of (cs : pystr) (line col : nat) : nat :=
  match line with
  | O => O
  | S line0 => locate cs line0 col O
  end.

Fixpoint resolve (w : Text) (i : tkindex) : result nat :=
  match i with
  | At s =>
      match parse_index s with
      | Some (line, col) => Ok (offset_of (chars w) line col)
      | None => Raise TclError
      end
  | Plus i' n => o <- resolve w i' ;; Ok (Nat.min (o + n) (tk_end w))
  | END => Ok (tk_end w)
  | INSERT => Ok (insert_mark w)
  end.

(** Line and column of the offset [off] of [s], counting on from
    [(line, col)]. *)
Fixpoint line_col (s : pystr) (off line col : nat) : nat * nat :=
  match off, s with
  | S off', c :: r =>
      if c =? ch_nl then line_col r off' (S line) O else line_col r off' line (S col)
  | _, _ => (line, col)
  end.

(** [text.index(i)]. *)
Definition Text_index (w : Text) (i : tkindex) : result pystr :=
  o <- resolve w i ;;
  let '(line, col) := line_col (buffer w) o 1%nat O in
  Ok (decimal line ++ [ch_dot] ++ decimal col).

(** [text.get(i1, i2)]. *)
Definition Text_get (w : Text) (i1 i2 : tkindex) : result pystr :=
  o1 <- resolve w i1 ;;
  o2 <- resolve w i2 ;;
  Ok (slice (buffer w) o1 o2).

(** [text.insert(i, s)]: an insertion at [end] goes before the final
    newline; the insert mark moves with the text after it. *)
Definition Text_insert (w : Text) (i : tkindex) (s : pystr) : result Text :=
  o <- resolve w i ;;
  let o' := Nat.min o (length (chars w)) in
  Ok (mkText (firstn o' (chars w) ++ s ++ skipn o' (chars w))
             (if (o' <=? insert_mark w)%nat
              then (insert_mark w + length s)%nat else insert_mark w)).

(** [text.delete(i1, i2)]: the characters from [i1] up to [i2]. The final
    newline stays: a range that reaches [end] stops before it and, when it
    starts at the beginning of a line other than the first, takes the
    newline before that line instead. *)
Definition Text_delete (w : Text) (i1 i2 : tkindex) : result Text :=
  o1 <- resolve w i1 ;;
  o2 <- resolve w i2 ;;
  if (o2 <=? o1)%nat then Ok w
  else
    let at_end := (o2 =? tk_end w)%nat in
    let '(line1, col1) := line_col (buffer w) o1 1%nat O in
    let b := if at_end then (o2 - 1)%nat else o2 in
    let a := if at_end && (col1 =? 0)%nat && negb (line1 =? 1)%nat
             then (o1 - 1)%nat else o1 in
    let m := insert_mark w in
    Ok (mkText (firstn a (chars w) ++ skipn (Nat.max a b) (chars w))
               (if (m <=? a)%nat then m
                else if (m <? b)%nat then a else (m - (b - a))%nat)).

(** [text.mark_set(tk.INSERT, i)]. *)
Definition Text_mark_set (w : Text) (i : tkindex) : result Text :=
  o <- resolve w i ;; Ok (mkText (chars w) o).

(* ------------------------------------------------------------------------ *)
(** ** A concrete clock for evaluation: floats with integral values

    [repr(1700000000.0)] is the decimal digits followed by [.0]; this
    instance of the float interface covers such values (below 10^16). *)

Module IntegralFloat.

Definition t : Type := N.

Definition repr (f : t) : pystr := uint_chars (N.to_uint f) ++ [ch_dot; 48].

(** Digits, then [.0]. *)
Fixpoint chars_uint (tok : pystr) : option Decimal.uint :=
  match tok with
  | [] => None
  | c :: r =>
      if c =? ch_dot then (if pystr_eqb r [48] then Some Decimal.Nil else None)
      else match digit_of c, chars_uint r with
           | Some k, Some d => Some (k d)
           | _, _ => None
           end
  end.

Definition of_token (tok : pystr) : result t :=
  match chars_uint tok with
  | Some d => Ok (N.of_uint d)
  | None => Raise JSONDecodeError
  end.

End IntegralFloat.

(* ------------------------------------------------------------------------ *)
(** ** The JSON library: values, [json.dumps] and [json.loads] *)

Set Implicit Arguments.

Section Model.

(** Python's [float] and the two conversions [json] applies to it:
    [float.__repr__] when encoding and [float(token)] when decoding. *)
Variable pyfloat : Type.
Variable float_repr : pyfloat -> pystr.
Variable float_of_token : pystr -> result pyfloat.

Inductive json : Type :=
| JNull
| JBool (b : bool)
| JNum (f : pyfloat)
| JStr (s : pystr)
| JArr (l : list json)
| JObj (d : list (pystr * json)).

(** [json.dumps(v)] with the default separators and [ensure_ascii]. *)
Fixpoint json_dumps (v : json) : pystr :=
  match v with
  | JNull => lit "null"
  | JBool true => lit "true"
  | JBool false => lit "false"
  | JNum f => float_repr f
  | JStr s => py_encode_basestring_ascii s
  | JArr l =>
      ch_lbracket ::
      (fix items (l : list json) : pystr :=
         match l with
         | [] => []
         | [x] => json_dumps x
         | x :: l' => json_dumps x ++ lit ", " ++ items l'
         end) l ++ [ch_rbracket]
  | JObj d =>
      ch_lbrace ::
      (fix members (d : list (pystr * json)) : pystr :=
         match d with
         | [] => []
         | [(k, x)] => py_encode_basestring_ascii k ++ lit ": " ++ json_dumps x
         | (k, x) :: d' =>
             py_encode_basestring_ascii k ++ lit ": " ++ json_dumps x
               ++ lit ", " ++ members d'
         end) d ++ [ch_rbrace]
  end.

(** [WHITESPACE]: space, tab, newline, carriage return. *)
Definition is_ws (c : codepoint) : bool :=
  (c =? ch_space) || (c =? ch_tab) || (c =? ch_nl) || (c =? ch_cr).

Fixpoint skip_ws (s : pystr) : pystr :=
  match s with
  | c :: r => if is_ws c then skip_ws r else s
  | [] => []
  end.

(** The characters of a number token ([NUMBER_RE]): digits, sign, point and
    exponent marker. The token is the longest run of them; [float_of_token]
    rejects a run that is not a number, and after a value only whitespace, a
    comma or a closing bracket is accepted, so a shorter match never leads
    to a successful parse. *)
Definition is_digit (c : codepoint) : bool := (48 <=? c) && (c <=? 57).

Definition is_numchar (c : codepoint) : bool :=
  is_digit c || (c =? ch_minus) || (c =? ch_plus) || (c =? ch_dot)
  || (c =? 101) || (c =? 69).

Fixpoint span_number (s : pystr) : pystr * pystr :=
  match s with
  | c :: r =>
      if is_numchar c then let '(tok, rest) := span_number r in (c :: tok, rest)
      else ([], s)
  | [] => ([], [])
  end.

(** What [float.__repr__] yields for a finite float: a number token. *)
Definition number_token (tok : pystr) : bool :=
  match tok with
  | c :: _ => ((c =? ch_minus) || is_digit c) && forallb is_numchar tok
  | [] => false
  end.

(** [s[idx:idx+len(w)] == w]: the input after [w] when it starts with [w]. *)
Fixpoint strip_prefix (w s : pystr) : option pystr :=
  match w, s with
  | [], _ => Some s
  | a :: w', b :: s' => if a =? b then strip_prefix w' s' else None
  | _ :: _, [] => None
  end.

(** [scan_once], [JSONObject] and [JSONArray]. The recursion of the decoder
    is bounded by [fuel] (Python's recursion limit); every call consumes a
    character first, so the length of the input is always enough. *)
Fixpoint scan_once (fuel : nat) (s : pystr) {struct fuel} : result (json * pystr) :=
  match fuel with
  | O => Raise RecursionError
  | S fuel' =>
      match s with
      | [] => Raise JSONDecodeError
      | c :: r =>
          if c =? ch_quote then
            '(str, rest) <- py_scanstring r ;; Ok (JStr str, rest)
          else if c =? ch_lbrace then
            match skip_ws r with
            | c1 :: r1 =>
                if c1 =? ch_rbrace then Ok (JObj [], r1)
                else if c1 =? ch_quote then JSONObject fuel' r1 []
                else Raise JSONDecodeError
            | [] => Raise JSONDecodeError
            end
          else if c =? ch_lbracket then
            match skip_ws r with
            | c1 :: r1 =>
                if c1 =? ch_rbracket then Ok (JArr [], r1)
                else JSONArray fuel' (c1 :: r1) []
            | [] => Raise JSONDecodeError
            end
          else if c =? 110 then
            match strip_prefix (lit "null") s with
            | Some rest => Ok (JNull, rest)
            | None => Raise JSONDecodeError
            end
          else if c =? 116 then
            match strip_prefix (lit "true") s with
            | Some rest => Ok (JBool true, rest)
            | None => Raise JSONDecodeError
            end
          else if c =? 102 then
            match strip_prefix (lit "false") s with
            | Some rest => Ok (JBool false, rest)
            | None => Raise JSONDecodeError
            end
          else if (c =? ch_minus) || is_digit c then
            let '(tok, rest) := span_number s in
            f <- float_of_token tok ;; Ok (JNum f, rest)
          else Raise JSONDecodeError
      end
  end

(** The member loop of [JSONObject]; [s] starts after the opening quote of
    the next key. *)
with JSONObject (fuel : nat) (s : pystr) (pairs : list (pystr * json))
       {struct fuel} : result (json * pystr) :=
  match fuel with
  | O => Raise RecursionError
  | S fuel' =>
      '(key, s1) <- py_scanstring s ;;
      match skip_ws s1 with
      | c :: s2 =>
          if c =? ch_colon then
            '(value, s3) <- scan_once fuel' (skip_ws s2) ;;
            let pairs' := pairs ++ [(key, value)] in
            match skip_ws s3 with
            | c' :: s4 =>
                if c' =? ch_rbrace then Ok (JObj (dict_of_pairs pairs'), s4)
                else if c' =? ch_comma then
                  match skip_ws s4 with
                  | q :: s5 =>
                      if q =? ch_quote then JSONObject fuel' s5 pairs'
                      else Raise JSONDecodeError
                  | [] => Raise JSONDecodeError
                  end
                else Raise JSONDecodeError
            | [] => Raise JSONDecodeError
            end
          else Raise JSONDecodeError
      | [] => Raise JSONDecodeError
      end
  end

(** The item loop of [JSONArray]; [s] starts at the next value. *)
with JSONArray (fuel : nat) (s : pystr) (values : list json)
       {struct fuel} : result (json * pystr) :=
  match fuel with
  | O => Raise RecursionError
  | S fuel' =>
      '(value, s1) <- scan_once fuel' s ;;
      let values' := values ++ [value] in
      match skip_ws s1 with
      | c :: s2 =>
          if c =? ch_rbracket then Ok (JArr values', s2)
          else if c =? ch_comma then JSONArray fuel' (skip_ws s2) values'
          else Raise JSONDecodeError
      | [] => Raise JSONDecodeError
      end
  end.

(** [json.loads(s)]: one value, surrounded by optional whitespace. *)
Definition json_loads (s : pystr) : result json :=
  '(v, rest) <- scan_once (S (length s)) (skip_ws s) ;;
  match skip_ws rest with
  | [] => Ok v
  | _ :: _ => Raise JSONDecodeError
  end.

(** [data[key]] on a decoded value: only a dict can be indexed by a string. *)
Definition subscript (data : json) (key : pystr) : result json :=
  match data with
  | JObj d => dict_get d key
  | _ => Raise TypeError
  end.

(* ------------------------------------------------------------------------ *)
(** ** [class TextChange] *)

Record TextChange : Type := mkTextChange {
  position : pystr;    (* "line.column" *)
  insert : pystr;      (* text to insert *)
  delete : pystr;      (* text to delete *)
  timestamp : pyfloat
}.

(** [TextChange(position, insert, delete)]; [now] is the value [time.time()]
    returns. *)
Definition TextChange_init (now : pyfloat) (position insert delete : pystr)
  : TextChange :=
  mkTextChange position insert delete now.

Definition to_json (self : TextChange) : pystr :=
  json_dumps (JObj [ (lit "position", JStr (position self));
                     (lit "insert", JStr (insert self));
                     (lit "delete", JStr (delete self));
                     (lit "timestamp", JNum (timestamp self)) ]).

(** The record is typed after the annotations of [__init__] ([str] texts, a
    [float] time). The source stores whatever JSON value the payload holds;
    payloads whose fields have other JSON types are outside this typed
    embedding and are reported as [TypeError] here. *)
Definition as_str (v : json) : result pystr :=
  match v with JStr s => Ok s | _ => Raise TypeError end.

Definition as_float (v : json) : result pyfloat :=
  match v with JNum f => Ok f | _ => Raise TypeError end.

Definition from_json (now : pyfloat) (json_str : pystr) : result TextChange :=
  data <- json_loads json_str ;;
  p <- (v <- subscript data (lit "position") ;; as_str v) ;;
  let change := TextChange_init now p [] [] in
  i <- (v <- subscript data (lit "insert") ;; as_str v) ;;
  d <- (v <- subscript data (lit "delete") ;; as_str v) ;;
  t <- (v <- subscript data (lit "timestamp") ;; as_float v) ;;
  Ok (mkTextChange (position change) i d t).

(* ------------------------------------------------------------------------ *)
(** ** Observable effects *)

(** A connected stream, identified by a handle. *)
Definition Stream := nat.

(** One constructor for each [print] of the modelled methods. *)
Inductive message : Type :=
| Detected_insert (inserted position : pystr)
| Detected_delete (deleted position : pystr)
| Broadcasting_change (json_text : pystr)
| Error_handling_text_change (e : exc)
| Sent_change_to (peer_id : pystr)
| Error_sending_to (peer_id : pystr) (e : exc)
| Error_in_broadcast (e : exc)
| Applied_insert (inserted position : pystr)
| Applied_delete (deleted position : pystr)
| Warning_mismatch (deleted found position : pystr)
| Applied_delete_one (position : pystr)
| Error_applying (e : exc)
| No_data_received (peer_id : pystr)
| Error_decoding (peer_id : pystr) (e : exc)
| Received_change (peer_id message : pystr)
| Invalid_JSON (peer_id : pystr) (e : exc)
| Error_processing (peer_id : pystr) (e : exc)
| Error_reading (peer_id : pystr) (e : exc)
| Too_many_errors (peer_id : pystr)
| Stream_closed (peer_id : pystr).

Inductive event : Type :=
| Printed (m : message)
(** [stream.write(data)] on the stream of [peer_id], with its outcome. *)
| WriteTo (peer_id : pystr) (stream : Stream) (data : pybytes) (outcome : result unit)
(** [self.network.broadcast_change_sync(change)] is called. *)
| Broadcast (change : TextChange)
(** [await asyncio.sleep(seconds)]. *)
| Sleep (seconds : nat).

(* ------------------------------------------------------------------------ *)
(** ** [class P2PNetwork] *)

Record P2PNetwork : Type := mkP2PNetwork {
  streams : pydict Stream;   (* peer_id -> stream *)
  running : bool
}.

Definition with_streams (self : P2PNetwork) (d : pydict Stream) : P2PNetwork :=
  mkP2PNetwork d (running self).

(** [stream_handler] and [connect_to_peer] both register the stream under the
    identifier of its peer. *)
Definition register_stream (self : P2PNetwork) (peer_id : pystr) (stream : Stream)
  : P2PNetwork :=
  with_streams self (dict_set (streams self) peer_id stream).

Definition get_connected_peers (self : P2PNetwork) : list pystr :=
  dict_keys (streams self).

(** The loop over [current_streams.items()]: the failed peers and the
    events. [write] is what [stream.write(data)] does during this call. *)
Fixpoint write_all (write : Stream -> pybytes -> result unit) (data : pybytes)
    (items : list (pystr * Stream)) : list pystr * list event :=
  match items with
  | [] => ([], [])
  | (peer_id, stream) :: items' =>
      let '(failed_peers, evs) := write_all write data items' in
      match write stream data with
      | Ok tt =>
          (failed_peers,
           WriteTo peer_id stream data (Ok tt) :: Printed (Sent_change_to peer_id) :: evs)
      | Raise e =>
          (peer_id :: failed_peers,
           WriteTo peer_id stream data (Raise e)
             :: Printed (Error_sending_to peer_id e) :: evs)
      end
  end.

(** The clean-up loop over [failed_peers]. *)
Definition drop_failed (d : pydict Stream) (failed_peers : list pystr)
  : pydict Stream :=
  fold_left (fun d peer_id => if dict_mem d peer_id then dict_del d peer_id else d)
            failed_peers d.

Definition broadcast_change (self : P2PNetwork) (change : TextChange)
    (write : Stream -> pybytes -> result unit) : P2PNetwork * bool * list event :=
  let message := to_json change in
  match utf8_encode message with
  | Raise e => (self, false, [Printed (Error_in_broadcast e)])
  | Ok data =>
      let current_streams := streams self in
      let '(failed_peers, evs) := write_all write data current_streams in
      (with_streams self (drop_failed (streams self) failed_peers), true, evs)
  end.

(** What one turn of the read loop meets: the [running] flag or the outcome
    of [await stream.read()]; [now] is the clock when the record is built. *)
Inductive observation : Type :=
| Stopped
| ReadRaises (e : exc)
| ReadReturns (data : pybytes) (now : pyfloat).

Inductive loop_end : Type :=
| Exited
| Reading (retry_count : nat).

Definition max_retries : nat := 3.

Section ReadLoop.

(** The owner of the network and its [on_text_change_received] callback. *)
Variable App : Type.
Variable on_text_change_received : App -> TextChange -> App * list event.

(** The body of a turn after a successful, non-empty read. *)
Definition process_data (peer_id : pystr) (data : pybytes) (now : pyfloat)
    (app : App) : App * list event :=
  match utf8_decode data with
  | Raise e => (app, [Printed (Error_decoding peer_id e)])
  | Ok message =>
      match from_json now message with
      | Ok change =>
          let '(app', evs) := on_text_change_received app change in
          (app', Printed (Received_change peer_id message) :: evs)
      | Raise JSONDecodeError => (app, [Printed (Invalid_JSON peer_id JSONDecodeError)])
      | Raise e => (app, [Printed (Error_processing peer_id e)])
      end
  end.

(** The [while self.running] loop, fed with the observations of its turns;
    when they run out the loop is waiting in [stream.read()]. *)
Fixpoint read_loop (peer_id : pystr) (obs : list observation) (retry_count : nat)
    (app : App) : loop_end * App * list event :=
  match obs with
  | [] => (Reading retry_count, app, [])
  | Stopped :: _ => (Exited, app, [])
  | ReadReturns data now :: obs' =>
      match data with
      | [] => (Exited, app, [Printed (No_data_received peer_id)])
      | _ :: _ =>
          let retry_count := O in
          let '(app', evs) := process_data peer_id data now app in
          let '(fin, app'', evs') := read_loop peer_id obs' retry_count app' in
          (fin, app'', evs ++ evs')
      end
  | ReadRaises e :: obs' =>
      let retry_count := S retry_count in
      if (max_retries <=? retry_count)%nat then
        (Exited, app, [Printed (Error_reading peer_id e); Printed (Too_many_errors peer_id)])
      else
        let '(fin, app', evs) := read_loop peer_id obs' retry_count app in
        (fin, app', Printed (Error_reading peer_id e) :: Sleep 1 :: evs)
  end.

Definition read_from_stream (self : P2PNetwork) (app : App) (peer_id : pystr)
    (obs : list observation) : loop_end * P2PNetwork * App * list event :=
  let '(fin, app', evs) := read_loop peer_id obs O app in
  match fin with
  | Reading _ => (fin, self, app', evs)
  | Exited =>
      if dict_mem (streams self) peer_id then
        (fin, with_streams self (dict_del (streams self) peer_id), app',
         evs ++ [Printed (Stream_closed peer_id)])
      else (fin, self, app', evs)
  end.

End ReadLoop.

(* ------------------------------------------------------------------------ *)
(** ** [class CollaborativeTextEditor] *)

Record Editor : Type := mkEditor {
  applying_remote_change : bool;
  text_area : Text;
  previous_content : pystr;
  network : P2PNetwork
}.

Definition with_applying (self : Editor) (b : bool) : Editor :=
  mkEditor b (text_area self) (previous_content self) (network self).
Definition with_text_area (self : Editor) (w : Text) : Editor :=
  mkEditor (applying_remote_change self) w (previous_content self) (network self).
Definition with_previous_content (self : Editor) (s : pystr) : Editor :=
  mkEditor (applying_remote_change self) (text_area self) s (network self).
Definition with_network (self : Editor) (n : P2PNetwork) : Editor :=
  mkEditor (applying_remote_change self) (text_area self) (previous_content self) n.

Definition get_cursor_position (self : Editor) : result pystr :=
  Text_index (text_area self) INSERT.

(** The [for i in range(...)] loops of [on_text_change]: the first [i] of the
    range with [a[i] != b[i]], where the loop breaks. *)
Fixpoint first_mismatch (range : list nat) (a b : pystr) : option nat :=
  match range with
  | [] => None
  | i :: range' =>
      if negb (nth i a 0 =? nth i b 0) then Some i
      else first_mismatch range' a b
  end.

(** [on_text_change]; [now] is the clock, [write] the behaviour of the
    streams during the call. *)
Definition on_text_change (self : Editor) (now : pyfloat)
    (write : Stream -> pybytes -> result unit) : Editor * list event :=
  if applying_remote_change self then (self, [])
  else
    match Text_get (text_area self) (At (lit "1.0")) END with
    | Raise e => (self, [Printed (Error_handling_text_change e)])
    | Ok current_content =>
        if pystr_eqb current_content (previous_content self) then (self, [])
        else
          match get_cursor_position self with
          | Raise e => (self, [Printed (Error_handling_text_change e)])
          | Ok position =>
              let previous := previous_content self in
              let range :=
                seq O (Nat.min (length current_content) (length previous)) in
              let '(change, msg) :=
                if (length previous <? length current_content)%nat then
                  let inserted :=
                    match first_mismatch range current_content previous with
                    | Some i =>
                        slice current_content i
                          (i + length current_content - length previous)
                    | None => []
                    end in
                  (TextChange_init now position inserted [],
                   Detected_insert inserted position)
                else
                  let deleted :=
                    match first_mismatch range current_content previous with
                    | Some i =>
                        slice previous i
                          (i + length previous - length current_content)
                    | None => []
                    end in
                  (TextChange_init now position [] deleted,
                   Detected_delete deleted position) in
              let self1 := with_previous_content self current_content in
              if truthy (insert change) || truthy (delete change) then
                let '(net, _, evs) := broadcast_change (network self1) change write in
                (with_network self1 net,
                 Printed msg :: Printed (Broadcasting_change (to_json change))
                   :: Broadcast change :: evs)
              else (self1, [Printed msg])
          end
    end.

(** A call of [apply_remote_change] in progress: the editor as it is now,
    the states it went through since the call began (each of them could be
    observed by an event handler), and what it printed. *)
Record run : Type := mkRun {
  cur : Editor;
  passed : list Editor;
  out : list event
}.

Definition M (A : Type) : Type := run -> run * result A.

Definition ret {A} (a : A) : M A := fun r => (r, Ok a).

Definition bindM {A B} (m : M A) (k : A -> M B) : M B :=
  fun r => match m r with
           | (r', Ok a) => k a r'
           | (r', Raise e) => (r', Raise e)
           end.

Notation "x <~ m ;; k" := (bindM m (fun x => k))
  (at level 61, m at next level, right associativity).
Notation "m >> k" := (bindM m (fun _ => k))
  (at level 61, right associativity).

Definition moved (r : run) (s : Editor) : run :=
  mkRun s (passed r ++ [s]) (out r).

(** A statement that changes the widget. *)
Definition widget (f : Text -> result Text) : M unit :=
  fun r => match f (text_area (cur r)) with
           | Ok w => (moved r (with_text_area (cur r) w), Ok tt)
           | Raise e => (r, Raise e)
           end.

(** A statement that reads the widget. *)
Definition query {A} (f : Text -> result A) : M A :=
  fun r => (r, f (text_area (cur r))).

Definition print (m : message) : M unit :=
  fun r => (mkRun (cur r) (passed r) (out r ++ [Printed m]), Ok tt).

Definition set_previous_content (s : pystr) : M unit :=
  fun r => (moved r (with_previous_content (cur r) s), Ok tt).

(** The [try] block of [apply_remote_change]. *)
Definition apply_try (change : TextChange) : M unit :=
  (if truthy (insert change) then
     widget (fun w => Text_insert w (At (position change)) (insert change)) >>
     print (Applied_insert (insert change) (position change)) >>
     new_pos <~ query (fun w =>
       Text_index w (Plus (At (position change)) (length (insert change)))) ;;
     widget (fun w => Text_mark_set w (At new_pos))
   else if truthy (delete change) then
     let pos := position change in
     let delete_length := length (delete change) in
     (if (0 <? delete_length)%nat then
        text_to_check <~ query (fun w =>
          Text_get w (At pos) (Plus (At pos) delete_length)) ;;
        if pystr_eqb text_to_check (delete change) then
          widget (fun w => Text_delete w (At pos) (Plus (At pos) delete_length)) >>
          print (Applied_delete (delete change) (position change))
        else
          print (Warning_mismatch (delete change) text_to_check pos) >>
          widget (fun w => Text_delete w (At pos) (Plus (At pos) 1))
      else
        widget (fun w => Text_delete w (At pos) (Plus (At pos) 1)) >>
        print (Applied_delete_one (position change))) >>
     widget (fun w => Text_mark_set w (At pos))
   else ret tt) >>
  content <~ query (fun w => Text_get w (At (lit "1.0")) END) ;;
  set_previous_content content.

Definition apply_remote_change (self : Editor) (change : TextChange) : run :=
  let r0 := moved (mkRun self [] []) (with_applying self true) in
  let r1 :=
    match apply_try change r0 with
    | (r, Ok _) => r
    | (r, Raise e) => mkRun (cur r) (passed r) (out r ++ [Printed (Error_applying e)])
    end in
  mkRun (with_applying (cur r1) false) (passed r1) (out r1).

(** The network is created with the applier as its callback. *)
Definition editor_callback (self : Editor) (change : TextChange)
  : Editor * list event :=
  let r := apply_remote_change self change in (cur r, out r).

(* ------------------------------------------------------------------------ *)
(** ** [class CollaborativeTextEditor]: the file menu *)

(** What the file menu does outside the editor: the text handed to
    [file.write] and the error boxes shown. *)
Inductive file_event : Type :=
| File_written (content : pystr)
| Could_not_open (e : exc)
| Could_not_save (e : exc).

(** [new_file]: no handler around the call. *)
Definition new_file (self : Editor) : result Editor :=
  w <- Text_delete (text_area self) (At (lit "1.0")) END ;;
  Ok (with_text_area self w).

(** [open_file]; [file_path] is what the dialog returns (empty when it is
    cancelled), [read] what opening the file and [file.read()] give. *)
Definition open_file (self : Editor) (file_path : pystr) (read : result pystr)
  : Editor * list file_event :=
  if truthy file_path then
    match read with
    | Raise e => (self, [Could_not_open e])
    | Ok content =>
        match Text_delete (text_area self) (At (lit "1.0")) END with
        | Raise e => (self, [Could_not_open e])
        | Ok w1 =>
            match Text_insert w1 END content with
            | Raise e => (with_text_area self w1, [Could_not_open e])
            | Ok w2 => (with_text_area self w2, [])
            end
        end
    end
  else (self, []).

(** [save_file]; [write] is what opening the file and [file.write(content)]
    do. *)
Definition save_file (self : Editor) (file_path : pystr)
    (write : pystr -> result unit) : list file_event :=
  if truthy file_path then
    match Text_get (text_area self) (At (lit "1.0")) END with
    | Raise e => [Could_not_save e]
    | Ok content =>
        match write content with
        | Ok _ => [File_written content]
        | Raise e => [Could_not_save e]
        end
    end
  else [].

(* ------------------------------------------------------------------------ *)
(** ** Vocabulary of the properties *)

(** The records handed to [broadcast_change_sync], in order. *)
Definition broadcasts (out : list event) : list TextChange :=
  flat_map (fun e => match e with Broadcast c => [c] | _ => [] end) out.

(** The writes attempted on the streams, in order. *)
Definition writes (out : list event)
  : list (pystr * Stream * pybytes * result unit) :=
  flat_map (fun e => match e with
                     | WriteTo p s d o => [(p, s, d, o)]
                     | _ => []
                     end) out.

(** The write on the stream of a registered peer goes through. *)
Definition write_ok (write : Stream -> pybytes -> result unit) (data : pybytes)
    (item : pystr * Stream) : bool :=
  match write (snd item) data with Ok _ => true | Raise _ => false end.

(** A diagnostic that reports a change as an insertion or as a deletion. *)
Definition reports_edit (e : event) : bool :=
  match e with
  | Printed (Detected_insert _ _) | Printed (Detected_delete _ _) => true
  | _ => false
  end.

(** [i] is the first index at which [a] and [b] differ, scanning from 0 (an
    index past the end of one of them differs from any character). *)
Definition first_diff (a b : pystr) (i : nat) : Prop :=
  nth_error a i <> nth_error b i /\
  forall j, (j < i)%nat -> nth_error a j = nth_error b j.

(** Exactly one of the two texts of a record is non-empty. *)
Definition one_sided (c : TextChange) : Prop :=
  (insert c <> [] /\ delete c = []) \/ (insert c = [] /\ delete c <> []).

(** [pos] is the [line.column] index of the offset [o] of the widget, a
    place before its final newline: what [get_cursor_position] returns with
    the cursor there. *)
Definition addresses (w : Text) (pos : pystr) (o : nat) : Prop :=
  parse_index pos = Some (line_col (buffer w) o 1%nat O) /\
  (o <= length (chars w))%nat.

(** The snapshot is the content of the widget: no local edit is pending. *)
Definition in_sync (self : Editor) : Prop :=
  previous_content self = buffer (text_area self).

(** The four keys that [from_json] looks up. *)
Definition has_record_keys (d : pydict json) : bool :=
  dict_mem d (lit "position") && dict_mem d (lit "insert")
  && dict_mem d (lit "delete") && dict_mem d (lit "timestamp").

(** A payload that cannot become a record, whatever its fields hold: bytes
    that are not UTF-8, a JSON text that is not an object, or an object
    without one of the four keys. *)
Definition not_a_record (data : pybytes) : bool :=
  match utf8_decode data with
  | Raise _ => true
  | Ok message =>
      match json_loads message with
      | Ok (JObj d) => negb (has_record_keys d)
      | Ok _ => true
      | Raise _ => false
      end
  end.

(** The read failures at the start of a run. *)
Fixpoint leading_failures (obs : list observation) : nat :=
  match obs with
  | ReadRaises _ :: obs' => S (leading_failures obs')
  | _ => O
  end.

(** The read failures in a row at the end of a run: the consecutive
    failures when its last turn is over. *)
Definition consecutive_failures (obs : list observation) : nat :=
  leading_failures (rev obs).

(** Properties of a run that a statement keeps. *)
Definition preserves {A} (P : run -> Prop) (m : M A) : Prop :=
  forall r, P r -> P (fst (m r)).

(** The flag is set in the current state and in every state passed. *)
Definition guarded (r : run) : Prop :=
  applying_remote_change (cur r) = true /\
  Forall (fun s => applying_remote_change s = true) (passed r).

(** The states passed start with [s0] and end with the current one. *)
Definition tracked (s0 : Editor) (r : run) : Prop :=
  hd_error (passed r) = Some s0 /\ last (passed r) s0 = cur r.

End Model.

Arguments JNull {pyfloat}.
Arguments JBool {pyfloat} b.
Arguments JStr {pyfloat} s.
Arguments JArr {pyfloat} l.
Arguments JObj {pyfloat} d.
Arguments Printed {pyfloat} m.
Arguments WriteTo {pyfloat} peer_id stream data outcome.
Arguments Sleep {pyfloat} seconds.
Arguments Stopped {pyfloat}.
Arguments ReadRaises {pyfloat} e.
Arguments ret {pyfloat A} a.
Arguments print {pyfloat} m.
Arguments set_previous_content {pyfloat} s.
Arguments widget {pyfloat} f.
Arguments query {pyfloat A} f.
Arguments write_all {pyfloat} write data items.
Arguments preserves {pyfloat A} P m.
Arguments guarded {pyfloat} r.
Arguments tracked {pyfloat} s0 r.
Arguments one_sided {pyfloat} c.
Arguments reports_edit {pyfloat} e.

Unset Implicit Arguments.

(* ------------------------------------------------------------------------ *)
(** ** Concrete inputs *)

Module Examples.

Definition clock : IntegralFloat.t := 1700000000.

Definition three_peers : P2PNetwork :=
  mkP2PNetwork [(lit "peer1", 1%nat); (lit "peer2", 2%nat); (lit "peer3", 3%nat)]
               true.

(** The stream of the second peer refuses every write. *)
Definition second_fails (s : Stream) (data : pybytes) : result unit :=
  if (s =? 2)%nat then Raise IOError else Ok tt.

(** An editor showing [text] with the cursor at offset [mark], whose
    snapshot is [snapshot]. *)
Definition editor (text : pystr) (mark : nat) (snapshot : pystr) : Editor :=
  mkEditor false (mkText text mark) snapshot three_peers.

(** An insertion of an emoji, an accented letter, a newline, a double
    quote and a lone surrogate. *)
Definition unicode_insert : TextChange IntegralFloat.t :=
  mkTextChange (lit "1.2") [0x1F600; 233; ch_nl; ch_quote; 0xD800] [] clock.

Definition delete_Z : TextChange IntegralFloat.t :=
  mkTextChange (lit "1.0") [] (lit "Z") clock.

Definition insert_x : TextChange IntegralFloat.t :=
  mkTextChange (lit "1.1") (lit "x") [] clock.

Definition delete_b : TextChange IntegralFloat.t :=
  mkTextChange (lit "1.1") [] (lit "b") clock.

(** The deletion of [Z] where [abc] ends. *)
Definition delete_Z_at_end : TextChange IntegralFloat.t :=
  mkTextChange (lit "1.3") [] (lit "Z") clock.

(** Every write succeeds. *)
Definition all_succeed (s : Stream) (data : pybytes) : result unit := Ok tt.

(** The file system takes what it is given. *)
Definition disk_ok (content : pystr) : result unit := Ok tt.

End Examples.

(* ======================================================================== *)
(** * Properties *)

(* ------------------------------------------------------------------------ *)
(** ** The JSON string codec *)

Lemma hexval_hexdigit d : d < 16 -> hexval (hexdigit d) = Some d.
Proof.
  intros H. unfold hexdigit, hexval.
  destruct (d <? 10) eqn:E.
  - apply N.ltb_lt in E.
    replace ((48 <=? 48 + d) && (48 + d <=? 57)) with true.
    + f_equal. lia.
    + symmetry. apply andb_true_iff. split; apply N.leb_le; lia.
  - apply N.ltb_ge in E.
    replace ((48 <=? 87 + d) && (87 + d <=? 57)) with false.
    + replace ((97 <=? 87 + d) && (87 + d <=? 102)) with true.
      * f_equal. lia.
      * symmetry. apply andb_true_iff. split; apply N.leb_le; lia.
    + symmetry. apply andb_false_iff. right. apply N.leb_gt. lia.
Qed.


Lemma hex4_digits n :
  hex4 n = [hexdigit (n / 4096 mod 16); hexdigit (n / 256 mod 16);
            hexdigit (n / 16 mod 16); hexdigit (n mod 16)].
Proof. unfold hex4. now rewrite !N.shiftr_div_pow2. Qed.

Lemma decode_hex4 n :
  n < 0x10000 ->
  decode_uXXXX (hexdigit (n / 4096 mod 16)) (hexdigit (n / 256 mod 16))
               (hexdigit (n / 16 mod 16)) (hexdigit (n mod 16)) = Ok n.
Proof.
  intros Hn. unfold decode_uXXXX.
  rewrite !hexval_hexdigit by (apply N.mod_lt; discriminate).
  f_equal.
  replace (n / 4096) with (n / 16 / 16 / 16)
    by (rewrite !N.Div0.div_div; reflexivity).
  replace (n / 256) with (n / 16 / 16) by (rewrite !N.Div0.div_div; reflexivity).
  pose proof (N.div_mod n 16) as E0.
  pose proof (N.div_mod (n / 16) 16) as E1.
  pose proof (N.div_mod (n / 16 / 16) 16) as E2.
  pose proof (N.div_mod (n / 16 / 16 / 16) 16) as E3.
  pose proof (N.mod_lt n 16) as L0.
  pose proof (N.mod_lt (n / 16) 16) as L1.
  pose proof (N.mod_lt (n / 16 / 16) 16) as L2.
  pose proof (N.mod_lt (n / 16 / 16 / 16) 16) as L3.
  generalize dependent (n / 16 / 16 / 16 / 16).
  generalize dependent (n / 16 / 16 / 16 mod 16).
  generalize dependent (n / 16 / 16 / 16).
  generalize dependent (n / 16 / 16 mod 16).
  generalize dependent (n / 16 / 16).
  generalize dependent (n / 16 mod 16).
  generalize dependent (n / 16).
  generalize dependent (n mod 16).
  intros. lia.
Qed.

Lemma land_shiftl_low a b n : b < 2 ^ n -> N.land (N.shiftl a n) b = 0.
Proof.
  intros Hb. apply N.bits_inj. intros m.
  rewrite N.land_spec, N.bits_0.
  destruct (N.ltb_spec m n) as [Hm | Hm].
  - now rewrite N.shiftl_spec_low.
  - destruct (N.eq_dec b 0) as [-> | Hb0].
    + now rewrite N.bits_0, andb_false_r.
    + rewrite (N.bits_above_log2 b m), andb_false_r; [reflexivity|].
      apply N.lt_le_trans with n; [|assumption].
      apply N.log2_lt_pow2; [lia | assumption].
Qed.

Lemma lor_shiftl_add a b n : b < 2 ^ n -> N.lor (N.shiftl a n) b = a * 2 ^ n + b.
Proof.
  intros Hb.
  rewrite <- N.lxor_lor by now apply land_shiftl_low.
  rewrite <- N.add_nocarry_lxor by now apply land_shiftl_low.
  now rewrite N.shiftl_mul_pow2.
Qed.

Lemma land_3ff x : N.land x 0x3ff = x mod 1024.
Proof. change 0x3ff with (N.ones 10). now rewrite N.land_ones. Qed.

(** The surrogate halves the encoder writes for a code point above the BMP
    and what the decoder rebuilds from them. *)
Lemma surrogate_halves c :
  0x10000 <= c -> c <= 0x10ffff ->
  let n := c - 0x10000 in
  let s1 := N.lor 0xd800 (N.land (N.shiftr n 10) 0x3ff) in
  let s2 := N.lor 0xdc00 (N.land n 0x3ff) in
  s1 = 0xd800 + n / 1024 /\ s2 = 0xdc00 + n mod 1024 /\
  0x10000 + N.lor (N.shiftl (s1 - 0xd800) 10) (s2 - 0xdc00) = c.
Proof.
  intros Hlo Hhi n s1 s2.
  assert (Hn : n < 0x100000) by (unfold n; lia).
  assert (E1 : s1 = 0xd800 + n / 1024).
  { unfold s1. rewrite land_3ff, N.shiftr_div_pow2.
    change (2 ^ 10) with 1024. change 0xd800 with (N.shiftl 54 10).
    rewrite lor_shiftl_add.
    - rewrite N.mod_small; [reflexivity|].
      apply N.Div0.div_lt_upper_bound. exact Hn.
    - change (2 ^ 10) with 1024. apply N.mod_lt. discriminate. }
  assert (E2 : s2 = 0xdc00 + n mod 1024).
  { unfold s2. rewrite land_3ff. change 0xdc00 with (N.shiftl 55 10).
    rewrite lor_shiftl_add; [reflexivity|].
    change (2 ^ 10) with 1024. apply N.mod_lt. discriminate. }
  split; [exact E1|]. split; [exact E2|].
  rewrite E1, E2.
  rewrite (N.add_comm 0xd800), (N.add_comm 0xdc00), !N.add_sub.
  rewrite lor_shiftl_add by (change (2 ^ 10) with 1024; apply N.mod_lt; discriminate).
  change (2 ^ 10) with 1024.
  pose proof (N.div_mod n 1024) as E.
  assert (Hc : c = 0x10000 + n) by (unfold n; lia).
  generalize dependent (n / 1024). generalize dependent (n mod 1024).
  intros. lia.
Qed.

Lemma scan_plain c r :
  (c =? ch_quote) = false -> (c =? ch_backslash) = false -> (c <? 32) = false ->
  py_scanstring (c :: r) = cons_char c (py_scanstring r).
Proof. intros H1 H2 H3. cbn [py_scanstring]. now rewrite H1, H2, H3. Qed.

Lemma scan_u_step h1 h2 h3 h4 uni T :
  decode_uXXXX h1 h2 h3 h4 = Ok uni ->
  (is_high_surrogate uni = true -> safe_after T) ->
  py_scanstring (ch_backslash :: 117 :: h1 :: h2 :: h3 :: h4 :: T)
  = cons_char uni (py_scanstring T).
Proof.
  intros Hd Hs.
  change (py_scanstring (ch_backslash :: 117 :: h1 :: h2 :: h3 :: h4 :: T))
    with (match decode_uXXXX h1 h2 h3 h4 with
          | Raise e => Raise e
          | Ok uni =>
              match T with
              | b :: u :: r3 =>
                  if is_high_surrogate uni && (b =? ch_backslash) && (u =? 117)
                  then
                    match r3 with
                    | g1 :: g2 :: g3 :: g4 :: r4 =>
                        match decode_uXXXX g1 g2 g3 g4 with
                        | Raise e => Raise e
                        | Ok uni2 =>
                            if is_low_surrogate uni2 then
                              cons_char
                                (0x10000 +
                                 N.lor (N.shiftl (uni - 0xd800) 10) (uni2 - 0xdc00))
                                (py_scanstring r4)
                            else cons_char uni (py_scanstring T)
                        end
                    | _ => Raise JSONDecodeError
                    end
                  else cons_char uni (py_scanstring T)
              | _ => cons_char uni (py_scanstring T)
              end
          end).
  rewrite Hd.
  destruct T as [|b [|u r3]]; try reflexivity.
  destruct (is_high_surrogate uni) eqn:Hh; [|reflexivity].
  destruct (Hs eq_refl) as [Hne | (g1 & g2 & g3 & g4 & r4 & u2 & E & Hd2 & Hl)].
  - destruct (b =? ch_backslash) eqn:Eb; [|reflexivity].
    destruct (u =? 117) eqn:Eu; [|reflexivity].
    apply N.eqb_eq in Eb, Eu. subst. exfalso. now apply (Hne r3).
  - injection E as -> -> ->. cbn [andb N.eqb Pos.eqb ch_backslash].
    now rewrite Hd2, Hl.
Qed.

Lemma scan_pair_step c T :
  0x10000 <= c -> c <= 0x10ffff ->
  py_scanstring (replace c ++ T) = cons_char c (py_scanstring T).
Proof.
  intros Hlo Hhi.
  destruct (surrogate_halves c Hlo Hhi) as (E1 & E2 & E3).
  cbv zeta in E1, E2, E3.
  set (n := c - 0x10000) in *.
  assert (Hn : n < 0x100000) by (unfold n; lia).
  assert (Hq : n / 1024 < 1024) by (apply N.Div0.div_lt_upper_bound; exact Hn).
  assert (Hm : n mod 1024 < 1024) by (apply N.mod_lt; discriminate).
  unfold replace.
  assert (Hdct : escape_dct c = None).
  { unfold escape_dct, ch_backslash, ch_quote, ch_bs, ch_ff, ch_nl, ch_cr, ch_tab.
    repeat match goal with
           | |- context [c =? ?k] =>
               let E := fresh in
               destruct (N.eqb_spec c k) as [E|E]; [exfalso; lia|]
           end.
    reflexivity. }
  rewrite Hdct.
  destruct (N.ltb_spec c 0x10000) as [Hc|_]; [lia|].
  cbv zeta. fold n.
  set (s1 := N.lor 0xd800 (N.land (N.shiftr n 10) 0x3ff)) in *.
  set (s2 := N.lor 0xdc00 (N.land n 0x3ff)) in *.
  rewrite (hex4_digits s1), (hex4_digits s2).
  cbn [app].
  assert (D1 := decode_hex4 s1). assert (D2 := decode_hex4 s2).
  clearbody s1 s2.
  change (py_scanstring
            (ch_backslash :: 117 :: hexdigit (s1 / 4096 mod 16)
               :: hexdigit (s1 / 256 mod 16) :: hexdigit (s1 / 16 mod 16)
               :: hexdigit (s1 mod 16)
               :: ch_backslash :: 117 :: hexdigit (s2 / 4096 mod 16)
               :: hexdigit (s2 / 256 mod 16) :: hexdigit (s2 / 16 mod 16)
               :: hexdigit (s2 mod 16) :: T))
    with (match decode_uXXXX (hexdigit (s1 / 4096 mod 16)) (hexdigit (s1 / 256 mod 16))
                  (hexdigit (s1 / 16 mod 16)) (hexdigit (s1 mod 16)) with
          | Raise e => Raise e
          | Ok uni =>
              if is_high_surrogate uni && true && true then
                match decode_uXXXX (hexdigit (s2 / 4096 mod 16))
                        (hexdigit (s2 / 256 mod 16))
                        (hexdigit (s2 / 16 mod 16)) (hexdigit (s2 mod 16)) with
                | Raise e => Raise e
                | Ok uni2 =>
                    if is_low_surrogate uni2 then
                      cons_char
                        (0x10000 + N.lor (N.shiftl (uni - 0xd800) 10) (uni2 - 0xdc00))
                        (py_scanstring T)
                    else
                      cons_char uni
                        (py_scanstring
                           (ch_backslash :: 117 :: hexdigit (s2 / 4096 mod 16)
                              :: hexdigit (s2 / 256 mod 16)
                              :: hexdigit (s2 / 16 mod 16)
                              :: hexdigit (s2 mod 16) :: T))
                end
              else
                cons_char uni
                  (py_scanstring
                     (ch_backslash :: 117 :: hexdigit (s2 / 4096 mod 16)
                        :: hexdigit (s2 / 256 mod 16)
                        :: hexdigit (s2 / 16 mod 16)
                        :: hexdigit (s2 mod 16) :: T))
          end).
  rewrite D1, D2 by lia.
  assert (Hh : is_high_surrogate s1 = true).
  { unfold is_high_surrogate. rewrite E1. clear - Hq.
    generalize dependent (n / 1024). intros q Hq.
    apply andb_true_iff. split; apply N.leb_le; lia. }
  assert (Hl : is_low_surrogate s2 = true).
  { unfold is_low_surrogate. rewrite E2. clear - Hm.
    generalize dependent (n mod 1024). intros m Hm.
    apply andb_true_iff. split; apply N.leb_le; lia. }
  rewrite Hh, Hl. cbn [andb]. now rewrite E3.
Qed.


Lemma escape_dct_cases c e :
  escape_dct c = Some e ->
  (c = ch_backslash /\ e = ch_backslash) \/ (c = ch_quote /\ e = ch_quote) \/
  (c = ch_bs /\ e = 98) \/ (c = ch_ff /\ e = 102) \/ (c = ch_nl /\ e = 110) \/
  (c = ch_cr /\ e = 114) \/ (c = ch_tab /\ e = 116).
Proof.
  unfold escape_dct.
  repeat match goal with
         | |- context [c =? ?k] => destruct (N.eqb_spec c k) as [->|?]
         end; intros [= <-]; tauto.
Qed.

Lemma scan_escape_char c T :
  c <= 0x10ffff ->
  (is_high_surrogate c = true -> safe_after T) ->
  py_scanstring (escape_char c ++ T) = cons_char c (py_scanstring T).
Proof.
  intros Hc Hs. unfold escape_char.
  destruct (needs_escape c) eqn:Hn.
  - destruct (escape_dct c) as [e|] eqn:Hd.
    + unfold replace. rewrite Hd.
      destruct (escape_dct_cases _ _ Hd)
        as [[-> ->]|[[-> ->]|[[-> ->]|[[-> ->]|[[-> ->]|[[-> ->]|[-> ->]]]]]]];
        reflexivity.
    + destruct (N.ltb_spec c 0x10000) as [Hlt|Hge].
      * unfold replace. rewrite Hd.
        destruct (N.ltb_spec c 0x10000) as [_|?]; [|lia].
        rewrite hex4_digits. cbn [app].
        apply scan_u_step; [now apply decode_hex4 | exact Hs].
      * now apply scan_pair_step.
  - unfold needs_escape in Hn.
    apply orb_false_iff in Hn as [Hn H4].
    apply orb_false_iff in Hn as [Hn H3].
    apply orb_false_iff in Hn as [H1 H2].
    cbn [app]. now apply scan_plain.
Qed.

Lemma safe_after_body s rest :
  valid_str s = true ->
  match s with d :: _ => is_low_surrogate d = false | [] => True end ->
  safe_after (escape_body s ++ ch_quote :: rest).
Proof.
  intros Hv Hl. destruct s as [|d s].
  - left. intros r3 [=].
  - cbn [valid_str forallb] in Hv. apply andb_true_iff in Hv as [Hd _].
    apply N.leb_le in Hd.
    cbn [escape_body flat_map]. rewrite <- app_assoc.
    set (T := flat_map escape_char s ++ ch_quote :: rest).
    unfold escape_char.
    destruct (needs_escape d) eqn:Hn.
    + unfold replace.
      destruct (escape_dct d) as [e|] eqn:He.
      * left. intros r3 E. cbn [app] in E. injection E as E _.
        destruct (escape_dct_cases _ _ He)
          as [[_ ->]|[[_ ->]|[[_ ->]|[[_ ->]|[[_ ->]|[[_ ->]|[_ ->]]]]]]];
          discriminate.
      * destruct (N.ltb_spec d 0x10000) as [Hlt|Hge].
        -- right. rewrite hex4_digits. cbn [app].
           do 4 eexists. exists T, d. split; [reflexivity|].
           split; [now apply decode_hex4 | exact Hl].
        -- right.
           assert (Hq : (d - 0x10000) / 1024 < 1024)
             by (apply N.Div0.div_lt_upper_bound; lia).
           destruct (surrogate_halves d Hge Hd) as (E1 & _ & _).
           cbv zeta in E1 |- *.
           set (s1 := N.lor 0xd800 (N.land (N.shiftr (d - 0x10000) 10) 0x3ff)) in *.
           rewrite (hex4_digits s1). cbn [app].
           clearbody s1.
           generalize dependent ((d - 0x10000) / 1024). intros q Hq ->.
           do 4 eexists. eexists. exists (0xd800 + q).
           split; [reflexivity|]. split.
           ++ apply decode_hex4. clear - Hq. lia.
           ++ unfold is_low_surrogate. apply andb_false_iff. left.
              apply N.leb_gt. clear - Hq. lia.
    + left. intros r3 E. cbn [app] in E. injection E as -> _.
      discriminate.
Qed.

Lemma scan_escape_body s rest :
  valid_str s = true -> no_surrogate_pair s = true ->
  py_scanstring (escape_body s ++ ch_quote :: rest) = Ok (s, rest).
Proof.
  induction s as [|c s IH]; intros Hv Hp.
  - reflexivity.
  - cbn [escape_body flat_map]. rewrite <- app_assoc.
    change (flat_map escape_char s) with (escape_body s).
    pose proof Hv as Hv'.
    cbn [valid_str forallb] in Hv'. apply andb_true_iff in Hv' as [Hc Hvs].
    cbn [no_surrogate_pair] in Hp. apply andb_true_iff in Hp as [Hp Hps].
    rewrite scan_escape_char.
    + rewrite IH by assumption. reflexivity.
    + now apply N.leb_le.
    + intros Hh. apply safe_after_body; [exact Hvs|].
      destruct s as [|d s']; [exact I|].
      rewrite Hh in Hp. cbn [andb] in Hp.
      now destruct (is_low_surrogate d).
Qed.

Section Properties.
Variable pyfloat : Type.
Variable float_repr : pyfloat -> pystr.
Variable float_of_token : pystr -> result pyfloat.
Hypothesis float_round_trip : forall f, float_of_token (float_repr f) = Ok f.
Hypothesis float_repr_token : forall f, number_token (float_repr f) = true.

Lemma span_number_token tok c rest :
  forallb is_numchar tok = true -> is_numchar c = false ->
  span_number (tok ++ c :: rest) = (tok, c :: rest).
Proof.
  intros Ht Hc. induction tok as [|a tok IH].
  - cbn. now rewrite Hc.
  - cbn [forallb] in Ht. apply andb_true_iff in Ht as [Ha Ht].
    cbn [app span_number]. rewrite Ha, IH by assumption. reflexivity.
Qed.

Lemma scan_once_eq fuel c r :
  scan_once float_of_token (S fuel) (c :: r) =
    if c =? ch_quote then
      '(str, rest) <- py_scanstring r ;; Ok (JStr str, rest)
    else if c =? ch_lbrace then
      match skip_ws r with
      | c1 :: r1 =>
          if c1 =? ch_rbrace then Ok (JObj [], r1)
          else if c1 =? ch_quote then JSONObject float_of_token fuel r1 []
          else Raise JSONDecodeError
      | [] => Raise JSONDecodeError
      end
    else if c =? ch_lbracket then
      match skip_ws r with
      | c1 :: r1 =>
          if c1 =? ch_rbracket then Ok (JArr [], r1)
          else JSONArray float_of_token fuel (c1 :: r1) []
      | [] => Raise JSONDecodeError
      end
    else if c =? 110 then
      match strip_prefix (lit "null") (c :: r) with
      | Some rest => Ok (JNull, rest)
      | None => Raise JSONDecodeError
      end
    else if c =? 116 then
      match strip_prefix (lit "true") (c :: r) with
      | Some rest => Ok (JBool true, rest)
      | None => Raise JSONDecodeError
      end
    else if c =? 102 then
      match strip_prefix (lit "false") (c :: r) with
      | Some rest => Ok (JBool false, rest)
      | None => Raise JSONDecodeError
      end
    else if (c =? ch_minus) || is_digit c then
      let '(tok, rest) := span_number (c :: r) in
      f <- float_of_token tok ;; Ok (JNum f, rest)
    else Raise JSONDecodeError.
Proof. reflexivity. Qed.

Lemma JSONObject_eq fuel s pairs :
  JSONObject float_of_token (S fuel) s pairs =
    '(key, s1) <- py_scanstring s ;;
    match skip_ws s1 with
    | c :: s2 =>
        if c =? ch_colon then
          '(value, s3) <- scan_once float_of_token fuel (skip_ws s2) ;;
          let pairs' := pairs ++ [(key, value)] in
          match skip_ws s3 with
          | c' :: s4 =>
              if c' =? ch_rbrace then Ok (JObj (dict_of_pairs pairs'), s4)
              else if c' =? ch_comma then
                match skip_ws s4 with
                | q :: s5 =>
                    if q =? ch_quote then JSONObject float_of_token fuel s5 pairs'
                    else Raise JSONDecodeError
                | [] => Raise JSONDecodeError
                end
              else Raise JSONDecodeError
          | [] => Raise JSONDecodeError
          end
        else Raise JSONDecodeError
    | [] => Raise JSONDecodeError
    end.
Proof. reflexivity. Qed.

Lemma scan_once_string fuel v rest :
  well_formed v = true ->
  scan_once float_of_token (S fuel) (ch_quote :: escape_body v ++ ch_quote :: rest)
  = Ok (JStr v, rest).
Proof.
  intros Hv. apply andb_true_iff in Hv as [Hv Hp].
  rewrite scan_once_eq. cbn [N.eqb Pos.eqb ch_quote].
  now rewrite scan_escape_body.
Qed.

Lemma scan_once_number fuel x c rest :
  is_numchar c = false ->
  scan_once float_of_token (S fuel) (float_repr x ++ c :: rest) = Ok (JNum x, c :: rest).
Proof.
  intros Hc. pose proof (float_repr_token x) as Ht.
  pose proof (float_round_trip x) as Hr.
  destruct (float_repr x) as [|a tok] eqn:E; [discriminate|].
  cbn [number_token] in Ht. apply andb_true_iff in Ht as [Ha Ht].
  cbn [app]. rewrite scan_once_eq.
  assert (Hd : is_digit a = true -> a <> ch_quote /\ a <> ch_lbrace /\ a <> ch_lbracket
               /\ a <> 110 /\ a <> 116 /\ a <> 102).
  { unfold is_digit. intros H. apply andb_true_iff in H as [H1 H2].
    apply N.leb_le in H1, H2. unfold ch_quote, ch_lbrace, ch_lbracket. lia. }
  assert (Hm : a = ch_minus -> a <> ch_quote /\ a <> ch_lbrace /\ a <> ch_lbracket
               /\ a <> 110 /\ a <> 116 /\ a <> 102).
  { intros ->. repeat split; discriminate. }
  assert (Hne : a <> ch_quote /\ a <> ch_lbrace /\ a <> ch_lbracket
               /\ a <> 110 /\ a <> 116 /\ a <> 102).
  { apply orb_true_iff in Ha as [Ha|Ha]; [apply Hm; now apply N.eqb_eq | now apply Hd]. }
  destruct Hne as (N1 & N2 & N3 & N4 & N5 & N6).
  apply N.eqb_neq in N1, N2, N3, N4, N5, N6.
  rewrite N1, N2, N3, N4, N5, N6, Ha.
  change (a :: tok ++ c :: rest) with ((a :: tok) ++ c :: rest).
  rewrite span_number_token by assumption.
  now rewrite Hr.
Qed.


Lemma object_member_str f key v s5 pairs :
  well_formed key = true -> well_formed v = true ->
  JSONObject float_of_token (S (S f))
    (escape_body key ++ ch_quote :: ch_colon :: ch_space :: ch_quote
       :: escape_body v ++ ch_quote :: ch_comma :: ch_space :: ch_quote :: s5) pairs
  = JSONObject float_of_token (S f) s5 (pairs ++ [(key, JStr v)]).
Proof.
  intros Hk Hv. rewrite JSONObject_eq.
  apply andb_true_iff in Hk as [Hk1 Hk2].
  rewrite scan_escape_body by assumption.
  cbn [bind skip_ws is_ws ch_colon ch_space ch_tab ch_nl ch_cr ch_quote
       N.eqb Pos.eqb orb].
  rewrite scan_once_string by assumption.
  reflexivity.
Qed.

Lemma skip_ws_number x rest :
  skip_ws (float_repr x ++ rest) = float_repr x ++ rest.
Proof.
  pose proof (float_repr_token x) as Ht.
  destruct (float_repr x) as [|a tok]; [discriminate|].
  cbn [number_token] in Ht. apply andb_true_iff in Ht as [Ha _].
  cbn [app skip_ws].
  assert (Hw : is_ws a = false).
  { unfold is_ws, ch_space, ch_tab, ch_nl, ch_cr.
    apply orb_true_iff in Ha as [Ha|Ha].
    - apply N.eqb_eq in Ha. now subst a.
    - unfold is_digit in Ha. apply andb_true_iff in Ha as [H1 H2].
      apply N.leb_le in H1, H2.
      repeat (apply orb_false_iff; split); apply N.eqb_neq; lia. }
  now rewrite Hw.
Qed.

Lemma object_member_last f key x pairs rest :
  well_formed key = true ->
  JSONObject float_of_token (S (S f))
    (escape_body key ++ ch_quote :: ch_colon :: ch_space
       :: float_repr x ++ ch_rbrace :: rest) pairs
  = Ok (JObj (dict_of_pairs (pairs ++ [(key, JNum x)])), rest).
Proof.
  intros Hk. rewrite JSONObject_eq.
  apply andb_true_iff in Hk as [Hk1 Hk2].
  rewrite scan_escape_body by assumption.
  cbn [bind skip_ws is_ws ch_colon ch_space ch_tab ch_nl ch_cr ch_quote
       N.eqb Pos.eqb orb].
  rewrite skip_ws_number, scan_once_number by reflexivity.
  reflexivity.
Qed.

Lemma to_json_shape r :
  to_json float_repr r =
    ch_lbrace :: ch_quote :: escape_body (lit "position") ++ ch_quote
      :: ch_colon :: ch_space :: ch_quote :: escape_body (position r) ++ ch_quote
      :: ch_comma :: ch_space :: ch_quote :: escape_body (lit "insert") ++ ch_quote
      :: ch_colon :: ch_space :: ch_quote :: escape_body (insert r) ++ ch_quote
      :: ch_comma :: ch_space :: ch_quote :: escape_body (lit "delete") ++ ch_quote
      :: ch_colon :: ch_space :: ch_quote :: escape_body (delete r) ++ ch_quote
      :: ch_comma :: ch_space :: ch_quote :: escape_body (lit "timestamp") ++ ch_quote
      :: ch_colon :: ch_space :: float_repr (timestamp r) ++ [ch_rbrace].
Proof.
  unfold to_json. cbn [json_dumps]. unfold py_encode_basestring_ascii.
  change (lit ": ") with [ch_colon; ch_space].
  change (lit ", ") with [ch_comma; ch_space].
  repeat (rewrite <- app_assoc || cbn [app]).
  reflexivity.
Qed.

(** Claim C1: decoding the encoding of a change record gives the record
    back, with the same position, inserted text, deleted text and timestamp.
    The texts are any well-formed strings: empty ones, multi-line ones, every
    Unicode text. The timestamp is any float of the interface above, that is
    one whose [repr] is a number token that [float] reads back. *)
Theorem from_json_to_json now r :
  well_formed (position r) = true -> well_formed (insert r) = true ->
  well_formed (delete r) = true ->
  from_json float_of_token now (to_json float_repr r) = Ok r.
Proof.
  intros Hp Hi Hd.
  unfold from_json, json_loads.
  rewrite to_json_shape.
  set (body := escape_body (lit "position") ++ _).
  match goal with
  | |- context [S (@length ?A ?s)] =>
      assert (Hlen : exists n, @length A s = (5 + n)%nat)
  end.
  { subst body. cbn [lit list_ascii_of_string map escape_body flat_map app length].
    eexists. reflexivity. }
  destruct Hlen as [n ->].
  cbn [skip_ws is_ws ch_lbrace ch_space ch_tab ch_nl ch_cr N.eqb Pos.eqb orb].
  change (S (5 + n)) with (S (S (S (S (S (S n)))))).
  rewrite scan_once_eq.
  cbn [skip_ws is_ws ch_lbrace ch_quote ch_rbrace ch_space ch_tab ch_nl ch_cr
       N.eqb Pos.eqb orb].
  subst body.
  rewrite !object_member_str by (assumption || reflexivity).
  rewrite object_member_last by reflexivity.
  destruct r as [p i d t]. reflexivity.
Qed.


(* ------------------------------------------------------------------------ *)
(** ** The text widget *)

Lemma pystr_eqb_eq a b : pystr_eqb a b = true <-> a = b.
Proof.
  revert b. induction a as [|x a IH]; intros [|y b]; cbn [pystr_eqb];
    try (split; [discriminate | intros [=]]); [tauto|].
  rewrite andb_true_iff, N.eqb_eq, IH. split.
  - now intros [-> ->].
  - now intros [= -> ->].
Qed.

Lemma pystr_eqb_refl a : pystr_eqb a a = true.
Proof. now apply pystr_eqb_eq. Qed.

Lemma pystr_eqb_neq a b : a <> b -> pystr_eqb a b = false.
Proof.
  intros H. destruct (pystr_eqb a b) eqn:E; [|reflexivity].
  now apply pystr_eqb_eq in E.
Qed.

Lemma digits_uint_chars d : digits_uint (uint_chars d) = Some d.
Proof. induction d; cbn [uint_chars digits_uint]; try rewrite IHd; reflexivity. Qed.

Lemma split_dot_chars d rest :
  split_dot (uint_chars d ++ ch_dot :: rest) = Some (uint_chars d, rest).
Proof.
  induction d; cbn [uint_chars app split_dot]; try rewrite IHd; reflexivity.
Qed.

Lemma to_uint_nonnil n : Nat.to_uint n <> Decimal.Nil.
Proof.
  rewrite <- (DecimalNat.Unsigned.of_to n) at 1.
  rewrite DecimalNat.Unsigned.to_of. unfold Decimal.unorm.
  now destruct (Decimal.nzhead (Nat.to_uint n)).
Qed.

Lemma nat_of_decimal_decimal n : nat_of_decimal (decimal n) = Some n.
Proof.
  unfold nat_of_decimal, decimal.
  pose proof (to_uint_nonnil n) as Hn.
  rewrite digits_uint_chars. cbn [option_map].
  rewrite DecimalNat.Unsigned.of_to.
  destruct (Nat.to_uint n); cbn [uint_chars]; congruence.
Qed.

(** An index the widget prints is an index it reads. *)
Lemma parse_index_decimal line col :
  parse_index (decimal line ++ [ch_dot] ++ decimal col) = Some (line, col).
Proof.
  unfold parse_index. cbn [app]. unfold decimal at 1.
  rewrite split_dot_chars. fold (decimal line).
  now rewrite !nat_of_decimal_decimal.
Qed.

Lemma resolve_At w s line col :
  parse_index s = Some (line, col) ->
  resolve w (At s) = Ok (offset_of (chars w) line col).
Proof. intros H. cbn [resolve]. now rewrite H. Qed.

Lemma resolve_At_bad w s :
  parse_index s = None -> resolve w (At s) = Raise TclError.
Proof. intros H. cbn [resolve]. now rewrite H. Qed.

Lemma locate_here s col off :
  locate s O col off = (off + Nat.min col (line_length s))%nat.
Proof. now destruct s. Qed.

Lemma resolve_start w : resolve w (At (lit "1.0")) = Ok O.
Proof.
  rewrite (resolve_At w _ 1 0) by reflexivity.
  unfold offset_of. now rewrite locate_here.
Qed.

Lemma Text_get_all w : Text_get w (At (lit "1.0")) END = Ok (buffer w).
Proof.
  unfold Text_get. rewrite resolve_start. cbn [bind resolve].
  unfold slice, buffer, tk_end. f_equal. cbn [skipn].
  apply firstn_all2. rewrite length_app. cbn. lia.
Qed.

(* ------------------------------------------------------------------------ *)
(** ** The change applier *)

Lemma slice_clamp {A} (l : list A) (a n : nat) :
  slice l a (Nat.min (a + n) (length l)) = slice l a (a + n).
Proof.
  unfold slice.
  destruct (Nat.le_gt_cases (a + n) (length l)) as [H|H].
  - now rewrite Nat.min_l.
  - rewrite Nat.min_r by lia.
    rewrite !firstn_all2; [reflexivity | |]; rewrite length_skipn; lia.
Qed.

Lemma buffer_length w : length (buffer w) = tk_end w.
Proof. unfold buffer, tk_end. rewrite length_app. cbn. lia. Qed.

(** What the applier reads before a deletion. *)
Lemma Text_get_at w pos line col n :
  parse_index pos = Some (line, col) ->
  Text_get w (At pos) (Plus (At pos) n)
  = Ok (slice (buffer w) (offset_of (chars w) line col)
              (offset_of (chars w) line col + n)).
Proof.
  intros Hp. unfold Text_get. cbn [resolve]. rewrite Hp. cbn [bind].
  now rewrite <- buffer_length, slice_clamp.
Qed.

Lemma Text_mark_set_at w pos line col :
  parse_index pos = Some (line, col) ->
  Text_mark_set w (At pos) = Ok (mkText (chars w) (offset_of (chars w) line col)).
Proof. intros Hp. unfold Text_mark_set. cbn [resolve]. now rewrite Hp. Qed.

(** Deleting one character at an offset inside the text. *)
Lemma Text_delete_one w pos line col :
  parse_index pos = Some (line, col) ->
  (offset_of (chars w) line col < length (chars w))%nat ->
  exists m,
    Text_delete w (At pos) (Plus (At pos) 1)
    = Ok (mkText (firstn (offset_of (chars w) line col) (chars w)
                    ++ skipn (S (offset_of (chars w) line col)) (chars w)) m).
Proof.
  intros Hp Ho. unfold Text_delete. cbn [resolve]. rewrite Hp. cbn [bind].
  set (o := offset_of (chars w) line col) in *.
  unfold tk_end.
  rewrite (Nat.min_l (o + 1)) by lia.
  destruct (Nat.leb_spec (o + 1) o) as [H|_]; [lia|].
  destruct (Nat.eqb_spec (o + 1) (S (length (chars w)))) as [H|_]; [lia|].
  destruct (line_col (buffer w) o 1 0) as [line1 col1].
  cbn [andb]. rewrite Nat.max_r by lia.
  replace (o + 1)%nat with (S o) by lia.
  eexists. reflexivity.
Qed.

(** Claim C6, as the code has it: a record whose inserted and deleted texts
    are both empty changes nothing in the document and prints nothing; no
    character is deleted, because the [elif change.delete:] test is false for
    an empty text and the one-character branch below it is never reached. *)
Theorem apply_remote_change_empty_delete (self : Editor) (pos : pystr) (t : pyfloat) :
  let r := apply_remote_change self (mkTextChange pos [] [] t) in
  text_area (cur r) = text_area self /\ out r = []
  /\ previous_content (cur r) = buffer (text_area self).
Proof.
  unfold apply_remote_change, apply_try.
  cbn [truthy insert delete bindM ret moved cur passed out query
       set_previous_content with_applying text_area].
  rewrite Text_get_all. cbn. auto.
Qed.


(* ------------------------------------------------------------------------ *)
(** ** The reentrancy guard *)

(** Properties kept by every statement of the [try] block: those kept by a
    print and by a move to a state with the same flag. *)
Section Preservation.

Variable P : run pyfloat -> Prop.
Hypothesis P_moved :
  forall r s, P r -> applying_remote_change s = applying_remote_change (cur r) ->
              P (moved r s).
Hypothesis P_printed :
  forall r m, P r -> P (mkRun (cur r) (passed r) (out r ++ [Printed m])).

Lemma preserves_bind {A B} (m : M pyfloat A) (k : A -> M pyfloat B) :
  preserves P m -> (forall a, preserves P (k a)) -> preserves P (bindM m k).
Proof.
  intros Hm Hk r Hr. unfold bindM. specialize (Hm r Hr).
  destruct (m r) as [r' [a|e]]; cbn [fst] in *; [now apply Hk | exact Hm].
Qed.

Lemma preserves_widget f : preserves P (widget f).
Proof.
  intros r Hr. unfold widget.
  destruct (f (text_area (cur r))); cbn [fst]; [|exact Hr].
  now apply P_moved.
Qed.

Lemma preserves_query {A} (f : Text -> result A) : preserves P (query f).
Proof. intros r Hr. exact Hr. Qed.

Lemma preserves_print m : preserves P (print m).
Proof. intros r Hr. now apply P_printed. Qed.

Lemma preserves_ret {A} (a : A) : preserves P (ret a).
Proof. intros r Hr. exact Hr. Qed.

Lemma preserves_set_previous_content s : preserves P (set_previous_content s).
Proof. intros r Hr. unfold set_previous_content. cbn [fst]. now apply P_moved. Qed.

Lemma preserves_apply_try (change : TextChange pyfloat) :
  preserves P (apply_try change).
Proof.
  unfold apply_try.
  repeat first
    [ apply preserves_bind; [|intros ?]
    | apply preserves_widget
    | apply preserves_query
    | apply preserves_print
    | apply preserves_ret
    | apply preserves_set_previous_content
    | match goal with |- preserves _ (if ?b then _ else _) => destruct b end ].
Qed.

End Preservation.

Lemma guarded_apply_try (change : TextChange pyfloat) : preserves guarded (apply_try change).
Proof.
  apply preserves_apply_try.
  - intros r s [H1 H2] Hs. split; [cbn [moved cur]; congruence|].
    cbn [moved passed]. apply Forall_app. split; [exact H2|].
    constructor; [congruence | constructor].
  - intros r m H. exact H.
Qed.

Lemma last_nonempty {A} (l : list A) (d d' : A) :
  l <> [] -> last l d = last l d'.
Proof.
  induction l as [|x [|y l] IH]; intros H; [contradiction | reflexivity |].
  cbn [last] in *. apply IH. discriminate.
Qed.

Lemma tracked_apply_try s0 (change : TextChange pyfloat) : preserves (tracked s0) (apply_try change).
Proof.
  apply preserves_apply_try.
  - intros r s [H1 H2] _. split; cbn [moved passed cur].
    + destruct (passed r); [discriminate | exact H1].
    + apply last_last.
  - intros r m H. exact H.
Qed.

Lemma on_text_change_guarded s now write :
  applying_remote_change s = true -> on_text_change float_repr s now write = (s, []).
Proof. intros H. unfold on_text_change. now rewrite H. Qed.

Lemma on_text_change_in_sync s now write :
  previous_content s = buffer (text_area s) ->
  on_text_change float_repr s now write = (s, []).
Proof.
  intros H. unfold on_text_change.
  destruct (applying_remote_change s); [reflexivity|].
  now rewrite Text_get_all, H, pystr_eqb_refl.
Qed.

Lemma Text_insert_ok w pos line col s :
  parse_index pos = Some (line, col) -> exists w', Text_insert w (At pos) s = Ok w'.
Proof.
  intros Hp. unfold Text_insert. cbn [resolve]. rewrite Hp. cbn [bind].
  eexists. reflexivity.
Qed.

Lemma Text_delete_ok w pos line col n :
  parse_index pos = Some (line, col) ->
  exists w', Text_delete w (At pos) (Plus (At pos) n) = Ok w'.
Proof.
  intros Hp. unfold Text_delete. cbn [resolve]. rewrite Hp. cbn [bind].
  destruct (_ <=? _)%nat; [eexists; reflexivity|].
  destruct (line_col _ _ _ _). eexists. reflexivity.
Qed.

Lemma Text_index_ok w pos line col n :
  parse_index pos = Some (line, col) ->
  exists l c, Text_index w (Plus (At pos) n) = Ok (decimal l ++ [ch_dot] ++ decimal c).
Proof.
  intros Hp. unfold Text_index. cbn [resolve]. rewrite Hp. cbn [bind].
  destruct (line_col _ _ _ _) as [l c]. now exists l, c.
Qed.

Lemma Text_op_bad w pos s n :
  parse_index pos = None ->
  Text_insert w (At pos) s = Raise TclError /\
  Text_get w (At pos) (Plus (At pos) n) = Raise TclError /\
  Text_delete w (At pos) (Plus (At pos) n) = Raise TclError.
Proof.
  intros Hp. unfold Text_insert, Text_get, Text_delete. cbn [resolve].
  now rewrite Hp.
Qed.

(** The [try] block either ends with the snapshot refreshed, or raises
    before it has changed the widget. *)
Lemma apply_try_outcome (change : TextChange pyfloat) (r0 : run pyfloat) :
  match apply_try change r0 with
  | (r, Ok _) => previous_content (cur r) = buffer (text_area (cur r))
  | (r, Raise _) =>
      text_area (cur r) = text_area (cur r0) /\
      previous_content (cur r) = previous_content (cur r0)
  end.
Proof.
  unfold apply_try, bindM, query, widget, print, set_previous_content, ret, moved.
  destruct (parse_index (position change)) as [[line col]|] eqn:Hp.
  - destruct (truthy (insert change)).
    + destruct (Text_insert_ok (text_area (cur r0)) _ _ _ (insert change) Hp)
        as [w1 ->].
      cbn [cur text_area with_text_area].
      destruct (Text_index_ok w1 _ _ _ (length (insert change)) Hp) as (l & c & ->).
      rewrite (Text_mark_set_at _ _ _ _ (parse_index_decimal l c)).
      cbn [cur text_area with_text_area]. rewrite Text_get_all. reflexivity.
    + destruct (truthy (delete change)).
      * destruct (0 <? length (delete change))%nat.
        -- rewrite (Text_get_at _ _ _ _ _ Hp).
           destruct (pystr_eqb _ _).
           ++ destruct (Text_delete_ok (text_area (cur r0)) _ _ _
                          (length (delete change)) Hp) as [w1 ->].
              cbn [cur text_area with_text_area].
              rewrite (Text_mark_set_at _ _ _ _ Hp).
              cbn [cur text_area with_text_area]. rewrite Text_get_all. reflexivity.
           ++ cbn [cur text_area with_text_area].
              destruct (Text_delete_ok (text_area (cur r0)) _ _ _ 1 Hp) as [w1 ->].
              cbn [cur text_area with_text_area].
              rewrite (Text_mark_set_at _ _ _ _ Hp).
              cbn [cur text_area with_text_area]. rewrite Text_get_all. reflexivity.
        -- destruct (Text_delete_ok (text_area (cur r0)) _ _ _ 1 Hp) as [w1 ->].
           cbn [cur text_area with_text_area].
           rewrite (Text_mark_set_at _ _ _ _ Hp).
           cbn [cur text_area with_text_area]. rewrite Text_get_all. reflexivity.
      * rewrite Text_get_all. reflexivity.
  - destruct (truthy (insert change)).
    + destruct (Text_op_bad (text_area (cur r0)) _ (insert change) 0 Hp) as (-> & _).
      auto.
    + destruct (truthy (delete change)).
      * destruct (0 <? length (delete change))%nat.
        -- destruct (Text_op_bad (text_area (cur r0)) _ [] (length (delete change)) Hp)
             as (_ & -> & _).
           auto.
        -- destruct (Text_op_bad (text_area (cur r0)) _ [] 1 Hp) as (_ & _ & ->).
           auto.
      * rewrite Text_get_all. reflexivity.
Qed.


(* ------------------------------------------------------------------------ *)
(** ** The change detector *)

Lemma first_mismatch_seq (a b : pystr) (n s : nat) :
  match first_mismatch (seq s n) a b with
  | Some i =>
      (s <= i < s + n)%nat /\ nth i a 0 <> nth i b 0 /\
      forall j, (s <= j < i)%nat -> nth j a 0 = nth j b 0
  | None => forall j, (s <= j < s + n)%nat -> nth j a 0 = nth j b 0
  end.
Proof.
  revert s. induction n as [|n IH]; intros s; cbn [seq first_mismatch].
  - intros j Hj. lia.
  - destruct (N.eqb_spec (nth s a 0) (nth s b 0)) as [E|E]; cbn [negb].
    + specialize (IH (S s)).
      destruct (first_mismatch (seq (S s) n) a b) as [i|].
      * destruct IH as (Hi & Hne & Hlt). split; [lia|]. split; [exact Hne|].
        intros j Hj. destruct (Nat.eq_dec j s) as [->|]; [exact E|].
        apply Hlt. lia.
      * intros j Hj. destruct (Nat.eq_dec j s) as [->|]; [exact E|].
        apply IH. lia.
    + split; [lia|]. split; [exact E|]. intros j Hj. lia.
Qed.

Lemma nth_error_eq_nth (a b : pystr) (j : nat) :
  (j < length a)%nat -> (j < length b)%nat ->
  (nth_error a j = nth_error b j <-> nth j a 0 = nth j b 0).
Proof.
  intros Ha Hb.
  rewrite (nth_error_nth' a 0 Ha), (nth_error_nth' b 0 Hb).
  split; [now intros [=] | now intros ->].
Qed.

(** The loop finds the first differing index when there is one below both
    lengths. *)
Lemma first_mismatch_first_diff (a b : pystr) (i : nat) :
  first_diff a b i -> (i < length a)%nat -> (i < length b)%nat ->
  first_mismatch (seq O (Nat.min (length a) (length b))) a b = Some i.
Proof.
  intros [Hne Hlt] Ha Hb.
  pose proof (first_mismatch_seq a b (Nat.min (length a) (length b)) O) as H.
  destruct (first_mismatch _ a b) as [k|].
  - destruct H as (Hk & Hkne & Hklt). f_equal.
    destruct (Nat.lt_trichotomy k i) as [L|[E|L]]; [|exact E|].
    + exfalso. apply Hkne. apply nth_error_eq_nth; [lia | lia |]. now apply Hlt.
    + exfalso. apply Hne. apply nth_error_eq_nth; [exact Ha | exact Hb |].
      apply Hklt. lia.
  - exfalso. apply Hne. apply nth_error_eq_nth; [exact Ha | exact Hb |].
    apply H. lia.
Qed.

(** It finds nothing when one text is a prefix of the other. *)
Lemma first_mismatch_prefix (a t : pystr) :
  first_mismatch (seq O (Nat.min (length (a ++ t)) (length a))) (a ++ t) a = None
  /\ first_mismatch (seq O (Nat.min (length a) (length (a ++ t)))) a (a ++ t) = None.
Proof.
  split.
  - pose proof (first_mismatch_seq (a ++ t) a (Nat.min (length (a ++ t)) (length a)) O)
      as H.
    destruct (first_mismatch _ (a ++ t) a) as [k|]; [|reflexivity].
    destruct H as (Hk & Hne & _). exfalso. apply Hne. apply app_nth1. lia.
  - pose proof (first_mismatch_seq a (a ++ t) (Nat.min (length a) (length (a ++ t))) O)
      as H.
    destruct (first_mismatch _ a (a ++ t)) as [k|]; [|reflexivity].
    destruct H as (Hk & Hne & _). exfalso. apply Hne. symmetry. apply app_nth1. lia.
Qed.

(** Texts of the same length that differ, differ at an index the loop finds;
    the span it cuts there is empty. *)
Lemma first_mismatch_same_length (a b : pystr) :
  length a = length b -> a <> b ->
  exists i, first_mismatch (seq O (Nat.min (length a) (length b))) a b = Some i.
Proof.
  intros Hl Hne.
  pose proof (first_mismatch_seq a b (Nat.min (length a) (length b)) O) as H.
  destruct (first_mismatch _ a b) as [k|]; [now exists k|].
  exfalso. apply Hne. apply (nth_ext a b 0 0 Hl). intros j Hj. apply H. lia.
Qed.

Lemma slice_empty {A} (l : list A) (i : nat) : slice l i (i + 0) = [].
Proof. unfold slice. replace (i + 0 - i)%nat with O by lia. reflexivity. Qed.

Lemma truthy_slice (l : pystr) (i d : nat) :
  (i < length l)%nat -> (0 < d)%nat -> truthy (slice l i (i + d)) = true.
Proof.
  intros Hi Hd. unfold slice. replace (i + d - i)%nat with d by lia.
  destruct d as [|d]; [lia|].
  destruct (skipn i l) as [|x r] eqn:E; [|reflexivity].
  apply (f_equal (@length _)) in E. rewrite length_skipn in E. cbn in E. lia.
Qed.

Lemma truthy_nonempty (s : pystr) : truthy s = true <-> s <> [].
Proof. destruct s; cbn; split; congruence. Qed.

Lemma broadcasts_write_all write data items :
  broadcasts (snd (write_all (pyfloat:=pyfloat) write data items)) = [].
Proof.
  induction items as [|[p s] items IH]; [reflexivity|].
  cbn [write_all]. destruct (write_all write data items) as [failed evs].
  cbn [snd] in IH. destruct (write s data) as [[]|e]; cbn [snd broadcasts flat_map app];
    exact IH.
Qed.

Lemma broadcasts_broadcast_change self change write :
  broadcasts (snd (broadcast_change float_repr self change write)) = [].
Proof.
  unfold broadcast_change. destruct (utf8_encode _); [|reflexivity].
  pose proof (broadcasts_write_all write a (streams self)) as H.
  destruct (write_all write a (streams self)). exact H.
Qed.

Lemma get_cursor_position_ok self : exists pos, get_cursor_position self = Ok pos.
Proof.
  unfold get_cursor_position, Text_index. cbn [resolve bind].
  destruct (line_col _ _ _ _). eexists. reflexivity.
Qed.

(** [on_text_change] once the guard and the two reads of the widget are
    passed. *)
Lemma on_text_change_eq self now write pos :
  applying_remote_change self = false ->
  get_cursor_position self = Ok pos ->
  buffer (text_area self) <> previous_content self ->
  on_text_change float_repr self now write =
    let current_content := buffer (text_area self) in
    let previous := previous_content self in
    let range := seq O (Nat.min (length current_content) (length previous)) in
    let '(change, msg) :=
      if (length previous <? length current_content)%nat then
        let inserted :=
          match first_mismatch range current_content previous with
          | Some i =>
              slice current_content i (i + length current_content - length previous)
          | None => []
          end in
        (TextChange_init now pos inserted [], Detected_insert inserted pos)
      else
        let deleted :=
          match first_mismatch range current_content previous with
          | Some i =>
              slice previous i (i + length previous - length current_content)
          | None => []
          end in
        (TextChange_init now pos [] deleted, Detected_delete deleted pos) in
    let self1 := with_previous_content self current_content in
    if truthy (insert change) || truthy (delete change) then
      let '(net, _, evs) := broadcast_change float_repr (network self1) change write in
      (with_network self1 net,
       Printed msg :: Printed (Broadcasting_change (to_json float_repr change))
         :: Broadcast change :: evs)
    else (self1, [Printed msg]).
Proof.
  intros Hf Hc Hne. unfold on_text_change.
  rewrite Hf, Text_get_all, Hc, (pystr_eqb_neq _ _ Hne). reflexivity.
Qed.

(** The detector on an insertion inside the text: when the new content is
    longer than the old one and first differs from it at an index [i] inside
    the old content, exactly one record is broadcast, the insertion at the
    cursor position of the characters of the new content from [i] on, as
    many as the content has grown by. *)
Lemma on_text_change_detects_insert (self : Editor) (now : pyfloat)
    (write : Stream -> pybytes -> result unit) (pos : pystr) (i : nat) :
  applying_remote_change self = false ->
  get_cursor_position self = Ok pos ->
  let new := buffer (text_area self) in
  let old := previous_content self in
  (length old < length new)%nat ->
  first_diff new old i -> (i < length old)%nat ->
  broadcasts (snd (on_text_change float_repr self now write))
  = [mkTextChange pos (slice new i (i + (length new - length old))) [] now].
Proof.
  intros Hf Hc new old Hlen Hd Hi.
  assert (Hne : new <> old) by (intros E; rewrite E in Hlen; lia).
  rewrite (on_text_change_eq self now write pos Hf Hc Hne). fold new old.
  cbv zeta.
  destruct (Nat.ltb_spec (length old) (length new)) as [_|?]; [|lia].
  rewrite (first_mismatch_first_diff new old i Hd) by lia.
  replace (i + length new - length old)%nat with (i + (length new - length old))%nat
    by lia.
  cbn [TextChange_init insert delete].
  rewrite truthy_slice by lia. cbn [orb].
  pose proof (broadcasts_broadcast_change
                (network (with_previous_content self new))
                (mkTextChange pos (slice new i (i + (length new - length old))) [] now)
                write) as Hb.
  destruct (broadcast_change _ _ _ _) as [[net ok] evs].
  cbn [snd broadcasts flat_map app] in *. now rewrite Hb.
Qed.

(** Claim C2, as the code has it on text added at the end: when the new
    content is the old content followed by more text, the scan stops at the
    end of the old content without a differing index, the inserted text is
    taken to be empty and nothing is broadcast; the snapshot moves on, so the
    text is never sent. *)
Theorem on_text_change_misses_append (self : Editor) (now : pyfloat)
    (write : Stream -> pybytes -> result unit) (pos added : pystr) :
  applying_remote_change self = false ->
  get_cursor_position self = Ok pos ->
  buffer (text_area self) = previous_content self ++ added ->
  added <> [] ->
  on_text_change float_repr self now write
  = (with_previous_content self (buffer (text_area self)),
     [Printed (Detected_insert [] pos)]).
Proof.
  intros Hf Hc Hb Ha.
  assert (Hne : buffer (text_area self) <> previous_content self).
  { rewrite Hb. intros E. apply Ha.
    apply (app_inv_head (previous_content self)). now rewrite app_nil_r. }
  rewrite (on_text_change_eq self now write pos Hf Hc Hne). cbv zeta.
  rewrite Hb.
  destruct (Nat.ltb_spec (length (previous_content self))
              (length (previous_content self ++ added))) as [_|H].
  - destruct (first_mismatch_prefix (previous_content self) added) as [-> _].
    reflexivity.
  - exfalso. rewrite length_app in H. destruct added; [contradiction|cbn in H; lia].
Qed.

(** Claim C3, amended: when the new content is strictly shorter than the old
    one and differs from it at an index below its own length, exactly one
    record is broadcast, a deletion at the cursor position whose deleted text
    is [old[i : i + (oldLen - newLen)]] for the first differing index [i]. *)
Theorem on_text_change_detects_delete (self : Editor) (now : pyfloat)
    (write : Stream -> pybytes -> result unit) (pos : pystr) (i : nat) :
  applying_remote_change self = false ->
  get_cursor_position self = Ok pos ->
  let new := buffer (text_area self) in
  let old := previous_content self in
  (length new < length old)%nat ->
  first_diff new old i -> (i < length new)%nat ->
  broadcasts (snd (on_text_change float_repr self now write))
  = [mkTextChange pos [] (slice old i (i + (length old - length new))) now].
Proof.
  intros Hf Hc new old Hlen Hd Hi.
  assert (Hne : new <> old) by (intros E; rewrite E in Hlen; lia).
  rewrite (on_text_change_eq self now write pos Hf Hc Hne). fold new old.
  cbv zeta.
  destruct (Nat.ltb_spec (length old) (length new)) as [?|_]; [lia|].
  rewrite (first_mismatch_first_diff new old i Hd) by lia.
  replace (i + length old - length new)%nat with (i + (length old - length new))%nat
    by lia.
  cbn [TextChange_init insert delete truthy].
  rewrite truthy_slice by lia. cbn [orb].
  pose proof (broadcasts_broadcast_change
                (network (with_previous_content self new))
                (mkTextChange pos [] (slice old i (i + (length old - length new))) now)
                write) as Hb.
  destruct (broadcast_change _ _ _ _) as [[net ok] evs].
  cbn [snd broadcasts flat_map app] in *. now rewrite Hb.
Qed.

(** Claim C4, amended: when the new content has the length of the old one
    and differs from it, the detector broadcasts nothing and writes to no
    stream; it takes the change for a deletion of no text, prints it as a
    detected deletion and refreshes the snapshot. Nothing marks the change
    as unsupported. *)
Theorem on_text_change_same_length (self : Editor) (now : pyfloat)
    (write : Stream -> pybytes -> result unit) (pos : pystr) :
  applying_remote_change self = false ->
  get_cursor_position self = Ok pos ->
  length (buffer (text_area self)) = length (previous_content self) ->
  buffer (text_area self) <> previous_content self ->
  on_text_change float_repr self now write
  = (with_previous_content self (buffer (text_area self)),
     [Printed (Detected_delete [] pos)]).
Proof.
  intros Hf Hc Hlen Hne.
  rewrite (on_text_change_eq self now write pos Hf Hc Hne). cbv zeta.
  destruct (Nat.ltb_spec (length (previous_content self))
              (length (buffer (text_area self)))) as [?|_]; [lia|].
  destruct (first_mismatch_same_length _ _ Hlen Hne) as [i ->].
  replace (i + length (previous_content self) - length (buffer (text_area self)))%nat
    with (i + 0)%nat by lia.
  rewrite slice_empty. reflexivity.
Qed.

(** Claim C10: a record that [on_text_change] hands to the network has
    exactly one of its two texts non-empty. *)
Theorem on_text_change_one_sided (self : Editor) (now : pyfloat)
    (write : Stream -> pybytes -> result unit) (c : TextChange pyfloat) :
  In c (broadcasts (snd (on_text_change float_repr self now write))) ->
  one_sided c.
Proof.
  destruct (applying_remote_change self) eqn:Hf.
  { rewrite on_text_change_guarded by exact Hf. intros []. }
  destruct (get_cursor_position_ok self) as [pos Hc].
  destruct (list_eq_dec N.eq_dec (buffer (text_area self)) (previous_content self))
    as [E|Hne].
  { rewrite on_text_change_in_sync by (now symmetry). intros []. }
  rewrite (on_text_change_eq self now write pos Hf Hc Hne). cbv zeta.
  destruct (_ <? _)%nat.
  - set (inserted := match first_mismatch _ _ _ with Some _ => _ | None => [] end).
    cbn [TextChange_init insert delete truthy]. rewrite orb_false_r.
    destruct (truthy inserted) eqn:Ht; [|intros []].
    pose proof (broadcasts_broadcast_change
                  (network (with_previous_content self (buffer (text_area self))))
                  (mkTextChange pos inserted [] now) write) as Hb.
    destruct (broadcast_change _ _ _ _) as [[net ok] evs].
    cbn [snd broadcasts flat_map app] in *. rewrite Hb.
    intros [<-|[]]. left. cbn. split; [now apply truthy_nonempty | reflexivity].
  - set (deleted := match first_mismatch _ _ _ with Some _ => _ | None => [] end).
    cbn [TextChange_init insert delete truthy orb].
    destruct (truthy deleted) eqn:Ht; [|intros []].
    pose proof (broadcasts_broadcast_change
                  (network (with_previous_content self (buffer (text_area self))))
                  (mkTextChange pos [] deleted now) write) as Hb.
    destruct (broadcast_change _ _ _ _) as [[net ok] evs].
    cbn [snd broadcasts flat_map app] in *. rewrite Hb.
    intros [<-|[]]. right. cbn. split; [reflexivity | now apply truthy_nonempty].
Qed.

(* ------------------------------------------------------------------------ *)
(** ** The peer network: broadcast *)

Lemma hexdigit_ascii d : d < 16 -> hexdigit d < 0x80.
Proof. intros H. unfold hexdigit. destruct (d <? 10); lia. Qed.

Lemma hex4_ascii n : Forall (fun c => c < 0x80) (hex4 n).
Proof.
  rewrite hex4_digits.
  repeat constructor; apply hexdigit_ascii; apply N.mod_lt; discriminate.
Qed.

Lemma replace_ascii c : Forall (fun c => c < 0x80) (replace c).
Proof.
  unfold replace. destruct (escape_dct c) as [e|] eqn:He.
  - destruct (escape_dct_cases _ _ He)
      as [[_ ->]|[[_ ->]|[[_ ->]|[[_ ->]|[[_ ->]|[[_ ->]|[_ ->]]]]]]];
      repeat constructor.
  - destruct (c <? 0x10000).
    + constructor; [reflexivity|]. constructor; [reflexivity|]. apply hex4_ascii.
    + cbv zeta. apply Forall_app. split;
        (constructor; [reflexivity|]; constructor; [reflexivity|]; apply hex4_ascii).
Qed.

Lemma escape_body_ascii s : Forall (fun c => c < 0x80) (escape_body s).
Proof.
  induction s as [|c s IH]; [constructor|].
  cbn [escape_body flat_map]. apply Forall_app. split; [|exact IH].
  unfold escape_char. destruct (needs_escape c) eqn:Hn; [apply replace_ascii|].
  constructor; [|constructor].
  unfold needs_escape in Hn. apply orb_false_iff in Hn as [_ Hn].
  apply N.ltb_ge in Hn. lia.
Qed.

Lemma numchar_ascii c : is_numchar c = true -> c < 0x80.
Proof.
  unfold is_numchar, is_digit, ch_minus, ch_plus, ch_dot. intros H.
  repeat (apply orb_true_iff in H as [H|H]);
    try (apply andb_true_iff in H as [_ H]; apply N.leb_le in H; lia);
    apply N.eqb_eq in H; subst c; reflexivity.
Qed.

Lemma float_repr_ascii x : Forall (fun c => c < 0x80) (float_repr x).
Proof.
  pose proof (float_repr_token x) as H. unfold number_token in H.
  destruct (float_repr x) as [|a tok]; [discriminate|].
  apply andb_true_iff in H as [_ H]. rewrite forallb_forall in H.
  apply Forall_forall. intros c Hc. apply numchar_ascii. now apply H.
Qed.

Lemma to_json_ascii r : Forall (fun c => c < 0x80) (to_json float_repr r).
Proof.
  rewrite to_json_shape.
  repeat first
    [ apply Forall_cons; [reflexivity|]
    | apply Forall_app; split; [apply escape_body_ascii|]
    | apply Forall_app; split; [apply float_repr_ascii|]
    | apply Forall_nil ].
Qed.

Lemma utf8_encode_ascii s : Forall (fun c => c < 0x80) s -> utf8_encode s = Ok s.
Proof.
  induction 1 as [|c s Hc _ IH]; [reflexivity|].
  cbn [utf8_encode]. unfold utf8_char.
  destruct (N.ltb_spec c 0x80) as [_|?]; [|lia].
  cbn [bind]. now rewrite IH.
Qed.

(** The encoding never fails: the JSON text is ASCII. *)
Lemma encode_to_json r : utf8_encode (to_json float_repr r) = Ok (to_json float_repr r).
Proof. apply utf8_encode_ascii, to_json_ascii. Qed.

Lemma write_all_spec write data items :
  let '(failed_peers, evs) := write_all (pyfloat:=pyfloat) write data items in
  failed_peers = map fst (filter (fun it => negb (write_ok write data it)) items)
  /\ writes evs = map (fun it => (fst it, snd it, data, write (snd it) data)) items.
Proof.
  induction items as [|[p s] items IH]; [now split|].
  cbn [write_all]. destruct (write_all write data items) as [failed evs].
  destruct IH as [IH1 IH2]. unfold write_ok at 1. cbn [filter snd fst map].
  destruct (write s data) as [[]|e] eqn:E; cbn [negb map fst writes flat_map app].
  - split; [exact IH1 | f_equal; exact IH2].
  - split; [f_equal; exact IH1 | f_equal; exact IH2].
Qed.

Lemma dict_del_absent {V} (d : pydict V) p :
  (if dict_mem d p then dict_del d p else d) = dict_del d p.
Proof.
  destruct (dict_mem d p) eqn:Hm; [reflexivity|].
  unfold dict_mem in Hm. unfold dict_del.
  induction d as [|kv d IHd]; [reflexivity|].
  cbn [existsb] in Hm. apply orb_false_iff in Hm as [H1 H2].
  cbn [filter]. rewrite H1. cbn [negb]. now rewrite <- IHd.
Qed.

Lemma filter_filter {A} (f g : A -> bool) (l : list A) :
  filter f (filter g l) = filter (fun x => g x && f x) l.
Proof.
  induction l as [|x l IH]; [reflexivity|].
  cbn [filter]. destruct (g x); cbn [andb filter]; [|exact IH].
  destruct (f x); now rewrite IH.
Qed.

Lemma drop_failed_filter (d : pydict Stream) failed :
  drop_failed d failed
  = filter (fun kv => negb (existsb (pystr_eqb (fst kv)) failed)) d.
Proof.
  unfold drop_failed. revert d. induction failed as [|p failed IH]; intros d.
  - cbn. induction d as [|kv d IHd]; [reflexivity|]. cbn. now rewrite <- IHd.
  - cbn [fold_left existsb]. rewrite dict_del_absent, IH. unfold dict_del.
    rewrite filter_filter. apply filter_ext. intros kv.
    now rewrite negb_orb.
Qed.

Lemma existsb_key_failed write data (items : pydict Stream) k :
  existsb (pystr_eqb k)
    (map fst (filter (fun it => negb (write_ok write data it)) items)) = true
  -> In k (dict_keys items).
Proof.
  intros H. apply existsb_exists in H as (k' & Hin & Hk).
  apply pystr_eqb_eq in Hk. subst k'.
  apply in_map_iff in Hin as (it & <- & Hit).
  apply filter_In in Hit as [Hit _]. unfold dict_keys. now apply in_map.
Qed.

(** With unique keys, dropping the failed peers keeps exactly the streams
    whose write went through. *)
Lemma drop_failed_spec write data (items : pydict Stream) :
  NoDup (dict_keys items) ->
  drop_failed items
    (map fst (filter (fun it => negb (write_ok write data it)) items))
  = filter (write_ok write data) items.
Proof.
  intros Hnd. rewrite drop_failed_filter.
  induction items as [|[p s] items IH]; [reflexivity|].
  cbn [dict_keys map fst] in Hnd. inversion Hnd as [|? ? Hp Hnd']; subst.
  assert (Hrest : forall l,
    (forall k, existsb (pystr_eqb k) l = true -> In k (dict_keys items)) ->
    filter (fun kv => negb (existsb (pystr_eqb (fst kv)) (p :: l))) items
    = filter (fun kv => negb (existsb (pystr_eqb (fst kv)) l)) items).
  { intros l _. apply filter_ext_in. intros [k v] Hin. cbn [existsb fst].
    destruct (pystr_eqb k p) eqn:E; [|reflexivity].
    apply pystr_eqb_eq in E. subst k. exfalso. apply Hp.
    unfold dict_keys. now apply (in_map fst) in Hin. }
  cbn [filter].
  assert (Hpp : forall l, existsb (pystr_eqb p) (p :: l) = true).
  { intros l. cbn [existsb]. now rewrite pystr_eqb_refl. }
  destruct (write_ok write data (p, s)) eqn:E; cbn [negb map fst filter].
  - destruct (existsb (pystr_eqb p) _) eqn:Ex.
    + exfalso. apply Hp. eapply existsb_key_failed. exact Ex.
    + cbn [negb]. f_equal. now apply IH.
  - rewrite Hpp. cbn [negb].
    rewrite Hrest by (intros k; apply existsb_key_failed). now apply IH.
Qed.

(** Claim C9: [broadcast_change] encodes the record once; every registered
    stream gets one write of that same data, in the order of registration,
    whatever the outcome of the other writes; afterwards the registered
    streams are those whose write went through. *)
Theorem broadcast_change_spec (self : P2PNetwork) (change : TextChange pyfloat)
    (write : Stream -> pybytes -> result unit) :
  NoDup (dict_keys (streams self)) ->
  exists data,
    utf8_encode (to_json float_repr change) = Ok data /\
    let '(net, ok, evs) := broadcast_change float_repr self change write in
    ok = true
    /\ writes evs
       = map (fun it => (fst it, snd it, data, write (snd it) data)) (streams self)
    /\ streams net = filter (write_ok write data) (streams self)
    /\ running net = running self.
Proof.
  intros Hnd. exists (to_json float_repr change).
  split; [apply encode_to_json|].
  unfold broadcast_change. rewrite encode_to_json.
  pose proof (write_all_spec write (to_json float_repr change) (streams self)) as H.
  destruct (write_all _ _ _) as [failed evs]. destruct H as [-> Hw].
  split; [reflexivity|]. split; [exact Hw|]. split; [|reflexivity].
  cbn [with_streams streams]. now apply drop_failed_spec.
Qed.

(* ------------------------------------------------------------------------ *)
(** ** The peer network: the read loop *)

Lemma dict_del_not_in {V} (d : pydict V) k : ~ In k (dict_keys (dict_del d k)).
Proof.
  unfold dict_keys, dict_del. intros H.
  apply in_map_iff in H as ([k' v] & E & Hin). cbn [fst] in E. subst k'.
  apply filter_In in Hin as [_ Hf]. cbn [fst] in Hf.
  now rewrite pystr_eqb_refl in Hf.
Qed.

Lemma dict_mem_false_not_in {V} (d : pydict V) k :
  dict_mem d k = false -> ~ In k (dict_keys d).
Proof.
  unfold dict_mem, dict_keys. intros Hm H.
  apply in_map_iff in H as ([k' v] & E & Hin). cbn [fst] in E. subst k'.
  assert (Ht : existsb (fun kv => pystr_eqb (fst kv) k) d = true).
  { apply existsb_exists. exists (k, v). split; [exact Hin|]. apply pystr_eqb_refl. }
  congruence.
Qed.

Section ReadLoopProperties.

Variable App : Type.
Variable callback : App -> TextChange pyfloat -> App * list (event pyfloat).
Variable peer : pystr.

Local Abbreviation loop := (read_loop float_of_token callback peer).

(** Three read failures in a row end the loop, whatever came before. *)
Lemma read_loop_three_failures pre e1 e2 e3 rest k app :
  fst (fst (loop (pre ++ ReadRaises e1 :: ReadRaises e2 :: ReadRaises e3 :: rest) k app))
  = Exited.
Proof.
  revert k app. induction pre as [|o pre IH]; intros k app.
  - cbn [List.app read_loop]. unfold max_retries.
    destruct k as [|[|k]]; reflexivity.
  - cbn [List.app]. destruct o as [|e|data now]; cbn [read_loop].
    + reflexivity.
    + destruct (max_retries <=? S k)%nat; [reflexivity|].
      specialize (IH (S k) app).
      destruct (read_loop _ _ _ _ _ _) as [[fin a] evs]. exact IH.
    + destruct data as [|b data]; [reflexivity|].
      destruct (process_data _ _ _ _ _ _) as [app' evs].
      specialize (IH O app').
      destruct (read_loop _ _ _ _ _ _) as [[fin a] evs']. exact IH.
Qed.

(** The loop on a run in two parts: the second part is met with the
    failure count and the owner's state that the first part leaves. *)
Lemma read_loop_app pre obs :
  forall k app,
    loop (pre ++ obs) k app
    = let '(fin, app', evs) := loop pre k app in
      match fin with
      | Exited => (Exited, app', evs)
      | Reading k' =>
          let '(fin', app'', evs') := loop obs k' app' in (fin', app'', evs ++ evs')
      end.
Proof.
  induction pre as [|o pre IH]; intros k app.
  - cbn [List.app read_loop].
    destruct (read_loop _ _ _ obs k app) as [[fin a] evs]. reflexivity.
  - cbn [List.app]. destruct o as [|e|data now]; cbn [read_loop].
    + reflexivity.
    + destruct (max_retries <=? S k)%nat; [reflexivity|].
      rewrite IH.
      destruct (read_loop _ _ _ pre (S k) app) as [[fin a] evs].
      destruct fin; [reflexivity|].
      destruct (read_loop _ _ _ obs _ a) as [[fin' a'] evs']. reflexivity.
    + destruct data as [|b data]; [reflexivity|].
      destruct (process_data _ _ _ _ _ _) as [app0 evs0].
      rewrite IH.
      destruct (read_loop _ _ _ pre O app0) as [[fin a] evs].
      destruct fin; [reflexivity|].
      destruct (read_loop _ _ _ obs _ a) as [[fin' a'] evs'].
      now rewrite app_assoc.
Qed.

(** While the loop is reading, its count is the number of failures in a
    row at the end of the run, and it is below the limit. *)
Lemma read_loop_count pre :
  forall app k app' evs,
    loop pre O app = (Reading k, app', evs) ->
    k = consecutive_failures pre /\ (k < max_retries)%nat.
Proof.
  unfold consecutive_failures, max_retries.
  induction pre as [|o pre IH] using rev_ind; intros app k app' evs H.
  - cbn in H. injection H as <- _ _. cbn. lia.
  - rewrite read_loop_app in H.
    destruct (read_loop _ _ _ pre O app) as [[fin a] ev] eqn:E.
    destruct fin as [|k0]; [discriminate|].
    destruct (IH _ _ _ _ E) as [Hk Hlt]. rewrite rev_unit.
    destruct o as [|e|data now]; cbn [read_loop leading_failures] in *.
    + discriminate.
    + unfold max_retries in H.
      destruct (Nat.leb_spec 3 (S k0)); [discriminate|].
      injection H as <- _ _. lia.
    + destruct data as [|b data]; [discriminate|].
      destruct (process_data _ _ _ _ _ _) as [app0 evs0].
      injection H as <- _ _. lia.
Qed.

(** Claim C8. Before its first read the loop has printed nothing and the
    directory is as it was. Whenever it is waiting for a read, the peer is
    still registered and the failure count is the number of read failures in
    a row at the end of the run, below three; from there a successful read
    is processed and leaves the count at zero; a failure that is not the
    third in a row is printed and followed by a sleep of one second and
    another read; the third failure in a row is printed, ends the loop
    without another read and takes the peer out of the directory. So three
    read failures in a row, wherever in the run, leave the loop ended and
    the peer out of [get_connected_peers]. *)
Theorem read_from_stream_retries (self : P2PNetwork) (app : App) :
  let serve := read_from_stream float_of_token callback self app peer in
  serve [] = (Reading 0, self, app, [])
  /\ (forall pre k net app' evs,
         serve pre = (Reading k, net, app', evs) ->
         net = self
         /\ k = consecutive_failures pre
         /\ (k < max_retries)%nat
         /\ (forall b data now,
                serve (pre ++ [ReadReturns (b :: data) now])
                = let '(app'', evs') :=
                    process_data float_of_token callback peer (b :: data) now app' in
                  (Reading 0, self, app'', evs ++ evs'))
         /\ (forall e,
                (S k < max_retries)%nat ->
                serve (pre ++ [ReadRaises e])
                = (Reading (S k), self, app',
                   evs ++ [Printed (Error_reading peer e); Sleep 1]))
         /\ (forall e rest,
                S k = max_retries ->
                exists net' closing,
                  serve (pre ++ ReadRaises e :: rest)
                  = (Exited, net', app',
                     evs ++ [Printed (Error_reading peer e);
                             Printed (Too_many_errors peer)] ++ closing)
                  /\ ~ In peer (get_connected_peers net')))
  /\ (forall pre e1 e2 e3 rest,
         let '(fin, net, _, _) :=
           serve (pre ++ ReadRaises e1 :: ReadRaises e2 :: ReadRaises e3 :: rest) in
         fin = Exited /\ ~ In peer (get_connected_peers net)).
Proof.
  cbv zeta. split; [reflexivity|]. split.
  - intros pre k net app' evs H. unfold read_from_stream in H.
    destruct (read_loop _ _ _ pre O app) as [[fin a] ev] eqn:E.
    destruct fin as [|k0].
    { destruct (dict_mem (streams self) peer); discriminate. }
    injection H as -> <- -> ->.
    destruct (read_loop_count pre _ _ _ _ E) as [Hk Hlt].
    split; [reflexivity|]. split; [exact Hk|]. split; [exact Hlt|].
    split; [|split].
    + intros b data now. unfold read_from_stream.
      rewrite read_loop_app, E. cbn [read_loop].
      destruct (process_data _ _ _ _ _ _) as [app0 evs0].
      now rewrite List.app_nil_r.
    + intros e Hs. unfold read_from_stream.
      rewrite read_loop_app, E. cbn [read_loop].
      destruct (Nat.leb_spec max_retries (S k)); [lia | reflexivity].
    + intros e rest Hs. unfold read_from_stream.
      rewrite read_loop_app, E. cbn [read_loop].
      destruct (Nat.leb_spec max_retries (S k)); [|lia].
      destruct (dict_mem (streams self) peer) eqn:Hm.
      * eexists. exists [Printed (Stream_closed peer)].
        split; [now rewrite <- !app_assoc|]. apply dict_del_not_in.
      * eexists. exists []. split; [now rewrite List.app_nil_r|].
        now apply dict_mem_false_not_in.
  - intros pre e1 e2 e3 rest.
    pose proof (read_loop_three_failures pre e1 e2 e3 rest O app) as H.
    unfold read_from_stream.
    destruct (read_loop _ _ _ _ _ _) as [[fin a] evs]. cbn [fst] in H. subst fin.
    destruct (dict_mem (streams self) peer) eqn:Hm.
    + split; [reflexivity|]. apply dict_del_not_in.
    + split; [reflexivity|]. now apply dict_mem_false_not_in.
Qed.

End ReadLoopProperties.

(* ------------------------------------------------------------------------ *)
(** ** Indices of the widget *)

Lemma line_col_locate (cs : pystr) :
  forall o L C off, (o <= S (length cs))%nat ->
    let '(l, c) := line_col (cs ++ [ch_nl]) o L C in
    (l = L /\ c = (C + o)%nat /\ (o <= line_length cs)%nat) \/
    (exists d, l = S (L + d) /\ locate cs (S d) c off = (off + o)%nat).
Proof.
  induction cs as [|x cs IH]; intros o L C off Ho.
  - destruct o as [|[|o]]; [| |cbn in Ho; lia].
    + left. cbn. repeat split; lia.
    + right. exists O. cbn. split; [f_equal; lia | lia].
  - destruct o as [|o].
    + left. cbn. repeat split; lia.
    + cbn [app line_col line_length].
      destruct (N.eqb_spec x ch_nl) as [->|Hx].
      * specialize (IH o (S L) O (S off)).
        destruct (line_col (cs ++ [ch_nl]) o (S L) 0) as [l c].
        right. destruct IH as [(-> & -> & Hl)|(d & -> & Hd)]; [cbn in Ho; lia | |].
        -- exists O. split; [f_equal; lia|].
           cbn [locate N.eqb Pos.eqb ch_nl]. rewrite locate_here.
           rewrite Nat.min_l by (cbn; lia). cbn. lia.
        -- exists (S d). split; [f_equal; lia|].
           cbn [locate N.eqb Pos.eqb ch_nl]. rewrite Hd. lia.
      * specialize (IH o L (S C) (S off)).
        destruct (line_col (cs ++ [ch_nl]) o L (S C)) as [l c].
        destruct IH as [(-> & -> & Hl)|(d & -> & Hd)]; [cbn in Ho; lia | |].
        -- left. repeat split; lia.
        -- right. exists d. split; [reflexivity|].
           cbn [locate]. apply N.eqb_neq in Hx. rewrite Hx, Hd. lia.
Qed.

(** The index printed for an offset is read back as that offset. *)
Lemma offset_of_line_col (cs : pystr) (o : nat) :
  (o <= S (length cs))%nat ->
  let '(l, c) := line_col (cs ++ [ch_nl]) o 1%nat O in offset_of cs l c = o.
Proof.
  intros Ho. pose proof (line_col_locate cs o 1%nat O O Ho) as H.
  destruct (line_col (cs ++ [ch_nl]) o 1 0) as [l c].
  destruct H as [(-> & -> & Hl)|(d & -> & Hd)].
  - cbn [offset_of]. rewrite locate_here. cbn. lia.
  - cbn [offset_of Nat.add]. rewrite Hd. lia.
Qed.

(** The index of an offset depends on the text before it only. *)
Lemma line_col_prefix (p t t' : pystr) L C :
  line_col (p ++ t) (length p) L C = line_col (p ++ t') (length p) L C.
Proof.
  revert L C. induction p as [|x p IH]; intros L C; [now destruct t, t'|].
  cbn [app length line_col]. destruct (x =? ch_nl); apply IH.
Qed.

Lemma addresses_resolve w pos o : addresses w pos o -> resolve w (At pos) = Ok o.
Proof.
  intros [Hp Ho]. cbn [resolve]. rewrite Hp.
  pose proof (offset_of_line_col (chars w) o) as H. unfold buffer.
  destruct (line_col (chars w ++ [ch_nl]) o 1 0) as [l c].
  rewrite H by lia. reflexivity.
Qed.

(** A position keeps addressing its offset when the text from that offset
    on is replaced. *)
Lemma addresses_prefix w pos o (t : pystr) (m : nat) :
  addresses w pos o ->
  addresses (mkText (firstn o (chars w) ++ t) m) pos o.
Proof.
  intros [Hp Ho]. split.
  - rewrite Hp. f_equal. unfold buffer. cbn [chars].
    assert (E : length (firstn o (chars w)) = o) by (rewrite length_firstn; lia).
    rewrite <- (firstn_skipn o (chars w)) at 1.
    rewrite <- !app_assoc.
    generalize dependent (firstn o (chars w)). intros p <-.
    apply line_col_prefix.
  - cbn [chars]. rewrite length_app, length_firstn. lia.
Qed.

(* ------------------------------------------------------------------------ *)
(** ** The change applier: insertions and matching deletions *)

Lemma Text_index_offset w i o :
  resolve w i = Ok o -> (o <= tk_end w)%nat ->
  exists p, Text_index w i = Ok p /\ resolve w (At p) = Ok o.
Proof.
  intros Hr Ho. unfold Text_index. rewrite Hr. cbn [bind].
  pose proof (offset_of_line_col (chars w) o Ho) as H. unfold buffer.
  destruct (line_col (chars w ++ [ch_nl]) o 1 0) as [l c].
  eexists. split; [reflexivity|].
  cbn [resolve]. rewrite parse_index_decimal. now rewrite H.
Qed.


(** The [try] block on a deletion whose expected text is there. *)
Lemma apply_try_delete (change : TextChange pyfloat) (r0 : run pyfloat) (o : nat) :
  insert change = [] ->
  delete change <> [] ->
  addresses (text_area (cur r0)) (position change) o ->
  (o + length (delete change) <= length (chars (text_area (cur r0))))%nat ->
  slice (buffer (text_area (cur r0))) o (o + length (delete change)) = delete change ->
  let w := mkText (firstn o (chars (text_area (cur r0)))
                     ++ skipn (o + length (delete change))
                          (chars (text_area (cur r0)))) o in
  exists r1,
    apply_try change r0 = (r1, Ok tt)
    /\ cur r1 = with_previous_content (with_text_area (cur r0) w) (buffer w)
    /\ out r1 = out r0 ++ [Printed (Applied_delete (delete change) (position change))].
Proof.
  intros Hi Hd Ha Hlen Hm.
  assert (Ht : truthy (delete change) = true) by now apply truthy_nonempty.
  assert (Hl : (0 <? length (delete change))%nat = true).
  { destruct (delete change); [contradiction | reflexivity]. }
  assert (Hn : (0 < length (delete change))%nat) by now apply Nat.ltb_lt.
  pose proof (addresses_resolve _ _ _ Ha) as Hr.
  set (w0 := text_area (cur r0)) in *.
  set (cs := chars w0) in *.
  set (n := length (delete change)) in *.
  assert (Hr2 : resolve w0 (Plus (At (position change)) n) = Ok (o + n)%nat).
  { cbn [resolve]. cbn [resolve] in Hr. rewrite Hr. cbn [bind].
    unfold tk_end. fold cs. rewrite Nat.min_l by lia. reflexivity. }
  assert (Hget : Text_get w0 (At (position change))
                   (Plus (At (position change)) n) = Ok (delete change)).
  { unfold Text_get. rewrite Hr2, Hr. cbn [bind]. now rewrite Hm. }
  assert (Hdel : exists m,
    Text_delete w0 (At (position change)) (Plus (At (position change)) n)
    = Ok (mkText (firstn o cs ++ skipn (o + n) cs) m)).
  { unfold Text_delete. rewrite Hr2, Hr. cbn [bind].
    destruct (Nat.leb_spec (o + n) o) as [?|_]; [lia|].
    unfold tk_end. fold cs.
    destruct (Nat.eqb_spec (o + n) (S (length cs))) as [?|_]; [lia|].
    destruct (line_col _ _ _ _) as [l1 c1]. cbn [andb].
    rewrite Nat.max_r by lia. eexists. reflexivity. }
  destruct Hdel as [m Hdel].
  set (w1 := mkText (firstn o cs ++ skipn (o + n) cs) m) in *.
  assert (Hr1 : resolve w1 (At (position change)) = Ok o).
  { apply addresses_resolve. now apply (addresses_prefix w0). }
  unfold apply_try. rewrite Hi, Ht. fold n. rewrite Hl.
  unfold bindM, query, widget, print, set_previous_content, ret, moved.
  cbn [truthy cur passed out text_area with_text_area].
  fold w0. rewrite Hget, pystr_eqb_refl.
  cbn [cur passed out text_area with_text_area].
  fold w0. rewrite Hdel.
  cbn [cur passed out text_area with_text_area].
  unfold Text_mark_set. rewrite Hr1. cbn [bind].
  cbn [cur passed out text_area with_text_area].
  rewrite Text_get_all.
  eexists. split; [reflexivity|]. split; reflexivity.
Qed.

(** The deletion branch of the applier when the expected text is there: a
    record with an empty inserted text and a non-empty deleted text, whose
    position addresses an offset at which the document holds that text,
    removes exactly that text and leaves the cursor at the offset; it prints
    that it did, refreshes the snapshot and resets the flag. *)
Theorem apply_remote_change_delete (self : Editor) (change : TextChange pyfloat)
    (o : nat) :
  insert change = [] ->
  delete change <> [] ->
  addresses (text_area self) (position change) o ->
  (o + length (delete change) <= length (chars (text_area self)))%nat ->
  slice (buffer (text_area self)) o (o + length (delete change)) = delete change ->
  let r := apply_remote_change self change in
  text_area (cur r)
  = mkText (firstn o (chars (text_area self))
              ++ skipn (o + length (delete change)) (chars (text_area self))) o
  /\ out r = [Printed (Applied_delete (delete change) (position change))]
  /\ previous_content (cur r) = buffer (text_area (cur r))
  /\ applying_remote_change (cur r) = false
  /\ network (cur r) = network self.
Proof.
  intros Hi Hd Ha Hlen Hm.
  destruct (apply_try_delete change
              (moved (mkRun self [] []) (with_applying self true)) o Hi Hd Ha Hlen Hm)
    as (r1 & E & Hc & Ho).
  unfold apply_remote_change. rewrite E.
  cbn [cur passed out]. rewrite Hc, Ho.
  cbn [moved cur out with_applying with_previous_content with_text_area text_area
       previous_content applying_remote_change network app].
  repeat split; reflexivity.
Qed.

(* ------------------------------------------------------------------------ *)
(** ** The change detector: text removed at the end, repeated calls *)

(** Text removed at the end of the document is not detected: when the new
    content is the old content without its last characters, the scan over
    the common length finds no differing index, the deleted text is taken
    to be empty and nothing is broadcast, while the snapshot moves on. *)
Theorem on_text_change_misses_truncation (self : Editor) (now : pyfloat)
    (write : Stream -> pybytes -> result unit) (pos removed : pystr) :
  applying_remote_change self = false ->
  get_cursor_position self = Ok pos ->
  previous_content self = buffer (text_area self) ++ removed ->
  removed <> [] ->
  on_text_change float_repr self now write
  = (with_previous_content self (buffer (text_area self)),
     [Printed (Detected_delete [] pos)]).
Proof.
  intros Hf Hc Hb Ha.
  assert (Hne : buffer (text_area self) <> previous_content self).
  { rewrite Hb. intros E. apply Ha.
    apply (app_inv_head (buffer (text_area self))). now rewrite List.app_nil_r. }
  rewrite (on_text_change_eq self now write pos Hf Hc Hne). cbv zeta.
  rewrite Hb.
  destruct (Nat.ltb_spec (length (buffer (text_area self) ++ removed))
              (length (buffer (text_area self)))) as [H|_].
  - exfalso. rewrite length_app in H. lia.
  - destruct (first_mismatch_prefix (buffer (text_area self)) removed) as [_ ->].
    reflexivity.
Qed.

(** [on_text_change] never changes the document or the flag, and it always
    leaves the editor in a state in which a second call, with no edit in
    between, prints and broadcasts nothing. *)
Theorem on_text_change_settles (self : Editor) (now now' : pyfloat)
    (write write' : Stream -> pybytes -> result unit) :
  let self' := fst (on_text_change float_repr self now write) in
  text_area self' = text_area self
  /\ applying_remote_change self' = applying_remote_change self
  /\ on_text_change float_repr self' now' write' = (self', []).
Proof.
  destruct (applying_remote_change self) eqn:Hf.
  { rewrite on_text_change_guarded by exact Hf. cbn [fst].
    repeat split; [now symmetry | now apply on_text_change_guarded]. }
  destruct (list_eq_dec N.eq_dec (buffer (text_area self)) (previous_content self))
    as [E|Hne].
  { rewrite on_text_change_in_sync by (now symmetry). cbn [fst].
    repeat split; [now symmetry | apply on_text_change_in_sync; now symmetry]. }
  destruct (get_cursor_position_ok self) as [pos Hc].
  rewrite (on_text_change_eq self now write pos Hf Hc Hne). cbv zeta.
  match goal with
  | |- context [if ?b then (TextChange_init ?n ?p ?i ?d, ?m) else ?x] =>
      destruct (if b then (TextChange_init n p i d, m) else x) as [change msg]
  end.
  destruct (truthy (insert change) || truthy (delete change)).
  - destruct (broadcast_change _ _ _ _) as [[net ok] evs]. cbn [fst].
    repeat split; [now symmetry|]. now apply on_text_change_in_sync.
  - cbn [fst]. repeat split; [now symmetry|]. now apply on_text_change_in_sync.
Qed.

(* ------------------------------------------------------------------------ *)
(** ** The peer network: the directory of connections *)

Lemma dict_get_set_same {V} (d : pydict V) k v : dict_get (dict_set d k v) k = Ok v.
Proof.
  induction d as [|[k' v'] d IH]; cbn [dict_set dict_get].
  - now rewrite pystr_eqb_refl.
  - destruct (pystr_eqb k' k) eqn:E; cbn [dict_get].
    + now rewrite pystr_eqb_refl.
    + now rewrite E.
Qed.

Lemma dict_get_set_other {V} (d : pydict V) k v q :
  q <> k -> dict_get (dict_set d k v) q = dict_get d q.
Proof.
  intros Hq. induction d as [|[k' v'] d IH]; cbn [dict_set dict_get].
  - rewrite pystr_eqb_neq by congruence. reflexivity.
  - destruct (pystr_eqb k' k) eqn:E; cbn [dict_get].
    + apply pystr_eqb_eq in E. subst k'.
      rewrite !pystr_eqb_neq by congruence. reflexivity.
    + now rewrite IH.
Qed.

Lemma dict_keys_set {V} (d : pydict V) k v :
  dict_keys (dict_set d k v)
  = if dict_mem d k then dict_keys d else dict_keys d ++ [k].
Proof.
  unfold dict_keys, dict_mem.
  induction d as [|[k' v'] d IH]; cbn [dict_set map existsb fst]; [reflexivity|].
  destruct (pystr_eqb k' k) eqn:E; cbn [map fst orb].
  - apply pystr_eqb_eq in E. now subst k'.
  - rewrite IH. now destruct (existsb _ d).
Qed.

Lemma dict_mem_in {V} (d : pydict V) k : dict_mem d k = true <-> In k (dict_keys d).
Proof.
  split.
  - intros H. apply existsb_exists in H as ([k' v] & Hin & E).
    apply pystr_eqb_eq in E. cbn [fst] in E. subst k'.
    unfold dict_keys. now apply (in_map fst) in Hin.
  - intros H. destruct (dict_mem d k) eqn:E; [reflexivity|].
    now apply dict_mem_false_not_in in E.
Qed.

Lemma NoDup_dict_set {V} (d : pydict V) k v :
  NoDup (dict_keys d) -> NoDup (dict_keys (dict_set d k v)).
Proof.
  intros H. rewrite dict_keys_set. destruct (dict_mem d k) eqn:E; [exact H|].
  apply dict_mem_false_not_in in E.
  apply NoDup_app; [exact H | repeat constructor; intros [] |].
  intros x Hx [<-|[]]. now apply E.
Qed.

Lemma NoDup_dict_filter {V} (f : pystr * V -> bool) (d : pydict V) :
  NoDup (dict_keys d) -> NoDup (dict_keys (filter f d)).
Proof.
  unfold dict_keys. induction d as [|kv d IH]; intros H; [constructor|].
  cbn [map] in H. inversion H as [|? ? Hn Hd]; subst.
  cbn [filter]. destruct (f kv); [|now apply IH].
  cbn [map]. constructor; [|now apply IH].
  intros Hin. apply Hn. apply in_map_iff in Hin as (x & E & Hx).
  apply filter_In in Hx as [Hx _]. rewrite <- E. now apply in_map.
Qed.

Lemma dict_get_del_other {V} (d : pydict V) k q :
  q <> k -> dict_get (dict_del d k) q = dict_get d q.
Proof.
  intros Hq. unfold dict_del.
  induction d as [|[k' v'] d IH]; [reflexivity|].
  cbn [filter fst dict_get]. destruct (pystr_eqb k' k) eqn:E; cbn [negb dict_get].
  - apply pystr_eqb_eq in E. subst k'.
    rewrite pystr_eqb_neq by congruence. exact IH.
  - now rewrite IH.
Qed.

(** Registering a stream, as [stream_handler] and [connect_to_peer] do: the
    peer is listed once, whether it was connected before or not, and its
    entry holds the new stream; a peer that was already listed keeps its
    place and the list does not grow; the other entries are not touched. *)
Theorem register_stream_replaces (self : P2PNetwork) (peer_id : pystr)
    (stream : Stream) :
  NoDup (get_connected_peers self) ->
  let net := register_stream self peer_id stream in
  NoDup (get_connected_peers net)
  /\ In peer_id (get_connected_peers net)
  /\ dict_get (streams net) peer_id = Ok stream
  /\ (forall q, q <> peer_id -> dict_get (streams net) q = dict_get (streams self) q)
  /\ (In peer_id (get_connected_peers self) ->
      get_connected_peers net = get_connected_peers self).
Proof.
  intros H. cbn zeta. unfold register_stream, get_connected_peers.
  cbn [streams with_streams].
  split; [now apply NoDup_dict_set|].
  split.
  { rewrite dict_keys_set. destruct (dict_mem (streams self) peer_id) eqn:E.
    - now apply dict_mem_in.
    - apply in_or_app. right. now left. }
  split; [apply dict_get_set_same|].
  split; [intros q Hq; now apply dict_get_set_other|].
  intros Hin. rewrite dict_keys_set.
  apply dict_mem_in in Hin. now rewrite Hin.
Qed.

Lemma NoDup_drop_failed (d : pydict Stream) failed :
  NoDup (dict_keys d) -> NoDup (dict_keys (drop_failed d failed)).
Proof. intros H. rewrite drop_failed_filter. now apply NoDup_dict_filter. Qed.

Section DirectoryProperties.

Variable App : Type.
Variable callback : App -> TextChange pyfloat -> App * list (event pyfloat).

(** The directory never lists a peer twice: registering a stream,
    broadcasting a change and ending a read loop all keep the connected
    peers distinct. *)
Theorem connected_peers_stay_distinct (self : P2PNetwork) :
  NoDup (get_connected_peers self) ->
  (forall peer_id stream,
      NoDup (get_connected_peers (register_stream self peer_id stream)))
  /\ (forall change write,
         NoDup (get_connected_peers
                  (fst (fst (broadcast_change float_repr self change write)))))
  /\ (forall app peer_id obs,
         NoDup (get_connected_peers
                  (snd (fst (fst (read_from_stream float_of_token callback
                                    self app peer_id obs)))))).
Proof.
  intros H. unfold get_connected_peers in *. split; [|split].
  - intros peer_id stream. now apply NoDup_dict_set.
  - intros change write. unfold broadcast_change.
    destruct (utf8_encode _) as [data|e]; [|exact H].
    destruct (write_all write data (streams self)) as [failed evs].
    cbn [fst with_streams streams]. now apply NoDup_drop_failed.
  - intros st peer_id obs. unfold read_from_stream.
    destruct (read_loop _ _ _ _ _ _) as [[fin a] evs].
    destruct fin; [|exact H].
    destruct (dict_mem (streams self) peer_id); [|exact H].
    cbn [fst snd with_streams streams]. now apply NoDup_dict_filter.
Qed.

(** When a read loop is over, for whatever reason, its peer is out of the
    directory; the entries of the other peers and the running flag are as
    before; and as long as the loop is waiting for a read the directory is
    not touched at all. *)
Theorem read_from_stream_cleans_up (self : P2PNetwork) (app : App)
    (peer_id : pystr) (obs : list (observation pyfloat)) :
  let '(fin, net, _, _) :=
    read_from_stream float_of_token callback self app peer_id obs in
  (fin = Exited -> ~ In peer_id (get_connected_peers net))
  /\ (forall q, q <> peer_id -> dict_get (streams net) q = dict_get (streams self) q)
  /\ (forall k, fin = Reading k -> net = self)
  /\ running net = running self.
Proof.
  unfold read_from_stream.
  destruct (read_loop _ _ _ _ _ _) as [[fin a] evs].
  destruct fin as [|k].
  - destruct (dict_mem (streams self) peer_id) eqn:Hm.
    + split; [intros _; apply dict_del_not_in|].
      split; [intros q Hq; cbn [with_streams streams]; now apply dict_get_del_other|].
      split; [discriminate | reflexivity].
    + split; [intros _; now apply dict_mem_false_not_in|].
      split; [reflexivity|]. split; [discriminate | reflexivity].
  - split; [discriminate|]. split; [reflexivity|]. split; reflexivity.
Qed.

Lemma dict_get_mem {V} (d : pydict V) k v : dict_get d k = Ok v -> dict_mem d k = true.
Proof.
  induction d as [|[k' v'] d IH]; [discriminate|].
  cbn [dict_get dict_mem existsb fst]. destruct (pystr_eqb k' k); [reflexivity|].
  exact IH.
Qed.

(** A record is only made from an object that holds the four keys. *)
Lemma from_json_keys (now : pyfloat) (json_str : pystr) (c : TextChange pyfloat) :
  from_json float_of_token now json_str = Ok c ->
  exists d, json_loads float_of_token json_str = Ok (JObj d) /\ has_record_keys d = true.
Proof.
  unfold from_json, has_record_keys. intros H.
  destruct (json_loads float_of_token json_str) as [data|e]; [|discriminate].
  cbn [bind] in H.
  destruct data as [| | | | |d]; try discriminate.
  exists d. split; [reflexivity|].
  cbn [subscript] in H.
  destruct (dict_get d (lit "position")) as [v1|e] eqn:E1; cbn [bind] in H; [|discriminate].
  destruct (as_str v1); cbn [bind] in H; [|discriminate].
  destruct (dict_get d (lit "insert")) as [v2|e] eqn:E2; cbn [bind] in H; [|discriminate].
  destruct (as_str v2); cbn [bind] in H; [|discriminate].
  destruct (dict_get d (lit "delete")) as [v3|e] eqn:E3; cbn [bind] in H; [|discriminate].
  destruct (as_str v3); cbn [bind] in H; [|discriminate].
  destruct (dict_get d (lit "timestamp")) as [v4|e] eqn:E4; cbn [bind] in H; [|discriminate].
  now rewrite (dict_get_mem _ _ _ E1), (dict_get_mem _ _ _ E2),
    (dict_get_mem _ _ _ E3), (dict_get_mem _ _ _ E4).
Qed.

(** Such a payload costs one line of output and nothing else. *)
Lemma not_a_record_dropped (peer_id : pystr) (data : pybytes) (now : pyfloat)
    (app : App) :
  not_a_record float_of_token data = true ->
  exists m, process_data float_of_token callback peer_id data now app
            = (app, [Printed m]).
Proof.
  unfold not_a_record, process_data. intros H.
  destruct (utf8_decode data) as [message|e]; [|eexists; reflexivity].
  destruct (from_json float_of_token now message) as [c|e] eqn:E.
  - exfalso. destruct (from_json_keys _ _ _ E) as (d & Hl & Hk).
    rewrite Hl, Hk in H. discriminate.
  - destruct e; eexists; reflexivity.
Qed.

(** A run of reads that all return such payloads: one line of output each,
    the owner's state untouched, and the rest of the run met with the
    failure count at zero. *)
Lemma read_loop_garbage (peer_id : pystr) (garbage obs : list (observation pyfloat)) :
  Forall (fun o => exists b data now,
              o = ReadReturns (b :: data) now
              /\ not_a_record float_of_token (b :: data) = true) garbage ->
  forall k app,
  exists ms,
    length ms = length garbage
    /\ read_loop float_of_token callback peer_id (garbage ++ obs) k app
       = let '(fin, app', evs) :=
           read_loop float_of_token callback peer_id obs
             (match garbage with [] => k | _ :: _ => O end) app in
         (fin, app', map Printed ms ++ evs).
Proof.
  induction 1 as [|o garbage (b & data & now & -> & Hg) _ IH]; intros k app.
  - exists []. split; [reflexivity|]. cbn [List.app map].
    destruct (read_loop _ _ _ obs k app) as [[fin a] evs]. reflexivity.
  - destruct (not_a_record_dropped peer_id (b :: data) now app Hg) as [m Hm].
    destruct (IH O app) as (ms & Hlen & E).
    exists (m :: ms). split; [cbn [length]; now rewrite Hlen|].
    cbn [List.app read_loop]. rewrite Hm, E.
    replace (match garbage with [] => O | _ :: _ => O end) with O
      by now destruct garbage.
    destruct (read_loop _ _ _ obs O app) as [[fin a] evs]. reflexivity.
Qed.

(** Failures below the limit: each is printed and followed by a sleep. *)
Lemma read_loop_failures (peer_id : pystr) (fails : list exc)
    (obs : list (observation pyfloat)) :
  forall k app,
    (k + length fails < max_retries)%nat ->
    read_loop float_of_token callback peer_id (map ReadRaises fails ++ obs) k app
    = let '(fin, app', evs) :=
        read_loop float_of_token callback peer_id obs (k + length fails) app in
      (fin, app',
       flat_map (fun e => [Printed (Error_reading peer_id e); Sleep 1]) fails ++ evs).
Proof.
  induction fails as [|e fails IH]; intros k app Hk.
  - cbn [map List.app flat_map length]. rewrite Nat.add_0_r.
    destruct (read_loop _ _ _ obs k app) as [[fin a] evs]. reflexivity.
  - cbn [map List.app flat_map length read_loop] in *.
    destruct (Nat.leb_spec max_retries (S k)); [lia|].
    rewrite IH by lia.
    replace (S k + length fails)%nat with (k + S (length fails))%nat by lia.
    destruct (read_loop _ _ _ obs _ app) as [[fin a] evs]. reflexivity.
Qed.

(** Payloads that cannot become a record never count against a peer and
    never reach the owner. After fewer than three read failures, a run of
    one or more reads that return bytes that are not UTF-8, a JSON text that
    is not an object, or an object without one of the four keys, costs one
    line of output for each payload; after it the loop is where a loop that
    has just started is: the rest of the run ends as it would from the
    start, with the same directory and the same state of the owner, the
    callback not having been called and the read failures forgotten. *)
Theorem garbage_is_dropped (self : P2PNetwork) (app : App) (peer_id : pystr)
    (fails : list exc) (garbage obs : list (observation pyfloat)) :
  (length fails < max_retries)%nat ->
  garbage <> [] ->
  Forall (fun o => exists b data now,
              o = ReadReturns (b :: data) now
              /\ not_a_record float_of_token (b :: data) = true) garbage ->
  exists ms,
    length ms = length garbage
    /\ read_from_stream float_of_token callback self app peer_id
         (map ReadRaises fails ++ garbage ++ obs)
       = let '(fin, net, app', evs) :=
           read_from_stream float_of_token callback self app peer_id obs in
         (fin, net, app',
          flat_map (fun e => [Printed (Error_reading peer_id e); Sleep 1]) fails
            ++ map Printed ms ++ evs).
Proof.
  intros Hf Hne Hg.
  destruct (read_loop_garbage peer_id garbage obs Hg (length fails) app)
    as (ms & Hlen & E).
  exists ms. split; [exact Hlen|].
  unfold read_from_stream.
  rewrite read_loop_failures by (cbn [Nat.add]; exact Hf).
  cbn [Nat.add]. rewrite E.
  destruct garbage as [|g garbage]; [contradiction|].
  destruct (read_loop _ _ _ obs O app) as [[fin a] evs].
  destruct fin; [|reflexivity].
  destruct (dict_mem (streams self) peer_id); [|reflexivity].
  now rewrite <- !app_assoc.
Qed.

End DirectoryProperties.

(* ------------------------------------------------------------------------ *)
(** ** From one peer to the other *)

Lemma decode_encode now r :
  well_formed (position r) = true -> well_formed (insert r) = true ->
  well_formed (delete r) = true ->
  from_json float_of_token now (to_json float_repr r) = Ok r.
Proof.
  intros Hp Hi Hd.
  unfold from_json, json_loads.
  rewrite to_json_shape.
  set (body := escape_body (lit "position") ++ _).
  match goal with
  | |- context [S (@length ?A ?s)] =>
      assert (Hlen : exists n, @length A s = (5 + n)%nat)
  end.
  { subst body. cbn [lit list_ascii_of_string map escape_body flat_map app length].
    eexists. reflexivity. }
  destruct Hlen as [n ->].
  cbn [skip_ws is_ws ch_lbrace ch_space ch_tab ch_nl ch_cr N.eqb Pos.eqb orb].
  change (S (5 + n)) with (S (S (S (S (S (S n)))))).
  rewrite scan_once_eq.
  cbn [skip_ws is_ws ch_lbrace ch_quote ch_rbrace ch_space ch_tab ch_nl ch_cr
       N.eqb Pos.eqb orb].
  subst body.
  rewrite !object_member_str by (assumption || reflexivity).
  rewrite object_member_last by reflexivity.
  destruct r as [p i d t]. reflexivity.
Qed.

Lemma utf8_decode_ascii s : Forall (fun c => c < 0x80) s -> utf8_decode s = Ok s.
Proof.
  induction 1 as [|c s Hc _ IH]; [reflexivity|].
  cbn [utf8_decode].
  destruct (N.ltb_spec c 0x80) as [_|?]; [|lia].
  now rewrite IH.
Qed.

Lemma write_all_data write data items p s d o :
  In (WriteTo p s d o) (snd (write_all (pyfloat:=pyfloat) write data items)) ->
  d = data /\ In (p, s) items /\ o = write s data.
Proof.
  induction items as [|[p' s'] items IH]; [intros []|].
  cbn [write_all]. destruct (write_all write data items) as [failed evs].
  cbn [snd] in IH.
  destruct (write s' data) as [[]|e] eqn:E; cbn [snd]; intros [H|[H|H]];
    try discriminate;
    try (injection H as -> -> -> <-; repeat split; [now left | now rewrite E]);
    destruct (IH H) as (? & ? & ?); repeat split; auto; now right.
Qed.

Section WireProperties.

Variable App : Type.
Variable callback : App -> TextChange pyfloat -> App * list (event pyfloat).

(** What [broadcast_change] writes on a stream is what the read loop of the
    peer at the other end understands: handed to [process_data] there, the
    bytes written for a record with well-formed texts make it call the
    callback with that very record, after printing the message received. *)
Theorem broadcast_is_received (self : P2PNetwork) (change : TextChange pyfloat)
    (write : Stream -> pybytes -> result unit)
    (p : pystr) (s : Stream) (data : pybytes) (o : result unit)
    (peer_id : pystr) (now : pyfloat) (app : App) :
  well_formed (position change) = true ->
  well_formed (insert change) = true ->
  well_formed (delete change) = true ->
  In (WriteTo p s data o) (snd (broadcast_change float_repr self change write)) ->
  process_data float_of_token callback peer_id data now app
  = let '(app', evs) := callback app change in
    (app', Printed (Received_change peer_id (to_json float_repr change)) :: evs).
Proof.
  intros Hp Hi Hd Hin. unfold broadcast_change in Hin.
  rewrite encode_to_json in Hin.
  pose proof (write_all_data write (to_json float_repr change) (streams self) p s data o)
    as H.
  destruct (write_all write _ (streams self)) as [failed evs]. cbn [snd] in *.
  destruct (H Hin) as (-> & _ & _).
  unfold process_data.
  rewrite utf8_decode_ascii by apply to_json_ascii.
  now rewrite decode_encode.
Qed.

End WireProperties.

(* ------------------------------------------------------------------------ *)
(** ** The file menu *)

Lemma line_col_here s L C : line_col s O L C = (L, C).
Proof. now destruct s. Qed.

Lemma Text_delete_all w :
  Text_delete w (At (lit "1.0")) END
  = Ok (mkText [] (insert_mark w - length (chars w))).
Proof.
  unfold Text_delete. rewrite resolve_start. cbn [resolve bind].
  unfold tk_end. cbn [Nat.leb]. rewrite Nat.eqb_refl, line_col_here.
  cbn [Nat.eqb negb andb firstn app]. f_equal.
  rewrite Nat.sub_succ, !Nat.sub_0_r, Nat.max_0_l.
  rewrite skipn_all. f_equal.
  destruct (Nat.leb_spec (insert_mark w) 0); [lia|].
  destruct (Nat.ltb_spec (insert_mark w) (length (chars w))); lia.
Qed.

Lemma Text_insert_end_empty m content :
  Text_insert (mkText [] m) END content = Ok (mkText content (m + length content)).
Proof.
  unfold Text_insert. cbn. now rewrite List.app_nil_r.
Qed.

(** [new_file] empties the document; it leaves the snapshot, the flag and
    the network as they are, so the detector sees the old content go at its
    next call. *)
Theorem new_file_clears (self : Editor) :
  exists self',
    new_file self = Ok self'
    /\ chars (text_area self') = []
    /\ previous_content self' = previous_content self
    /\ applying_remote_change self' = applying_remote_change self
    /\ network self' = network self.
Proof.
  unfold new_file. rewrite Text_delete_all. cbn [bind].
  eexists. split; [reflexivity|]. repeat split.
Qed.

(** [open_file] with a file chosen: when the file is read, the document
    becomes its content and no box is shown; when reading fails, the error
    is shown and the document is not touched. In both cases the snapshot
    and the network are as before. *)
Theorem open_file_loads (self : Editor) (file_path : pystr) :
  file_path <> [] ->
  (forall content,
      let r := open_file self file_path (Ok content) in
      chars (text_area (fst r)) = content /\ snd r = []
      /\ previous_content (fst r) = previous_content self
      /\ network (fst r) = network self)
  /\ (forall e, open_file self file_path (Raise e) = (self, [Could_not_open e])).
Proof.
  intros Hp. apply truthy_nonempty in Hp. unfold open_file. rewrite Hp.
  split; [|reflexivity].
  intros content. rewrite Text_delete_all, Text_insert_end_empty.
  cbn. repeat split.
Qed.

(** Saving a document and opening what was saved adds a newline to it:
    [save_file] writes the content of the widget with its final newline, and
    [open_file] puts all of it before the final newline of the widget. *)
Theorem save_then_open_adds_newline (self other : Editor)
    (saved_path opened_path content : pystr) (write : pystr -> result unit) :
  opened_path <> [] ->
  In (File_written content) (save_file self saved_path write) ->
  chars (text_area (fst (open_file other opened_path (Ok content))))
  = chars (text_area self) ++ [ch_nl].
Proof.
  intros Hp Hin. apply truthy_nonempty in Hp.
  unfold save_file in Hin. rewrite Text_get_all in Hin.
  destruct (truthy saved_path); [|destruct Hin].
  destruct (write (buffer (text_area self))); destruct Hin as [H|[]];
    [|discriminate].
  injection H as <-.
  unfold open_file. rewrite Hp, Text_delete_all, Text_insert_end_empty.
  reflexivity.
Qed.

(* ------------------------------------------------------------------------ *)
(** ** From a local deletion to the document of a peer *)

(** The whole outcome of [on_text_change] on a deletion inside the text. *)
Lemma on_text_change_delete_run (self : Editor) (now : pyfloat)
    (write : Stream -> pybytes -> result unit) (pos : pystr) (i : nat) :
  applying_remote_change self = false ->
  get_cursor_position self = Ok pos ->
  let new := buffer (text_area self) in
  let old := previous_content self in
  (length new < length old)%nat ->
  first_diff new old i -> (i < length new)%nat ->
  let c := mkTextChange pos [] (slice old i (i + (length old - length new))) now in
  exists net evs,
    on_text_change float_repr self now write
    = (with_network (with_previous_content self new) net,
       Printed (Detected_delete (delete c) pos)
         :: Printed (Broadcasting_change (to_json float_repr c))
         :: Broadcast c :: evs)
    /\ broadcasts evs = [].
Proof.
  intros Hf Hc new old Hlen Hd Hi c.
  assert (Hne : new <> old) by (intros E; rewrite E in Hlen; lia).
  rewrite (on_text_change_eq self now write pos Hf Hc Hne). fold new old.
  cbv zeta.
  destruct (Nat.ltb_spec (length old) (length new)) as [?|_]; [lia|].
  rewrite (first_mismatch_first_diff new old i Hd) by lia.
  replace (i + length old - length new)%nat with (i + (length old - length new))%nat
    by lia.
  cbn [TextChange_init insert delete truthy].
  rewrite truthy_slice by lia. cbn [orb].
  pose proof (broadcasts_broadcast_change
                (network (with_previous_content self new)) c write) as Hb.
  unfold TextChange_init. fold c. destruct (broadcast_change _ _ c _) as [[net ok] evs].
  exists net, evs. split; [reflexivity | exact Hb].
Qed.

Lemma get_cursor_position_addresses (self : Editor) :
  (insert_mark (text_area self) <= length (chars (text_area self)))%nat ->
  exists pos,
    get_cursor_position self = Ok pos
    /\ addresses (text_area self) pos (insert_mark (text_area self)).
Proof.
  intros Hm. unfold get_cursor_position, Text_index. cbn [resolve bind].
  unfold addresses.
  destruct (line_col (buffer (text_area self)) (insert_mark (text_area self)) 1 0)
    as [l c].
  eexists. split; [reflexivity|]. split; [apply parse_index_decimal | exact Hm].
Qed.

Lemma firstn_exact {A} (l t : list A) : firstn (length l) (l ++ t) = l.
Proof. rewrite firstn_app, Nat.sub_diag, firstn_all. cbn. apply List.app_nil_r. Qed.

Lemma skipn_exact {A} (l t : list A) : skipn (length l) (l ++ t) = t.
Proof. rewrite skipn_app, Nat.sub_diag, skipn_all. reflexivity. Qed.

Lemma nth_error_after {A} (l t : list A) : nth_error (l ++ t) (length l) = nth_error t 0.
Proof. rewrite nth_error_app2 by lia. now rewrite Nat.sub_diag. Qed.

(** A deletion made on one editor reaches the document of a peer. The user
    of [A] has removed the text [del] between [p] and [q] and the cursor is
    where the text was; the first character removed is not the one that
    follows the removal. Then [on_text_change] on [A] broadcasts one record,
    and [apply_remote_change] with that record on an editor [B] that holds
    the old text leaves [B] with the new text of [A], the cursor at the same
    place, and its snapshot refreshed. *)
Theorem deletion_reaches_peer (A B : Editor) (now : pyfloat)
    (write : Stream -> pybytes -> result unit) (p del q : pystr) :
  applying_remote_change A = false ->
  previous_content A = p ++ del ++ q ++ [ch_nl] ->
  text_area A = mkText (p ++ q) (length p) ->
  del <> [] ->
  nth_error del 0 <> nth_error (q ++ [ch_nl]) 0 ->
  chars (text_area B) = p ++ del ++ q ->
  exists c,
    broadcasts (snd (on_text_change float_repr A now write)) = [c]
    /\ delete c = del
    /\ text_area (cur (apply_remote_change B c)) = text_area A
    /\ previous_content (cur (apply_remote_change B c)) = buffer (text_area A).
Proof.
  intros Hf Hprev HA Hdel Hhd HB.
  destruct (get_cursor_position_addresses A) as (pos & Hc & Hpos & Hle).
  { rewrite HA. cbn [insert_mark chars]. rewrite length_app. lia. }
  rewrite HA in Hpos, Hle. cbn [insert_mark chars] in Hpos, Hle.
  assert (Hbuf : buffer (text_area A) = p ++ q ++ [ch_nl]).
  { rewrite HA. unfold buffer. cbn [chars]. now rewrite <- app_assoc. }
  assert (Hd : first_diff (buffer (text_area A)) (previous_content A) (length p)).
  { rewrite Hbuf, Hprev. split.
    - rewrite !nth_error_after.
      replace (del ++ q ++ [ch_nl]) with ([] ++ del ++ q ++ [ch_nl]) by reflexivity.
      destruct del as [|d0 del']; [contradiction|]. cbn [app nth_error] in *.
      congruence.
    - intros j Hj. now rewrite !nth_error_app1 by exact Hj. }
  assert (Hlen : (length (buffer (text_area A)) < length (previous_content A))%nat).
  { rewrite Hbuf, Hprev, !length_app. destruct del; [contradiction|]. cbn. lia. }
  assert (Hi : (length p < length (buffer (text_area A)))%nat).
  { rewrite Hbuf, !length_app. cbn. lia. }
  destruct (on_text_change_delete_run A now write pos (length p) Hf Hc Hlen Hd Hi)
    as (net & evs & E & Hb).
  assert (Hslice : slice (previous_content A) (length p)
                     (length p + (length (previous_content A)
                                  - length (buffer (text_area A)))) = del).
  { rewrite Hbuf, Hprev. unfold slice. rewrite skipn_exact.
    replace (length p + _ - length p)%nat with (length del)
      by (rewrite !length_app; lia).
    apply firstn_exact. }
  rewrite Hslice in E.
  exists (mkTextChange pos [] del now).
  rewrite E. cbn [snd broadcasts flat_map app]. fold (broadcasts evs). rewrite Hb.
  split; [reflexivity|]. split; [reflexivity|].
  assert (HaB : addresses (text_area B) pos (length p)).
  { split.
    - rewrite Hpos. f_equal. unfold buffer. rewrite HB. cbn [chars].
      rewrite <- !app_assoc. apply line_col_prefix.
    - rewrite HB, length_app. lia. }
  assert (HlB : (length p + length del <= length (chars (text_area B)))%nat).
  { rewrite HB, !length_app. lia. }
  assert (HsB : slice (buffer (text_area B)) (length p) (length p + length del) = del).
  { unfold buffer, slice. rewrite HB, <- !app_assoc, skipn_exact.
    replace (length p + length del - length p)%nat with (length del) by lia.
    apply firstn_exact. }
  destruct (apply_try_delete (mkTextChange pos [] del now)
              (moved (mkRun B [] []) (with_applying B true)) (length p)
              eq_refl Hdel HaB HlB HsB) as (r1 & Er & Hcur & _).
  unfold apply_remote_change. rewrite Er. cbn [cur passed out].
  rewrite Hcur.
  cbn [moved cur with_applying with_previous_content with_text_area text_area
       previous_content delete].
  rewrite HB.
  replace (length p + length del)%nat with (length (p ++ del))
    by (rewrite length_app; reflexivity).
  rewrite firstn_exact.
  replace (p ++ del ++ q) with ((p ++ del) ++ q) by (now rewrite <- app_assoc).
  rewrite skipn_exact. rewrite HA. split; reflexivity.
Qed.

(** [new_file] on a document that does not begin with a newline, with the
    snapshot up to date: the next [on_text_change] broadcasts one record,
    the deletion of the whole text at position 1.0. *)
Theorem new_file_is_broadcast (self : Editor) (now : pyfloat)
    (write : Stream -> pybytes -> result unit) (c0 : codepoint) (rest : pystr) :
  applying_remote_change self = false ->
  in_sync self ->
  chars (text_area self) = c0 :: rest ->
  c0 <> ch_nl ->
  (insert_mark (text_area self) <= length (chars (text_area self)))%nat ->
  exists self',
    new_file self = Ok self'
    /\ broadcasts (snd (on_text_change float_repr self' now write))
       = [mkTextChange (lit "1.0") [] (c0 :: rest) now].
Proof.
  intros Hf Hs Hc Hc0 Hm. unfold in_sync in Hs.
  unfold new_file. rewrite Text_delete_all. cbn [bind].
  replace (insert_mark (text_area self) - length (chars (text_area self)))%nat
    with O by lia.
  eexists. split; [reflexivity|].
  set (self' := with_text_area self (mkText [] 0)).
  assert (Hprev : previous_content self' = (c0 :: rest) ++ [ch_nl]).
  { cbn [self' with_text_area previous_content]. rewrite Hs. unfold buffer.
    now rewrite Hc. }
  assert (Hd : first_diff (buffer (text_area self')) (previous_content self') 0).
  { rewrite Hprev. split; [cbn; congruence | intros j Hj; lia]. }
  assert (Hlen : (length (buffer (text_area self')) < length (previous_content self'))%nat).
  { rewrite Hprev. cbn. rewrite length_app. cbn. lia. }
  destruct (on_text_change_delete_run self' now write (lit "1.0") 0 Hf eq_refl
              Hlen Hd) as (net & evs & E & Hb); [cbn; lia|].
  rewrite E. cbn [snd broadcasts flat_map app]. fold (broadcasts evs). rewrite Hb.
  f_equal. f_equal. rewrite Hprev. unfold slice. cbn [skipn buffer text_area self'
    with_text_area chars app length].
  rewrite length_app. cbn [length Nat.add].
  match goal with
  | |- firstn ?k _ = _ => replace k with (length (c0 :: rest)) by (cbn; lia)
  end.
  apply (firstn_exact (c0 :: rest) [ch_nl]).
Qed.

(* ------------------------------------------------------------------------ *)
(** ** From a local insertion to the document of a peer *)

(** The whole outcome of [on_text_change] on an insertion inside the text. *)
Lemma on_text_change_insert_run (self : Editor) (now : pyfloat)
    (write : Stream -> pybytes -> result unit) (pos : pystr) (i : nat) :
  applying_remote_change self = false ->
  get_cursor_position self = Ok pos ->
  let new := buffer (text_area self) in
  let old := previous_content self in
  (length old < length new)%nat ->
  first_diff new old i -> (i < length old)%nat ->
  let c := mkTextChange pos (slice new i (i + (length new - length old))) [] now in
  exists net evs,
    on_text_change float_repr self now write
    = (with_network (with_previous_content self new) net,
       Printed (Detected_insert (insert c) pos)
         :: Printed (Broadcasting_change (to_json float_repr c))
         :: Broadcast c :: evs)
    /\ broadcasts evs = [].
Proof.
  intros Hf Hc new old Hlen Hd Hi c.
  assert (Hne : new <> old) by (intros E; rewrite E in Hlen; lia).
  rewrite (on_text_change_eq self now write pos Hf Hc Hne). fold new old.
  cbv zeta.
  destruct (Nat.ltb_spec (length old) (length new)) as [_|?]; [|lia].
  rewrite (first_mismatch_first_diff new old i Hd) by lia.
  replace (i + length new - length old)%nat with (i + (length new - length old))%nat
    by lia.
  cbn [TextChange_init insert delete truthy].
  rewrite truthy_slice by lia. cbn [orb].
  pose proof (broadcasts_broadcast_change
                (network (with_previous_content self new)) c write) as Hb.
  unfold TextChange_init. fold c. destruct (broadcast_change _ _ c _) as [[net ok] evs].
  exists net, evs. split; [reflexivity | exact Hb].
Qed.

Lemma line_col_app (p t : pystr) (n : nat) :
  forall L C,
    line_col (p ++ t) (length p + n) L C
    = let '(l, c) := line_col (p ++ t) (length p) L C in line_col t n l c.
Proof.
  induction p as [|x p IH]; intros L C.
  - cbn [app length Nat.add]. now rewrite line_col_here.
  - cbn [app length Nat.add line_col]. destruct (x =? ch_nl); apply IH.
Qed.

Lemma line_col_single_line (s t : pystr) :
  ~ In ch_nl s ->
  forall L C, line_col (s ++ t) (length s) L C = (L, (C + length s)%nat).
Proof.
  induction s as [|x s IH]; intros Hs L C.
  - cbn [app length]. rewrite line_col_here. f_equal. lia.
  - cbn [app length line_col].
    destruct (N.eqb_spec x ch_nl) as [->|_]; [exfalso; apply Hs; now left|].
    rewrite IH by (intros H; apply Hs; now right). f_equal. lia.
Qed.

Lemma line_length_le (s : pystr) : (line_length s <= length s)%nat.
Proof.
  induction s as [|x s IH]; [reflexivity|]. cbn [line_length length].
  destruct (x =? ch_nl); lia.
Qed.

(** Where a column counted from the place after [p] lands in [p ++ q]: at
    most at the end of the line. *)
Lemma locate_line_col (p q : pystr) (k : nat) :
  forall L C off,
    let '(l, c) := line_col (p ++ q) (length p) L C in
    (l = L /\ c = (C + length p)%nat
     /\ line_length (p ++ q) = (length p + line_length q)%nat)
    \/ (exists d, l = S (L + d)
                  /\ locate (p ++ q) (S d) (c + k) off
                     = (off + length p + Nat.min k (line_length q))%nat).
Proof.
  induction p as [|x p IH]; intros L C off.
  - cbn [app length]. rewrite line_col_here. left. repeat split; lia.
  - cbn [app length line_col line_length locate].
    destruct (x =? ch_nl).
    + specialize (IH (S L) O (S off)).
      destruct (line_col (p ++ q) (length p) (S L) 0) as [l c].
      destruct IH as [(-> & -> & Hl)|(d & -> & Hd)]; right.
      * exists O. split; [f_equal; lia|].
        rewrite locate_here, Hl. cbn [Nat.add]. lia.
      * exists (S d). split; [f_equal; lia|]. rewrite Hd. lia.
    + specialize (IH L (S C) (S off)).
      destruct (line_col (p ++ q) (length p) L (S C)) as [l c].
      destruct IH as [(-> & -> & Hl)|(d & -> & Hd)]; [left|right].
      * repeat split; lia.
      * exists d. split; [reflexivity|]. rewrite Hd. lia.
Qed.

Lemma offset_of_past (p q : pystr) (k : nat) :
  let '(l, c) := line_col (p ++ q) (length p) 1%nat O in
  offset_of (p ++ q) l (c + k) = (length p + Nat.min k (line_length q))%nat.
Proof.
  pose proof (locate_line_col p q k 1%nat O O) as H.
  destruct (line_col (p ++ q) (length p) 1 0) as [l c].
  destruct H as [(-> & -> & Hl)|(d & -> & Hd)].
  - cbn [offset_of]. rewrite locate_here, Hl. cbn [Nat.add]. lia.
  - cbn [offset_of Nat.add]. rewrite Hd. lia.
Qed.

(** The [try] block on an insertion, whatever the position resolves to. *)
Lemma apply_try_insert (change : TextChange pyfloat) (r0 : run pyfloat) (l c : nat) :
  insert change <> [] ->
  parse_index (position change) = Some (l, c) ->
  let cs := chars (text_area (cur r0)) in
  let o := Nat.min (offset_of cs l c) (length cs) in
  exists r1 m,
    apply_try change r0 = (r1, Ok tt)
    /\ text_area (cur r1) = mkText (firstn o cs ++ insert change ++ skipn o cs) m
    /\ previous_content (cur r1) = buffer (text_area (cur r1))
    /\ out r1 = out r0 ++ [Printed (Applied_insert (insert change) (position change))].
Proof.
  intros Hi Hp cs o.
  assert (Ht : truthy (insert change) = true) by now apply truthy_nonempty.
  assert (Hins : exists m,
    Text_insert (text_area (cur r0)) (At (position change)) (insert change)
    = Ok (mkText (firstn o cs ++ insert change ++ skipn o cs) m)).
  { unfold Text_insert. rewrite (resolve_At _ _ _ _ Hp). cbn [bind].
    eexists. reflexivity. }
  destruct Hins as [m Hins].
  set (w1 := mkText (firstn o cs ++ insert change ++ skipn o cs) m) in *.
  destruct (Text_index_ok w1 _ _ _ (length (insert change)) Hp) as (l1 & c1 & Hidx).
  unfold apply_try. rewrite Ht.
  unfold bindM, query, widget, print, set_previous_content, ret, moved.
  cbn [cur passed out text_area with_text_area].
  rewrite Hins.
  cbn [cur passed out text_area with_text_area].
  rewrite Hidx.
  rewrite (Text_mark_set_at w1 _ _ _ (parse_index_decimal l1 c1)).
  cbn [cur passed out text_area with_text_area].
  rewrite Text_get_all.
  cbn [cur passed out text_area with_text_area with_previous_content previous_content].
  eexists. eexists. split; [reflexivity|].
  split; [reflexivity|]. split; reflexivity.
Qed.

(** What a peer makes of text typed on one line: the record carries the
    cursor position after the typed text, and the peer, whose line is
    shorter by that text, puts it that many columns further to the right,
    at most at the end of the line. *)
Lemma typed_text_on_peer (A B : Editor) (now : pyfloat)
    (write : Stream -> pybytes -> result unit) (p ins q : pystr) :
  applying_remote_change A = false ->
  previous_content A = p ++ q ++ [ch_nl] ->
  text_area A = mkText (p ++ ins ++ q) (length p + length ins) ->
  ins <> [] ->
  ~ In ch_nl ins ->
  nth_error ins 0 <> nth_error (q ++ [ch_nl]) 0 ->
  chars (text_area B) = p ++ q ->
  let k := Nat.min (length ins) (line_length q) in
  exists c,
    broadcasts (snd (on_text_change float_repr A now write)) = [c]
    /\ insert c = ins /\ delete c = []
    /\ chars (text_area (cur (apply_remote_change B c)))
       = p ++ firstn k q ++ ins ++ skipn k q
    /\ previous_content (cur (apply_remote_change B c))
       = buffer (text_area (cur (apply_remote_change B c)))
    /\ out (apply_remote_change B c) = [Printed (Applied_insert ins (position c))].
Proof.
  intros Hf Hprev HA Hins Hnl Hhd HB k.
  destruct (get_cursor_position_addresses A) as (pos & Hc & Hpos & Hle).
  { rewrite HA. cbn [insert_mark chars]. rewrite !length_app. lia. }
  rewrite HA in Hpos. cbn [insert_mark chars] in Hpos.
  assert (Hbuf : buffer (text_area A) = p ++ ins ++ q ++ [ch_nl]).
  { rewrite HA. unfold buffer. cbn [chars]. now rewrite <- !app_assoc. }
  unfold buffer in Hpos. cbn [chars] in Hpos.
  rewrite <- !app_assoc, line_col_app in Hpos.
  rewrite (line_col_prefix p (ins ++ q ++ [ch_nl]) q) in Hpos.
  pose proof (offset_of_past p q (length ins)) as Hoff.
  destruct (line_col (p ++ q) (length p) 1 0) as [l c0].
  rewrite line_col_single_line in Hpos by exact Hnl.
  assert (Hd : first_diff (buffer (text_area A)) (previous_content A) (length p)).
  { rewrite Hbuf, Hprev. split.
    - rewrite !nth_error_after.
      destruct ins as [|i0 ins']; [contradiction|]. cbn [app nth_error] in *.
      congruence.
    - intros j Hj. now rewrite !nth_error_app1 by exact Hj. }
  assert (Hlen : (length (previous_content A) < length (buffer (text_area A)))%nat).
  { rewrite Hbuf, Hprev, !length_app. destruct ins; [contradiction|]. cbn. lia. }
  assert (Hi : (length p < length (previous_content A))%nat).
  { rewrite Hprev, !length_app. cbn. lia. }
  destruct (on_text_change_insert_run A now write pos (length p) Hf Hc Hlen Hd Hi)
    as (net & evs & E & Hb).
  assert (Hslice : slice (buffer (text_area A)) (length p)
                     (length p + (length (buffer (text_area A))
                                  - length (previous_content A))) = ins).
  { rewrite Hbuf, Hprev. unfold slice. rewrite skipn_exact.
    replace (length p + _ - length p)%nat with (length ins)
      by (rewrite !length_app; lia).
    apply firstn_exact. }
  rewrite Hslice in E.
  exists (mkTextChange pos ins [] now).
  rewrite E. cbn [snd broadcasts flat_map app]. fold (broadcasts evs). rewrite Hb.
  split; [reflexivity|]. split; [reflexivity|]. split; [reflexivity|].
  destruct (apply_try_insert (mkTextChange pos ins [] now)
              (moved (mkRun B [] []) (with_applying B true)) l (c0 + length ins)
              Hins Hpos) as (r1 & m & Er & Hw & Hs & Ho).
  unfold apply_remote_change. rewrite Er. cbn [cur passed out].
  cbn [with_applying text_area previous_content].
  cbn [moved cur out with_applying text_area insert position app] in Hw, Hs, Ho.
  rewrite Hs, Ho, Hw. cbn [chars]. split; [|split; reflexivity].
  rewrite HB, Hoff. fold k.
  assert (Hk : (k <= length q)%nat).
  { pose proof (line_length_le q). unfold k. lia. }
  rewrite Nat.min_l by (rewrite length_app; lia).
  rewrite firstn_app, skipn_app.
  rewrite firstn_all2 by lia. rewrite skipn_all2 by lia.
  replace (length p + k - length p)%nat with k by lia.
  cbn [app]. now rewrite <- app_assoc.
Qed.

(** Text typed at the end of a line reaches the document of a peer. The
    user of [A] has typed [ins], which holds no newline, after [p], where a
    line ends, and the cursor is after the typed text. Then [on_text_change]
    on [A] broadcasts one record, and [apply_remote_change] with that record
    on an editor [B] that holds the old text leaves [B] with the new text of
    [A] and its snapshot refreshed. *)
Theorem insertion_at_line_end_reaches_peer (A B : Editor) (now : pyfloat)
    (write : Stream -> pybytes -> result unit) (p ins q : pystr) :
  applying_remote_change A = false ->
  previous_content A = p ++ q ++ [ch_nl] ->
  text_area A = mkText (p ++ ins ++ q) (length p + length ins) ->
  ins <> [] ->
  ~ In ch_nl ins ->
  line_length q = O ->
  chars (text_area B) = p ++ q ->
  exists c,
    broadcasts (snd (on_text_change float_repr A now write)) = [c]
    /\ insert c = ins
    /\ chars (text_area (cur (apply_remote_change B c))) = chars (text_area A)
    /\ previous_content (cur (apply_remote_change B c)) = buffer (text_area A).
Proof.
  intros Hf Hprev HA Hins Hnl Hq HB.
  assert (Hhd : nth_error ins 0 <> nth_error (q ++ [ch_nl]) 0).
  { destruct ins as [|i0 ins']; [contradiction|].
    assert (Hi0 : i0 <> ch_nl) by (intros ->; apply Hnl; now left).
    destruct q as [|x q']; cbn [app nth_error]; [congruence|].
    cbn [line_length] in Hq.
    destruct (N.eqb_spec x ch_nl) as [->|_]; [congruence | discriminate]. }
  destruct (typed_text_on_peer A B now write p ins q Hf Hprev HA Hins Hnl Hhd HB)
    as (c & Hb & Hi & _ & Hc & Hs & _).
  exists c. split; [exact Hb|]. split; [exact Hi|].
  rewrite Hq, Nat.min_0_r in Hc. cbn [firstn skipn app] in Hc.
  assert (E : chars (text_area (cur (apply_remote_change B c))) = chars (text_area A)).
  { rewrite Hc, HA. reflexivity. }
  split; [exact E|]. rewrite Hs. unfold buffer. now rewrite E.
Qed.

(** Text typed inside a line does not reach the peer where it was typed.
    The user of [A] has typed [ins], which holds no newline, between [p] and
    [q], with a character of the same line after it, and the cursor is after
    the typed text. The record that [on_text_change] broadcasts carries that
    cursor position, so that [apply_remote_change] on an editor [B] that
    holds the old text puts [ins] further to the right, as many columns as it
    is long or at the end of the line: the two documents differ. *)
Theorem insertion_inside_line_is_misplaced (A B : Editor) (now : pyfloat)
    (write : Stream -> pybytes -> result unit) (p ins q : pystr) :
  applying_remote_change A = false ->
  previous_content A = p ++ q ++ [ch_nl] ->
  text_area A = mkText (p ++ ins ++ q) (length p + length ins) ->
  ins <> [] ->
  ~ In ch_nl ins ->
  (0 < line_length q)%nat ->
  nth_error ins 0 <> nth_error q 0 ->
  chars (text_area B) = p ++ q ->
  let k := Nat.min (length ins) (line_length q) in
  exists c,
    broadcasts (snd (on_text_change float_repr A now write)) = [c]
    /\ insert c = ins
    /\ chars (text_area (cur (apply_remote_change B c)))
       = p ++ firstn k q ++ ins ++ skipn k q
    /\ chars (text_area (cur (apply_remote_change B c))) <> chars (text_area A).
Proof.
  intros Hf Hprev HA Hins Hnl Hq Hne HB k.
  assert (Hhd : nth_error ins 0 <> nth_error (q ++ [ch_nl]) 0).
  { destruct q as [|x q']; [cbn in Hq; lia | exact Hne]. }
  destruct (typed_text_on_peer A B now write p ins q Hf Hprev HA Hins Hnl Hhd HB)
    as (c & Hb & Hi & _ & Hc & _).
  exists c. split; [exact Hb|]. split; [exact Hi|]. split; [exact Hc|].
  rewrite Hc, HA. cbn [chars]. intros E. apply app_inv_head in E.
  fold k in E.
  assert (Hk : (0 < k)%nat).
  { unfold k. destruct ins; [contradiction|]. cbn [length]. lia. }
  clearbody k.
  destruct q as [|x q']; [cbn in Hq; lia|].
  destruct ins as [|i0 ins']; [contradiction|].
  destruct k as [|k']; [lia|].
  cbn [firstn app nth_error] in *. congruence.
Qed.

End Properties.

(* ------------------------------------------------------------------------ *)
(** ** The float interface has an instance *)

Lemma chars_uint_chars d :
  IntegralFloat.chars_uint (uint_chars d ++ [ch_dot; 48]) = Some d.
Proof.
  induction d; cbn [uint_chars app IntegralFloat.chars_uint];
    try rewrite IHd; reflexivity.
Qed.

Lemma IntegralFloat_round_trip (f : IntegralFloat.t) :
  IntegralFloat.of_token (IntegralFloat.repr f) = Ok f.
Proof.
  unfold IntegralFloat.of_token, IntegralFloat.repr.
  now rewrite chars_uint_chars, DecimalN.Unsigned.of_to.
Qed.

Lemma uint_chars_numchars d : forallb is_numchar (uint_chars d) = true.
Proof. induction d; cbn [uint_chars forallb]; try rewrite IHd; reflexivity. Qed.

Lemma IntegralFloat_token (f : IntegralFloat.t) :
  number_token (IntegralFloat.repr f) = true.
Proof.
  unfold IntegralFloat.repr, number_token.
  assert (Hn : N.to_uint f <> Decimal.Nil).
  { destruct f as [|p]; [discriminate|]. apply DecimalPos.Unsigned.to_uint_nonnil. }
  assert (Ha : forallb is_numchar (uint_chars (N.to_uint f) ++ [ch_dot; 48]) = true).
  { rewrite forallb_app, uint_chars_numchars. reflexivity. }
  destruct (N.to_uint f) as [|d|d|d|d|d|d|d|d|d|d]; [contradiction|..];
    cbn [uint_chars app] in *; rewrite Ha; reflexivity.
Qed.

(* ------------------------------------------------------------------------ *)
(** ** The theorems at concrete inputs *)

Lemma from_json_to_json_witness :
  (well_formed (position Examples.unicode_insert) = true
   /\ well_formed (insert Examples.unicode_insert) = true
   /\ well_formed (delete Examples.unicode_insert) = true)
  /\ from_json IntegralFloat.of_token 0 (to_json IntegralFloat.repr Examples.unicode_insert)
     = Ok Examples.unicode_insert.
Proof.
  split; [repeat split; reflexivity|].
  apply (from_json_to_json IntegralFloat.t IntegralFloat.repr IntegralFloat.of_token
           IntegralFloat_round_trip IntegralFloat_token); reflexivity.
Defined.

(** The strings left out of [well_formed]: the two escapes written for a
    high surrogate followed by a low one are read back as one character. *)
Lemma surrogate_pair_is_joined :
  from_json IntegralFloat.of_token 0
    (to_json IntegralFloat.repr
       (mkTextChange (lit "1.0") [0xD83D; 0xDE00] [] Examples.clock))
  = Ok (mkTextChange (lit "1.0") [0x1F600] [] Examples.clock).
Proof. reflexivity. Qed.

(** Pressing Enter at the end of [ab]: the content goes from [ab\n] to
    [ab\n\n], and nothing is sent. *)
Lemma on_text_change_misses_append_witness :
  (applying_remote_change (Examples.editor (lit "ab" ++ [ch_nl]) 3 (lit "ab" ++ [ch_nl]))
   = false
   /\ get_cursor_position (Examples.editor (lit "ab" ++ [ch_nl]) 3 (lit "ab" ++ [ch_nl]))
      = Ok (lit "2.0")
   /\ buffer (text_area (Examples.editor (lit "ab" ++ [ch_nl]) 3 (lit "ab" ++ [ch_nl])))
      = previous_content (Examples.editor (lit "ab" ++ [ch_nl]) 3 (lit "ab" ++ [ch_nl]))
        ++ [ch_nl]
   /\ [ch_nl] <> [])
  /\ on_text_change IntegralFloat.repr
       (Examples.editor (lit "ab" ++ [ch_nl]) 3 (lit "ab" ++ [ch_nl]))
       Examples.clock Examples.second_fails
     = (with_previous_content
          (Examples.editor (lit "ab" ++ [ch_nl]) 3 (lit "ab" ++ [ch_nl]))
          (lit "ab" ++ [ch_nl; ch_nl]),
        [Printed (Detected_insert [] (lit "2.0"))]).
Proof.
  split; [repeat split; (reflexivity || discriminate)|].
  apply (on_text_change_misses_append IntegralFloat.t IntegralFloat.repr
           (Examples.editor (lit "ab" ++ [ch_nl]) 3 (lit "ab" ++ [ch_nl]))
           Examples.clock Examples.second_fails (lit "2.0") [ch_nl]);
    (reflexivity || discriminate).
Defined.

(** Deleting [b] from [abc] with the cursor left at [1.1]. *)
Lemma on_text_change_detects_delete_witness :
  (applying_remote_change (Examples.editor (lit "ac") 1 (lit "abc" ++ [ch_nl])) = false
   /\ get_cursor_position (Examples.editor (lit "ac") 1 (lit "abc" ++ [ch_nl]))
      = Ok (lit "1.1")
   /\ (length (lit "ac" ++ [ch_nl]) < length (lit "abc" ++ [ch_nl]))%nat
   /\ first_diff (lit "ac" ++ [ch_nl]) (lit "abc" ++ [ch_nl]) 1
   /\ (1 < length (lit "ac" ++ [ch_nl]))%nat)
  /\ broadcasts
       (snd (on_text_change IntegralFloat.repr
               (Examples.editor (lit "ac") 1 (lit "abc" ++ [ch_nl]))
               Examples.clock Examples.second_fails))
     = [mkTextChange (lit "1.1") [] (lit "b") Examples.clock].
Proof.
  assert (Hd : first_diff (lit "ac" ++ [ch_nl]) (lit "abc" ++ [ch_nl]) 1).
  { split; [discriminate|]. intros [|j] Hj; [reflexivity | lia]. }
  assert (H1 : (length (lit "ac" ++ [ch_nl]) < length (lit "abc" ++ [ch_nl]))%nat)
    by (cbn; lia).
  assert (H2 : (1 < length (lit "ac" ++ [ch_nl]))%nat) by (cbn; lia).
  split; [repeat split; (reflexivity || assumption || apply Hd)|].
  exact (on_text_change_detects_delete IntegralFloat.t IntegralFloat.repr
           (Examples.editor (lit "ac") 1 (lit "abc" ++ [ch_nl]))
           Examples.clock Examples.second_fails (lit "1.1") 1
           eq_refl eq_refl H1 Hd H2).
Defined.

(** Claim C3 fails where the lengths are equal: after [hello] has become
    [hellp], the first differing index is 4 and the claimed deleted text
    [old[4:4]] is empty; no such record, and no record at all, is emitted. *)
Lemma on_text_change_equal_length_emits_nothing :
  (length (lit "hellp" ++ [ch_nl]) <= length (lit "hello" ++ [ch_nl]))%nat
  /\ lit "hellp" ++ [ch_nl] <> lit "hello" ++ [ch_nl]
  /\ first_diff (lit "hellp" ++ [ch_nl]) (lit "hello" ++ [ch_nl]) 4
  /\ get_cursor_position (Examples.editor (lit "hellp") 5 (lit "hello" ++ [ch_nl]))
     = Ok (lit "1.5")
  /\ ~ In (mkTextChange (lit "1.5") []
             (slice (lit "hello" ++ [ch_nl]) 4 (4 + (6 - 6))) Examples.clock)
          (broadcasts
             (snd (on_text_change IntegralFloat.repr
                     (Examples.editor (lit "hellp") 5 (lit "hello" ++ [ch_nl]))
                     Examples.clock Examples.second_fails)))
  /\ broadcasts
       (snd (on_text_change IntegralFloat.repr
               (Examples.editor (lit "hellp") 5 (lit "hello" ++ [ch_nl]))
               Examples.clock Examples.second_fails)) = [].
Proof.
  split; [cbn; lia|]. split; [discriminate|]. split.
  { split; [discriminate|].
    intros j Hj. do 4 (destruct j as [|j]; [reflexivity|]). lia. }
  split; [reflexivity|].
  split; [intros H; vm_compute in H; exact H | reflexivity].
Qed.

(** Replacing the last letter of [hello]. *)
Lemma on_text_change_same_length_witness :
  (applying_remote_change (Examples.editor (lit "hellp") 5 (lit "hello" ++ [ch_nl]))
   = false
   /\ get_cursor_position (Examples.editor (lit "hellp") 5 (lit "hello" ++ [ch_nl]))
      = Ok (lit "1.5")
   /\ length (lit "hellp" ++ [ch_nl]) = length (lit "hello" ++ [ch_nl])
   /\ lit "hellp" ++ [ch_nl] <> lit "hello" ++ [ch_nl])
  /\ on_text_change IntegralFloat.repr
       (Examples.editor (lit "hellp") 5 (lit "hello" ++ [ch_nl]))
       Examples.clock Examples.second_fails
     = (with_previous_content
          (Examples.editor (lit "hellp") 5 (lit "hello" ++ [ch_nl]))
          (lit "hellp" ++ [ch_nl]),
        [Printed (Detected_delete [] (lit "1.5"))]).
Proof.
  split; [repeat split; (reflexivity || discriminate)|].
  apply (on_text_change_same_length IntegralFloat.t IntegralFloat.repr
           (Examples.editor (lit "hellp") 5 (lit "hello" ++ [ch_nl]))
           Examples.clock Examples.second_fails (lit "1.5"));
    (reflexivity || discriminate).
Defined.

(** Claim C4 fails on the same input: the one diagnostic of the detector
    reports the replacement as a deletion, and nothing else is printed. *)
Lemma on_text_change_equal_length_reported_as_delete :
  length (lit "hellp" ++ [ch_nl]) = length (lit "hello" ++ [ch_nl])
  /\ lit "hellp" ++ [ch_nl] <> lit "hello" ++ [ch_nl]
  /\ snd (on_text_change IntegralFloat.repr
            (Examples.editor (lit "hellp") 5 (lit "hello" ++ [ch_nl]))
            Examples.clock Examples.second_fails)
     = [Printed (Detected_delete [] (lit "1.5"))]
  /\ existsb reports_edit
       (snd (on_text_change IntegralFloat.repr
               (Examples.editor (lit "hellp") 5 (lit "hello" ++ [ch_nl]))
               Examples.clock Examples.second_fails)) = true.
Proof. split; [reflexivity|]. split; [discriminate|]. split; reflexivity. Qed.




(** The second of three peers: two failed reads are retried after a sleep
    of one second each, the third ends the loop and the peer is gone. *)
Lemma read_from_stream_retries_witness :
  read_from_stream IntegralFloat.of_token (@editor_callback IntegralFloat.t)
    Examples.three_peers (Examples.editor (lit "ab") 0 (lit "ab" ++ [ch_nl]))
    (lit "peer2") [ReadRaises IOError; ReadRaises IOError]
  = (Reading 2, Examples.three_peers,
     Examples.editor (lit "ab") 0 (lit "ab" ++ [ch_nl]),
     [Printed (Error_reading (lit "peer2") IOError); Sleep 1;
      Printed (Error_reading (lit "peer2") IOError); Sleep 1])
  /\ exists net closing,
       read_from_stream IntegralFloat.of_token (@editor_callback IntegralFloat.t)
         Examples.three_peers (Examples.editor (lit "ab") 0 (lit "ab" ++ [ch_nl]))
         (lit "peer2")
         ([ReadRaises IOError; ReadRaises IOError]
            ++ [ReadRaises IOError; ReadReturns [123; 125]%N Examples.clock])
       = (Exited, net, Examples.editor (lit "ab") 0 (lit "ab" ++ [ch_nl]),
          [Printed (Error_reading (lit "peer2") IOError); Sleep 1;
           Printed (Error_reading (lit "peer2") IOError); Sleep 1]
            ++ [Printed (Error_reading (lit "peer2") IOError);
                Printed (Too_many_errors (lit "peer2"))] ++ closing)
       /\ ~ In (lit "peer2") (get_connected_peers net).
Proof.
  split; [reflexivity|].
  pose proof (read_from_stream_retries IntegralFloat.t IntegralFloat.of_token Editor
                (@editor_callback IntegralFloat.t) (lit "peer2") Examples.three_peers
                (Examples.editor (lit "ab") 0 (lit "ab" ++ [ch_nl])))
    as (_ & Hstep & _).
  destruct (Hstep [ReadRaises IOError; ReadRaises IOError] 2%nat _ _ _ eq_refl)
    as (_ & _ & _ & _ & _ & Hthird).
  exact (Hthird IOError [ReadReturns [123; 125]%N Examples.clock] eq_refl).
Defined.

(** The scenario of the specification: three peers, the write to the second
    fails; the first and the third get the message, the second is evicted. *)
Lemma broadcast_change_spec_witness :
  NoDup (dict_keys (streams Examples.three_peers))
  /\ exists data,
       utf8_encode (to_json IntegralFloat.repr Examples.insert_x) = Ok data
       /\ writes (snd (broadcast_change IntegralFloat.repr Examples.three_peers
                         Examples.insert_x Examples.second_fails))
          = [(lit "peer1", 1%nat, data, Ok tt);
             (lit "peer2", 2%nat, data, Raise IOError);
             (lit "peer3", 3%nat, data, Ok tt)]
       /\ get_connected_peers
            (fst (fst (broadcast_change IntegralFloat.repr Examples.three_peers
                         Examples.insert_x Examples.second_fails)))
          = [lit "peer1"; lit "peer3"].
Proof.
  assert (Hn : NoDup (dict_keys (streams Examples.three_peers))).
  { repeat constructor; cbn; intuition discriminate. }
  split; [exact Hn|].
  destruct (broadcast_change_spec IntegralFloat.t IntegralFloat.repr
              IntegralFloat_token Examples.three_peers Examples.insert_x
              Examples.second_fails Hn) as (data & He & H).
  exists data. split; [exact He|].
  destruct (broadcast_change IntegralFloat.repr Examples.three_peers
              Examples.insert_x Examples.second_fails) as [[net ok] evs].
  destruct H as (_ & Hw & Hs & _). cbn [fst snd]. split; [exact Hw|].
  unfold get_connected_peers. rewrite Hs. reflexivity.
Defined.

(** Typing [x] between [a] and [b]. *)
Lemma on_text_change_one_sided_witness :
  In (mkTextChange (lit "1.2") (lit "x") [] Examples.clock)
     (broadcasts
        (snd (on_text_change IntegralFloat.repr
                (Examples.editor (lit "axb") 2 (lit "ab" ++ [ch_nl]))
                Examples.clock Examples.second_fails)))
  /\ one_sided (mkTextChange (lit "1.2") (lit "x") [] Examples.clock).
Proof.
  assert (H : In (mkTextChange (lit "1.2") (lit "x") [] Examples.clock)
                (broadcasts
                   (snd (on_text_change IntegralFloat.repr
                           (Examples.editor (lit "axb") 2 (lit "ab" ++ [ch_nl]))
                           Examples.clock Examples.second_fails)))).
  { left. reflexivity. }
  split; [exact H|].
  exact (on_text_change_one_sided IntegralFloat.t IntegralFloat.repr
           (Examples.editor (lit "axb") 2 (lit "ab" ++ [ch_nl]))
           Examples.clock Examples.second_fails _ H).
Defined.

(* ------------------------------------------------------------------------ *)
(** ** Further properties at concrete inputs *)

(** Typing [x] between [a] and [b]: the insertion is found at index 1 and
    sent with the cursor position after it. *)
Lemma on_text_change_detects_insert_witness :
  (applying_remote_change (Examples.editor (lit "axb") 2 (lit "ab" ++ [ch_nl])) = false
   /\ get_cursor_position (Examples.editor (lit "axb") 2 (lit "ab" ++ [ch_nl]))
      = Ok (lit "1.2")
   /\ (length (lit "ab" ++ [ch_nl]) < length (lit "axb" ++ [ch_nl]))%nat
   /\ first_diff (lit "axb" ++ [ch_nl]) (lit "ab" ++ [ch_nl]) 1
   /\ (1 < length (lit "ab" ++ [ch_nl]))%nat)
  /\ broadcasts
       (snd (on_text_change IntegralFloat.repr
               (Examples.editor (lit "axb") 2 (lit "ab" ++ [ch_nl]))
               Examples.clock Examples.second_fails))
     = [mkTextChange (lit "1.2") (lit "x") [] Examples.clock].
Proof.
  assert (Hd : first_diff (lit "axb" ++ [ch_nl]) (lit "ab" ++ [ch_nl]) 1).
  { split; [discriminate|]. intros [|j] Hj; [reflexivity | lia]. }
  assert (H1 : (length (lit "ab" ++ [ch_nl]) < length (lit "axb" ++ [ch_nl]))%nat)
    by (cbn; lia).
  assert (H2 : (1 < length (lit "ab" ++ [ch_nl]))%nat) by (cbn; lia).
  split; [repeat split; (reflexivity || assumption || apply Hd)|].
  exact (on_text_change_detects_insert IntegralFloat.t IntegralFloat.repr
           (Examples.editor (lit "axb") 2 (lit "ab" ++ [ch_nl]))
           Examples.clock Examples.second_fails (lit "1.2") 1
           eq_refl eq_refl H1 Hd H2).
Defined.

(** Removing the last line of the two-line document [ab], [cd], newline
    included: the content goes from [ab\ncd\n] to [ab\n] and nothing is
    sent. *)
Lemma on_text_change_misses_truncation_witness :
  (applying_remote_change
     (Examples.editor (lit "ab") 2 (lit "ab" ++ [ch_nl] ++ lit "cd" ++ [ch_nl])) = false
   /\ get_cursor_position
        (Examples.editor (lit "ab") 2 (lit "ab" ++ [ch_nl] ++ lit "cd" ++ [ch_nl]))
      = Ok (lit "1.2")
   /\ previous_content
        (Examples.editor (lit "ab") 2 (lit "ab" ++ [ch_nl] ++ lit "cd" ++ [ch_nl]))
      = buffer (text_area
                  (Examples.editor (lit "ab") 2
                     (lit "ab" ++ [ch_nl] ++ lit "cd" ++ [ch_nl])))
        ++ (lit "cd" ++ [ch_nl])
   /\ lit "cd" ++ [ch_nl] <> [])
  /\ on_text_change IntegralFloat.repr
       (Examples.editor (lit "ab") 2 (lit "ab" ++ [ch_nl] ++ lit "cd" ++ [ch_nl]))
       Examples.clock Examples.second_fails
     = (with_previous_content
          (Examples.editor (lit "ab") 2 (lit "ab" ++ [ch_nl] ++ lit "cd" ++ [ch_nl]))
          (lit "ab" ++ [ch_nl]),
        [Printed (Detected_delete [] (lit "1.2"))]).
Proof.
  split; [repeat split; (reflexivity || discriminate)|].
  apply (on_text_change_misses_truncation IntegralFloat.t IntegralFloat.repr
           (Examples.editor (lit "ab") 2 (lit "ab" ++ [ch_nl] ++ lit "cd" ++ [ch_nl]))
           Examples.clock Examples.second_fails (lit "1.2") (lit "cd" ++ [ch_nl]));
    (reflexivity || discriminate).
Defined.


(** Applying the deletion of [b] at [1.1] of [abc] gives [ac]. *)
Lemma apply_remote_change_delete_witness :
  (insert Examples.delete_b = []
   /\ delete Examples.delete_b <> []
   /\ addresses (text_area (Examples.editor (lit "abc") 0 (lit "abc" ++ [ch_nl])))
        (position Examples.delete_b) 1
   /\ (1 + length (delete Examples.delete_b)
       <= length (chars (text_area (Examples.editor (lit "abc") 0 (lit "abc" ++ [ch_nl])))))%nat
   /\ slice (buffer (text_area (Examples.editor (lit "abc") 0 (lit "abc" ++ [ch_nl]))))
        1 (1 + length (delete Examples.delete_b))
      = delete Examples.delete_b)
  /\ text_area (cur (apply_remote_change
                       (Examples.editor (lit "abc") 0 (lit "abc" ++ [ch_nl]))
                       Examples.delete_b))
     = mkText (lit "ac") 1
  /\ out (apply_remote_change (Examples.editor (lit "abc") 0 (lit "abc" ++ [ch_nl]))
            Examples.delete_b)
     = [Printed (Applied_delete (lit "b") (lit "1.1"))].
Proof.
  assert (H1 : delete Examples.delete_b <> []) by discriminate.
  assert (H2 : addresses (text_area (Examples.editor (lit "abc") 0 (lit "abc" ++ [ch_nl])))
                 (position Examples.delete_b) 1).
  { split; [reflexivity | cbn; lia]. }
  assert (H3 : (1 + length (delete Examples.delete_b)
                <= length (chars (text_area
                     (Examples.editor (lit "abc") 0 (lit "abc" ++ [ch_nl])))))%nat)
    by (cbn; lia).
  split; [repeat split; (reflexivity || assumption || apply H2)|].
  pose proof (apply_remote_change_delete IntegralFloat.t
                (Examples.editor (lit "abc") 0 (lit "abc" ++ [ch_nl]))
                Examples.delete_b 1 eq_refl H1 H2 H3 eq_refl) as (Hc & Ho & _).
  split; [exact Hc | exact Ho].
Defined.

(** The second of three peers connects again on a new stream: it keeps its
    place in the list and its entry holds the new stream. *)
Lemma register_stream_replaces_witness :
  NoDup (get_connected_peers Examples.three_peers)
  /\ get_connected_peers (register_stream Examples.three_peers (lit "peer2") 9%nat)
     = [lit "peer1"; lit "peer2"; lit "peer3"]
  /\ dict_get (streams (register_stream Examples.three_peers (lit "peer2") 9%nat))
       (lit "peer2") = Ok 9%nat.
Proof.
  assert (Hn : NoDup (get_connected_peers Examples.three_peers)).
  { repeat constructor; cbn; intuition discriminate. }
  split; [exact Hn|].
  pose proof (register_stream_replaces Examples.three_peers (lit "peer2") 9%nat Hn)
    as (_ & _ & Hg & _ & Hk).
  split; [|exact Hg].
  apply Hk. right. left. reflexivity.
Defined.

(** Three distinct peers stay distinct when the first one connects again. *)
Lemma connected_peers_stay_distinct_witness :
  NoDup (get_connected_peers Examples.three_peers)
  /\ NoDup (get_connected_peers
              (register_stream Examples.three_peers (lit "peer1") 7%nat)).
Proof.
  assert (Hn : NoDup (get_connected_peers Examples.three_peers)).
  { repeat constructor; cbn; intuition discriminate. }
  split; [exact Hn|].
  pose proof (connected_peers_stay_distinct IntegralFloat.t IntegralFloat.repr
                IntegralFloat.of_token Editor (@editor_callback IntegralFloat.t)
                Examples.three_peers Hn) as (Hr & _).
  apply Hr.
Defined.

(** After two read failures the peer sends [{}], an object without the
    keys of a record, and a byte that is not UTF-8: two lines are printed,
    the editor is as it was, and the next read failure counts as the
    first. *)
Lemma garbage_is_dropped_witness :
  ((length [IOError; IOError] < max_retries)%nat
   /\ not_a_record IntegralFloat.of_token [123; 125]%N = true
   /\ not_a_record IntegralFloat.of_token [255]%N = true)
  /\ exists ms,
       length ms = 2%nat
       /\ read_from_stream IntegralFloat.of_token (@editor_callback IntegralFloat.t)
            Examples.three_peers (Examples.editor (lit "ab") 0 (lit "ab" ++ [ch_nl]))
            (lit "peer1")
            (map ReadRaises [IOError; IOError]
               ++ [ReadReturns [123; 125]%N Examples.clock;
                   ReadReturns [255]%N Examples.clock]
               ++ [ReadRaises IOError])
          = (Reading 1, Examples.three_peers,
             Examples.editor (lit "ab") 0 (lit "ab" ++ [ch_nl]),
             [Printed (Error_reading (lit "peer1") IOError); Sleep 1;
              Printed (Error_reading (lit "peer1") IOError); Sleep 1]
               ++ map Printed ms
               ++ [Printed (Error_reading (lit "peer1") IOError); Sleep 1]).
Proof.
  assert (H1 : (length [IOError; IOError] < max_retries)%nat)
    by (unfold max_retries; cbn; lia).
  split; [repeat split; (reflexivity || assumption)|].
  apply (garbage_is_dropped IntegralFloat.t IntegralFloat.of_token Editor
           (@editor_callback IntegralFloat.t) Examples.three_peers
           (Examples.editor (lit "ab") 0 (lit "ab" ++ [ch_nl])) (lit "peer1")
           [IOError; IOError]
           [ReadReturns [123; 125]%N Examples.clock; ReadReturns [255]%N Examples.clock]
           [ReadRaises IOError] H1).
  - discriminate.
  - repeat constructor.
    + exists 123%N, [125%N], Examples.clock. split; reflexivity.
    + exists 255%N, [], Examples.clock. split; reflexivity.
Defined.

(** What the first of three peers is sent for the insertion of an emoji, an
    accented letter, a newline, a quote and a lone surrogate makes the editor
    at the other end apply that insertion. *)
Lemma broadcast_is_received_witness :
  (well_formed (position Examples.unicode_insert) = true
   /\ well_formed (insert Examples.unicode_insert) = true
   /\ well_formed (delete Examples.unicode_insert) = true)
  /\ exists data,
       In (WriteTo (lit "peer1") 1%nat data (Ok tt))
          (snd (broadcast_change IntegralFloat.repr Examples.three_peers
                  Examples.unicode_insert Examples.second_fails))
       /\ process_data IntegralFloat.of_token (@editor_callback IntegralFloat.t)
            (lit "peer9") data 0%N
            (Examples.editor (lit "abc") 0 (lit "abc" ++ [ch_nl]))
          = (cur (apply_remote_change
                    (Examples.editor (lit "abc") 0 (lit "abc" ++ [ch_nl]))
                    Examples.unicode_insert),
             Printed (Received_change (lit "peer9")
                        (to_json IntegralFloat.repr Examples.unicode_insert))
             :: out (apply_remote_change
                       (Examples.editor (lit "abc") 0 (lit "abc" ++ [ch_nl]))
                       Examples.unicode_insert)).
Proof.
  split; [repeat split; reflexivity|].
  eexists. split; [left; reflexivity|].
  apply (broadcast_is_received IntegralFloat.t IntegralFloat.repr IntegralFloat.of_token
           IntegralFloat_round_trip IntegralFloat_token Editor
           (@editor_callback IntegralFloat.t) Examples.three_peers
           Examples.unicode_insert Examples.second_fails (lit "peer1") 1%nat _ (Ok tt)
           (lit "peer9") 0%N (Examples.editor (lit "abc") 0 (lit "abc" ++ [ch_nl])));
    try reflexivity.
  left. reflexivity.
Defined.

(** Opening a file that holds [hi] in an editor that shows [ab]. *)
Lemma open_file_loads_witness :
  lit "notes.txt" <> []
  /\ chars (text_area (fst (open_file (Examples.editor (lit "ab") 0 (lit "ab" ++ [ch_nl]))
                              (lit "notes.txt") (Ok (lit "hi")))))
     = lit "hi"
  /\ open_file (Examples.editor (lit "ab") 0 (lit "ab" ++ [ch_nl]))
       (lit "notes.txt") (Raise IOError)
     = (Examples.editor (lit "ab") 0 (lit "ab" ++ [ch_nl]), [Could_not_open IOError]).
Proof.
  assert (Hp : lit "notes.txt" <> []) by discriminate.
  split; [exact Hp|].
  pose proof (open_file_loads (Examples.editor (lit "ab") 0 (lit "ab" ++ [ch_nl]))
                (lit "notes.txt") Hp) as (Hok & Herr).
  split; [apply (Hok (lit "hi")) | apply Herr].
Defined.

(** Saving [ab] and opening the file again shows [ab] and an empty line. *)
Lemma save_then_open_adds_newline_witness :
  (lit "notes.txt" <> []
   /\ In (File_written (lit "ab" ++ [ch_nl]))
         (save_file (Examples.editor (lit "ab") 0 (lit "ab" ++ [ch_nl]))
            (lit "notes.txt") Examples.disk_ok))
  /\ chars (text_area
              (fst (open_file (Examples.editor [] 0 [ch_nl]) (lit "notes.txt")
                      (Ok (lit "ab" ++ [ch_nl])))))
     = lit "ab" ++ [ch_nl].
Proof.
  assert (Hp : lit "notes.txt" <> []) by discriminate.
  assert (Hs : In (File_written (lit "ab" ++ [ch_nl]))
                 (save_file (Examples.editor (lit "ab") 0 (lit "ab" ++ [ch_nl]))
                    (lit "notes.txt") Examples.disk_ok)).
  { left. reflexivity. }
  split; [split; assumption|].
  exact (save_then_open_adds_newline
           (Examples.editor (lit "ab") 0 (lit "ab" ++ [ch_nl]))
           (Examples.editor [] 0 [ch_nl])
           (lit "notes.txt") (lit "notes.txt") (lit "ab" ++ [ch_nl])
           Examples.disk_ok Hp Hs).
Defined.

(** The [b] of [abc] is removed on one editor; a second editor that shows
    [abc] is given the record and shows [ac] with the cursor at the same
    place. *)
Lemma deletion_reaches_peer_witness :
  (applying_remote_change (Examples.editor (lit "ac") 1 (lit "abc" ++ [ch_nl])) = false
   /\ previous_content (Examples.editor (lit "ac") 1 (lit "abc" ++ [ch_nl]))
      = lit "a" ++ lit "b" ++ lit "c" ++ [ch_nl]
   /\ text_area (Examples.editor (lit "ac") 1 (lit "abc" ++ [ch_nl]))
      = mkText (lit "a" ++ lit "c") (length (lit "a"))
   /\ lit "b" <> []
   /\ nth_error (lit "b") 0 <> nth_error (lit "c" ++ [ch_nl]) 0
   /\ chars (text_area (Examples.editor (lit "abc") 3 (lit "abc" ++ [ch_nl])))
      = lit "a" ++ lit "b" ++ lit "c")
  /\ exists c,
       broadcasts (snd (on_text_change IntegralFloat.repr
                          (Examples.editor (lit "ac") 1 (lit "abc" ++ [ch_nl]))
                          Examples.clock Examples.all_succeed)) = [c]
       /\ delete c = lit "b"
       /\ text_area (cur (apply_remote_change
                            (Examples.editor (lit "abc") 3 (lit "abc" ++ [ch_nl])) c))
          = mkText (lit "ac") 1
       /\ previous_content
            (cur (apply_remote_change
                    (Examples.editor (lit "abc") 3 (lit "abc" ++ [ch_nl])) c))
          = lit "ac" ++ [ch_nl].
Proof.
  assert (H1 : lit "b" <> []) by discriminate.
  assert (H2 : nth_error (lit "b") 0 <> nth_error (lit "c" ++ [ch_nl]) 0) by discriminate.
  split; [repeat split; (reflexivity || assumption)|].
  exact (deletion_reaches_peer IntegralFloat.t IntegralFloat.repr
           (Examples.editor (lit "ac") 1 (lit "abc" ++ [ch_nl]))
           (Examples.editor (lit "abc") 3 (lit "abc" ++ [ch_nl]))
           Examples.clock Examples.all_succeed (lit "a") (lit "b") (lit "c")
           eq_refl eq_refl eq_refl H1 H2 eq_refl).
Defined.

(** File > New on an editor that shows [abc]: the next call of the detector
    sends the deletion of [abc] at [1.0]. *)
Lemma new_file_is_broadcast_witness :
  (applying_remote_change (Examples.editor (lit "abc") 3 (lit "abc" ++ [ch_nl])) = false
   /\ in_sync (Examples.editor (lit "abc") 3 (lit "abc" ++ [ch_nl]))
   /\ chars (text_area (Examples.editor (lit "abc") 3 (lit "abc" ++ [ch_nl])))
      = 97%N :: lit "bc"
   /\ 97%N <> ch_nl
   /\ (insert_mark (text_area (Examples.editor (lit "abc") 3 (lit "abc" ++ [ch_nl])))
       <= length (chars (text_area
                           (Examples.editor (lit "abc") 3 (lit "abc" ++ [ch_nl])))))%nat)
  /\ exists self',
       new_file (Examples.editor (lit "abc") 3 (lit "abc" ++ [ch_nl])) = Ok self'
       /\ broadcasts (snd (on_text_change IntegralFloat.repr self' Examples.clock
                             Examples.all_succeed))
          = [mkTextChange (lit "1.0") [] (97%N :: lit "bc") Examples.clock].
Proof.
  assert (H1 : 97%N <> ch_nl) by discriminate.
  assert (H2 : (insert_mark (text_area (Examples.editor (lit "abc") 3 (lit "abc" ++ [ch_nl])))
                <= length (chars (text_area
                     (Examples.editor (lit "abc") 3 (lit "abc" ++ [ch_nl])))))%nat)
    by (cbn; lia).
  split; [repeat split; (reflexivity || assumption)|].
  exact (new_file_is_broadcast IntegralFloat.t IntegralFloat.repr
           (Examples.editor (lit "abc") 3 (lit "abc" ++ [ch_nl]))
           Examples.clock Examples.all_succeed 97%N (lit "bc")
           eq_refl eq_refl eq_refl H1 H2).
Defined.

(** [c] is typed at the end of [ab]; a second editor that shows [ab] is given
    the record, which says [1.3], and shows [abc]. *)
Lemma insertion_at_line_end_reaches_peer_witness :
  (applying_remote_change (Examples.editor (lit "abc") 3 (lit "ab" ++ [ch_nl])) = false
   /\ previous_content (Examples.editor (lit "abc") 3 (lit "ab" ++ [ch_nl]))
      = lit "ab" ++ [] ++ [ch_nl]
   /\ text_area (Examples.editor (lit "abc") 3 (lit "ab" ++ [ch_nl]))
      = mkText (lit "ab" ++ lit "c" ++ []) (length (lit "ab") + length (lit "c"))
   /\ lit "c" <> []
   /\ ~ In ch_nl (lit "c")
   /\ line_length [] = O
   /\ chars (text_area (Examples.editor (lit "ab") 0 (lit "ab" ++ [ch_nl])))
      = lit "ab" ++ [])
  /\ exists c,
       broadcasts (snd (on_text_change IntegralFloat.repr
                          (Examples.editor (lit "abc") 3 (lit "ab" ++ [ch_nl]))
                          Examples.clock Examples.all_succeed)) = [c]
       /\ insert c = lit "c"
       /\ chars (text_area (cur (apply_remote_change
                                   (Examples.editor (lit "ab") 0 (lit "ab" ++ [ch_nl]))
                                   c)))
          = lit "abc"
       /\ previous_content
            (cur (apply_remote_change
                    (Examples.editor (lit "ab") 0 (lit "ab" ++ [ch_nl])) c))
          = lit "abc" ++ [ch_nl].
Proof.
  assert (H1 : lit "c" <> []) by discriminate.
  assert (H2 : ~ In ch_nl (lit "c")) by (intros [H|[]]; discriminate).
  split; [repeat split; (reflexivity || assumption)|].
  exact (insertion_at_line_end_reaches_peer IntegralFloat.t IntegralFloat.repr
           (Examples.editor (lit "abc") 3 (lit "ab" ++ [ch_nl]))
           (Examples.editor (lit "ab") 0 (lit "ab" ++ [ch_nl]))
           Examples.clock Examples.all_succeed (lit "ab") (lit "c") []
           eq_refl eq_refl eq_refl H1 H2 eq_refl eq_refl).
Defined.

(** [x] is typed between the [a] and the [b] of [ab]; a second editor that
    shows [ab] is given the record, which says [1.2], and shows [abx] where
    the first shows [axb]. *)
Lemma insertion_inside_line_is_misplaced_witness :
  (applying_remote_change (Examples.editor (lit "axb") 2 (lit "ab" ++ [ch_nl])) = false
   /\ previous_content (Examples.editor (lit "axb") 2 (lit "ab" ++ [ch_nl]))
      = lit "a" ++ lit "b" ++ [ch_nl]
   /\ text_area (Examples.editor (lit "axb") 2 (lit "ab" ++ [ch_nl]))
      = mkText (lit "a" ++ lit "x" ++ lit "b") (length (lit "a") + length (lit "x"))
   /\ lit "x" <> []
   /\ ~ In ch_nl (lit "x")
   /\ (0 < line_length (lit "b"))%nat
   /\ nth_error (lit "x") 0 <> nth_error (lit "b") 0
   /\ chars (text_area (Examples.editor (lit "ab") 0 (lit "ab" ++ [ch_nl])))
      = lit "a" ++ lit "b")
  /\ exists c,
       broadcasts (snd (on_text_change IntegralFloat.repr
                          (Examples.editor (lit "axb") 2 (lit "ab" ++ [ch_nl]))
                          Examples.clock Examples.all_succeed)) = [c]
       /\ insert c = lit "x"
       /\ chars (text_area (cur (apply_remote_change
                                   (Examples.editor (lit "ab") 0 (lit "ab" ++ [ch_nl]))
                                   c)))
          = lit "abx"
       /\ chars (text_area (cur (apply_remote_change
                                   (Examples.editor (lit "ab") 0 (lit "ab" ++ [ch_nl]))
                                   c)))
          <> lit "axb".
Proof.
  assert (H1 : lit "x" <> []) by discriminate.
  assert (H2 : ~ In ch_nl (lit "x")) by (intros [H|[]]; discriminate).
  assert (H3 : (0 < line_length (lit "b"))%nat) by (cbn; lia).
  assert (H4 : nth_error (lit "x") 0 <> nth_error (lit "b") 0) by discriminate.
  split; [repeat split; (reflexivity || assumption)|].
  exact (insertion_inside_line_is_misplaced IntegralFloat.t IntegralFloat.repr
           (Examples.editor (lit "axb") 2 (lit "ab" ++ [ch_nl]))
           (Examples.editor (lit "ab") 0 (lit "ab" ++ [ch_nl]))
           Examples.clock Examples.all_succeed (lit "a") (lit "x") (lit "b")
           eq_refl eq_refl eq_refl H1 H2 H3 H4 eq_refl).
Defined.
